(** * morphMan, area manipulation: [get_factor] and [change_area]

    A shallow embedding of [morphman/manipulate_area.py] together with the
    helpers of [morphman/common/vtk_wrapper.py] it calls.

    - Floating-point numbers are modelled by the real numbers of the
      Standard Library: every statement below is about exact arithmetic,
      rounding is not modelled.
    - A Python call either returns, raises, or (numpy and VTK only)
      goes on with a value the real-valued model cannot hold (inf, nan,
      a read outside a VTK buffer).  The three cases are the three
      constructors of [outcome].
    - numpy arrays of shape (N,) and (N,1) are lists of reals; points are
      triples. *)

From Stdlib Require Import Reals Lra Lia ZArith String.
From stdpp Require Import base list strings gmap.

Open Scope R_scope.

#[global] Instance R_eq_dec : EqDecision R := Req_dec_T.
#[global] Instance Rlt_decision (x y : R) : Decision (x < y) := Rlt_dec x y.
#[global] Instance Rle_decision (x y : R) : Decision (x <= y) := Rle_dec x y.

(** ** Outcomes of a Python call *)

Module Py.

(** The exceptions the modelled code can raise.  [SystemExit] is what
    [argparse] raises on a rejected command line. *)
Inductive exn : Set :=
| IndexError
| ValueError
| ZeroDivisionError
| UnboundLocalError
| TypeError
| AttributeError
| SystemExit.

(** Why a run leaves the model: numpy produced inf or nan (it warns and
    goes on), or VTK was asked for an element outside a buffer (it does
    not check).  Nothing is predicted about such a run. *)
Inductive why : Set :=
| NonFinite
| VtkOutOfRange.

Inductive outcome (A : Type) : Type :=
| Ok (a : A)
| Raise (e : exn)
| OutOfModel (w : why).

Arguments Ok {A} a.
Arguments Raise {A} e.
Arguments OutOfModel {A} w.

Definition bind {A B : Type} (m : outcome A) (k : A -> outcome B) : outcome B :=
  match m with
  | Ok a => k a
  | Raise e => Raise e
  | OutOfModel w => OutOfModel w
  end.

(** [for x in xs: s = body x s], stopping at the first run that does not
    return. *)
Fixpoint for_each {A S : Type} (xs : list A) (body : A -> S -> outcome S) (s : S)
  : outcome S :=
  match xs with
  | [] => Ok s
  | x :: xs' => bind (body x s) (for_each xs' body)
  end.

(** [[f x for x in xs]] *)
Fixpoint map_each {A B : Type} (f : A -> outcome B) (xs : list A) : outcome (list B) :=
  match xs with
  | [] => Ok []
  | x :: xs' => bind (f x) (fun y => bind (map_each f xs') (fun ys => Ok (y :: ys)))
  end.

(** [xs[i]] on a Python list or a 1-D numpy array, for [i >= 0]. *)
Definition getitem {A : Type} (xs : list A) (i : nat) : outcome A :=
  match xs !! i with
  | Some x => Ok x
  | None => Raise IndexError
  end.

(** [len(x)] where [x] may be [None]. *)
Definition len {A : Type} (x : option (list A)) : outcome nat :=
  match x with
  | Some l => Ok (length l)
  | None => Raise TypeError
  end.

(** [a / b] on Python floats. *)
Definition truediv (a b : R) : outcome R :=
  if decide (b = 0) then Raise ZeroDivisionError else Ok (a / b).

(** [math.log(x)] *)
Definition math_log (x : R) : outcome R :=
  if decide (0 < x) then Ok (ln x) else Raise ValueError.

(** [int(round(n * 0.10, 0))] for a length [n].  [round] rounds halves to
    the even neighbour, and the double [n * 0.10] is exactly [n / 10]
    whenever that is a half, so the result is [n / 10] rounded half to
    even. *)
Definition round_tenth (n : nat) : nat :=
  let q := (n / 10)%nat in
  let r := (n mod 10)%nat in
  if (r <? 5)%nat then q
  else if (5 <? r)%nat then S q
  else if Nat.even q then q else S q.

End Py.

Export Py.

Notation "'do' x <- m ; k" := (Py.bind m (fun x => k))
  (at level 10, x name, m at level 100, k at level 200, only parsing).

(** ** numpy on one-dimensional arrays *)

Module Np.

Definition zeros (n : Z) : outcome (list R) :=
  if decide (n < 0)%Z then Raise ValueError else Ok (replicate (Z.to_nat n) 0).

Definition ones (n : nat) : list R := replicate n 1.

(** [np.linspace(start, stop, num)]: [num] evenly spaced samples, the
    last one being [stop] when [num > 1]. *)
Definition linspace (start stop : R) (num : nat) : list R :=
  match num with
  | O => []
  | S O => [start]
  | S d => (fun i : nat => start + INR i * ((stop - start) / INR d)) <$> seq 0 num
  end.

(** An elementwise binary operation on two arrays, with numpy's
    broadcasting of a length-1 array. *)
Definition broadcast {B : Type} (f : R -> R -> B) (xs ys : list R) : outcome (list B) :=
  if decide (length xs = length ys) then Ok (zip_with f xs ys)
  else match xs, ys with
       | [x], _ => Ok (f x <$> ys)
       | _, [y] => Ok ((fun x => f x y) <$> xs)
       | _, _ => Raise ValueError
       end.

Definition sum (xs : list R) : R := foldr Rplus 0 xs.

(** [np.mean(a)]; on an empty array numpy returns nan, which no run
    below ever combines with an element. *)
Definition mean (xs : list R) : R := sum xs / INR (length xs).

Definition max (xs : list R) : outcome R :=
  match xs with
  | [] => Raise ValueError
  | x :: xs' => Ok (foldr Rmax x xs')
  end.

Definition min (xs : list R) : outcome R :=
  match xs with
  | [] => Raise ValueError
  | x :: xs' => Ok (foldr Rmin x xs')
  end.

(** [a / b] on numpy floats: a zero divisor gives inf or nan. *)
Definition divide (a b : R) : outcome R :=
  if decide (b = 0) then OutOfModel NonFinite else Ok (a / b).

(** [a ** b] on numpy floats. *)
Definition power (a b : R) : outcome R :=
  if decide (0 < a) then Ok (Rpower a b)
  else if decide (b = 0) then Ok 1
  else if decide (a = 0) then
    (if decide (0 < b) then Ok 0 else OutOfModel NonFinite)
  else if decide (b = IZR (Int_part b)) then Ok (powerRZ a (Int_part b))
  else OutOfModel NonFinite.

Definition sqrt (a : R) : outcome R :=
  if decide (a < 0) then OutOfModel NonFinite else Ok (R_sqrt.sqrt a).

End Np.

(** ** VTK poly data *)

Module Vtk.

Definition point : Type := R * R * R.

Definition vsub (p q : point) : point :=
  let '(px, py, pz) := p in let '(qx, qy, qz) := q in (px - qx, py - qy, pz - qz).
Definition vadd (p q : point) : point :=
  let '(px, py, pz) := p in let '(qx, qy, qz) := q in (px + qx, py + qy, pz + qz).
Definition vscale (p : point) (c : R) : point :=
  let '(px, py, pz) := p in (px * c, py * c, pz * c).

(** A [vtkPolyData]: its points, its vertex cells, and its named
    one-component point-data arrays. *)
Record vtkPolyData : Type := mkPolyData {
  Points : list point;
  Verts : list (list nat);
  PointData : gmap string (list R)
}.

Definition radiusArrayName : string := "MaximumInscribedSphereRadius".

Definition GetNumberOfPoints (d : vtkPolyData) : nat := length (Points d).

(** [d.GetPoint(i)]; VTK does not check [i]. *)
Definition GetPoint (d : vtkPolyData) (i : nat) : outcome point :=
  match Points d !! i with
  | Some p => Ok p
  | None => OutOfModel VtkOutOfRange
  end.

(** [d.GetPointData().GetArray(name).GetTuple1]: the bound method of the
    named array; [GetArray] returns [None] when there is no such array. *)
Definition GetArray_GetTuple1 (d : vtkPolyData) (name : string) : outcome (list R) :=
  match PointData d !! name with
  | Some a => Ok a
  | None => Raise AttributeError
  end.

(** [a.GetTuple1(i)]; VTK does not check [i]. *)
Definition GetTuple1 (a : list R) (i : nat) : outcome R :=
  match a !! i with
  | Some x => Ok x
  | None => OutOfModel VtkOutOfRange
  end.

(** [a.SetTuple1(i, x)]; VTK does not check [i]. *)
Definition SetTuple1 (a : list R) (i : nat) (x : R) : outcome (list R) :=
  if decide (i < length a)%nat then Ok (<[i := x]> a) else OutOfModel VtkOutOfRange.

(** [get_vtk_array(name, 1, num)]: [num] tuples filled with 0.0. *)
Definition get_vtk_array (num : nat) : list R := replicate num 0.

(** [get_point_data_array(array_name, line)] with [k = 1]: the column of
    the (N,1) array. *)
Definition get_point_data_array (array_name : string) (line : vtkPolyData)
  : outcome (list R) :=
  do data_array <- GetArray_GetTuple1 line array_name;
  map_each (GetTuple1 data_array) (seq 0 (GetNumberOfPoints line)).

End Vtk.

Export Vtk.

(** ** scipy's Gaussian filter

    [get_factor] smooths the area array with [scipy.ndimage.gaussian_filter],
    which is not part of the repository: the model takes the filter as a
    parameter.  [Scipy.gaussian_filter] is the filter of scipy's
    documentation (default mode "reflect", truncation at four standard
    deviations) on a column, for concrete runs. *)

Module Scipy.

(** The offsets [-lw .. lw] of the kernel. *)
Definition offsets (lw : Z) : list Z :=
  (fun k : nat => (Z.of_nat k - lw)%Z) <$> seq 0 (Z.to_nat (2 * lw + 1)).

Definition weight (sigma : Z) (j : Z) : R :=
  exp (- (1 / 2) / IZR (sigma * sigma) * IZR (j * j)).

(** Mode "reflect": (d c b a | a b c d | d c b a). *)
Definition reflect (n : nat) (p : Z) : nat :=
  let q := (p mod (2 * Z.of_nat n))%Z in
  if decide (q < Z.of_nat n)%Z then Z.to_nat q else Z.to_nat (2 * Z.of_nat n - 1 - q).

Definition gaussian_filter (input : list R) (sigma : Z) : list R :=
  if decide (sigma <= 0)%Z then input
  else
    let lw := (4 * sigma)%Z in
    let total := Np.sum (weight sigma <$> offsets lw) in
    (fun i : nat =>
       Np.sum ((fun j => weight sigma j / total
                         * nth (reflect (length input) (Z.of_nat i + j)) input 0)
                 <$> offsets lw))
      <$> seq 0 (length input).

End Scipy.

(** ** The model of [manipulate_area.py] *)

(** Modelled from the spec: [get_curvilinear_coordinate] is a function of the
    repository that is not among the sources; it gives the arc-length
    coordinate of every centerline sample, starting at 0. *)
Definition distance (p q : point) : R :=
  let '(x, y, z) := vsub p q in R_sqrt.sqrt (x * x + y * y + z * z).

Fixpoint curvilinear_from (acc : R) (p : point) (ps : list point) : list R :=
  match ps with
  | [] => []
  | q :: ps' => let acc' := distance p q + acc in acc' :: curvilinear_from acc' q ps'
  end.

Definition get_curvilinear_coordinate (line : vtkPolyData) : list R :=
  match Points line with
  | [] => []
  | p :: ps => 0 :: curvilinear_from 0 p ps
  end.

(** [xs[-1]] *)
Definition getitem_last {A : Type} (xs : list A) : outcome A :=
  match last xs with
  | Some x => Ok x
  | None => Raise IndexError
  end.

(** The transition weights [trans] of [get_factor] for an area array of
    [n] rows. *)
Definition transition (region_of_interest method : string) (n : nat) : outcome (list R) :=
  let '(k, linear) :=
    if bool_decide (region_of_interest ∈ ["manual"; "commandline"])
       && bool_decide (method ∈ ["area"; "variation"])
    then let k := round_tenth n in (k, (Z.of_nat n - Z.of_nat k * 2)%Z)
    else (0%nat, Z.of_nat n) in
  do z <- Np.zeros linear;
  let trans := Np.linspace 1 0 k ++ z ++ Np.linspace 0 1 k in
  if decide (region_of_interest = "first_line") then
    let k := round_tenth n in
    let linear := (Z.of_nat n - Z.of_nat k)%Z in
    do z <- Np.zeros linear;
    Ok (z ++ Np.linspace 0 1 k)
  else Ok trans.

(** [factor * (1 - trans) + trans] *)
Definition blend (factor trans : list R) : outcome (list R) :=
  do scaled <- Np.broadcast Rmult factor ((fun t => 1 - t) <$> trans);
  Np.broadcast Rplus scaled trans.

(** The builder objects of [change_area]: [voronoi_points], [cell_array]
    and [radius_array]. *)
Record builder : Type := mkBuilder {
  voronoi_points : list point;
  cell_array : list (list nat);
  radius_array : list R
}.

Definition InsertNextPoint (p : point) (b : builder) : builder :=
  mkBuilder (voronoi_points b ++ [p]) (cell_array b) (radius_array b).

Definition InsertNextCell (b : builder) : builder :=
  mkBuilder (voronoi_points b) (cell_array b ++ [[]]) (radius_array b).

(** [cell_array.InsertCellPoint(i)] adds [i] to the cell opened last. *)
Definition InsertCellPoint (i : nat) (b : builder) : outcome builder :=
  match last (cell_array b) with
  | Some c =>
      Ok (mkBuilder (voronoi_points b)
            (<[pred (length (cell_array b)) := c ++ [i]]> (cell_array b))
            (radius_array b))
  | None => OutOfModel VtkOutOfRange
  end.

Definition radius_SetTuple1 (i : nat) (x : R) (b : builder) : outcome builder :=
  do a <- SetTuple1 (radius_array b) i x;
  Ok (mkBuilder (voronoi_points b) (cell_array b) a).

(** Python truth value of a [vtkPolyData] object or [None]. *)
Definition truthy {A : Type} (x : option A) : bool :=
  match x with Some _ => true | None => false end.

(** A method call on an object that may be [None]. *)
Definition deref {A : Type} (x : option A) : outcome A :=
  match x with Some a => Ok a | None => Raise AttributeError end.

(** The keyword arguments [read_command_line] returns, as far as the area
    manipulation uses them. *)
Record arguments : Type := mkArguments {
  arg_method : string;
  arg_region_of_interest : string;
  arg_region_points : option (list R);
  arg_beta : R;
  arg_ratio : option R;
  arg_stenosis_length : R;
  arg_percentage : R;
  arg_no_smooth_point : option (list R)
}.

(** An option declared with [choices]: [parse_args] exits on any other
    value. *)
Definition argparse_choices (value : string) (choices : list string) : outcome string :=
  if bool_decide (value ∈ choices) then Ok value else Raise SystemExit.

Section Model.

(** [scipy.ndimage.gaussian_filter(input, sigma)] on a column. *)
Variable gaussian_filter : list R -> Z -> list R.

(** [vtkStaticPointLocator.FindClosestPoint] over the points of the data
    set the locator was built on. *)
Variable FindClosestPoint : list point -> point -> nat.

Definition vtk_point_locator (centerline : vtkPolyData) : list point :=
  Points centerline.

Definition get_factor (line_to_change : vtkPolyData) (method : string) (beta : R)
    (ratio : option R) (percentage : R) (region_of_interest : string)
    (region_points : option (list R)) : outcome (list R) :=
  (* Array to change the radius *)
  do area <- get_point_data_array "CenterlineSectionArea" line_to_change;
  (* Safety smoothing *)
  let area := gaussian_filter (gaussian_filter area 5) 5 in
  let mean_area := Np.mean area in
  (* Linear transition *)
  do trans <- transition region_of_interest method (length area);
  (* Get factor *)
  if decide (method = "variation") then
    match ratio with
    | Some ratio =>
        do area_max <- Np.max area;
        do area_min <- Np.min area;
        do R_old <- Np.divide area_max area_min;
        do log_ratio <- math_log ratio;
        do log_R_old <- math_log R_old;
        do quotient <- truediv log_ratio log_R_old;
        let beta := 0.5 * (quotient - 1) in
        do relative <- map_each (fun a => Np.divide a mean_area) area;
        do factor_ <- map_each (fun x => Np.power x beta) relative;
        blend factor_ trans
    | None =>
        do relative <- map_each (fun a => Np.divide a mean_area) area;
        do factor_ <- map_each (fun x => Np.power x beta) relative;
        blend factor_ trans
    end
  else if decide (method = "stenosis") then
    do n <- len region_points;
    if decide (n = 3%nat) then
      let t := Np.linspace 0 PI (GetNumberOfPoints line_to_change) in
      let factor := (fun ti => 1 - sin ti * percentage * 0.01) <$> t in
      blend factor trans
    else if decide (n = 6%nat) then
      let length_ := get_curvilinear_coordinate line_to_change in
      do area_first <- getitem area 0;
      do area_last <- getitem_last area;
      do length_max <- Np.max length_;
      do s <- map_each (fun l => Np.divide l length_max) length_;
      let target := (fun si => area_first + (area_last - area_first) * si) <$> s in
      do quotients <- Np.broadcast Np.divide target area;
      do factor <- map_each (fun q => q) quotients;
      do factor <- map_each Np.sqrt factor;
      blend factor trans
    else Raise UnboundLocalError
  (* Increase or decrease overall area by a percentage *)
  else if decide (method = "area") then
    let factor_ := (fun one => one * (1 + percentage * 0.01)) <$> Np.ones (length trans) in
    blend factor_ trans
  else Raise UnboundLocalError.

(** The array a branch of [get_factor] computes before it blends it with
    [trans] ([factor_] in the code), for the smoothed [area] and a
    transition of [n_trans] weights. *)
Definition raw_factor (line_to_change : vtkPolyData) (area : list R) (n_trans : nat)
    (method : string) (beta : R) (ratio : option R) (percentage : R)
    (region_points : option (list R)) : outcome (list R) :=
  let mean_area := Np.mean area in
  if decide (method = "variation") then
    do beta <- match ratio with
               | Some ratio =>
                   do area_max <- Np.max area;
                   do area_min <- Np.min area;
                   do R_old <- Np.divide area_max area_min;
                   do log_ratio <- math_log ratio;
                   do log_R_old <- math_log R_old;
                   do quotient <- truediv log_ratio log_R_old;
                   Ok (0.5 * (quotient - 1))
               | None => Ok beta
               end;
    do relative <- map_each (fun a => Np.divide a mean_area) area;
    map_each (fun x => Np.power x beta) relative
  else if decide (method = "stenosis") then
    do n <- len region_points;
    if decide (n = 3%nat) then
      Ok ((fun ti => 1 - sin ti * percentage * 0.01)
            <$> Np.linspace 0 PI (GetNumberOfPoints line_to_change))
    else if decide (n = 6%nat) then
      let length_ := get_curvilinear_coordinate line_to_change in
      do area_first <- getitem area 0;
      do area_last <- getitem_last area;
      do length_max <- Np.max length_;
      do s <- map_each (fun l => Np.divide l length_max) length_;
      let target := (fun si => area_first + (area_last - area_first) * si) <$> s in
      do quotients <- Np.broadcast Np.divide target area;
      do factor <- map_each (fun q => q) quotients;
      map_each Np.sqrt factor
    else Raise UnboundLocalError
  else if decide (method = "area") then
    Ok ((fun one => one * (1 + percentage * 0.01)) <$> Np.ones n_trans)
  else Raise UnboundLocalError.

(** One pass of the loop over the Voronoi diagram of the region of
    interest. *)
Definition manipulate_point (voronoi line_to_change : vtkPolyData) (locator : list point)
    (factor point_radius_array : list R) (i : nat) (b : builder) : outcome builder :=
  do point <- GetPoint voronoi i;
  let tmp_id := FindClosestPoint locator point in
  do closest <- GetPoint line_to_change tmp_id;
  let v1 := vsub closest point in
  do f <- getitem factor tmp_id;
  let v2 := vscale v1 (1 - f) in
  let point := vadd point v2 in
  (* Change radius *)
  do radius <- GetTuple1 point_radius_array i;
  let point_radius := radius * f in
  let b := InsertNextPoint point b in
  do b <- radius_SetTuple1 i point_radius b;
  let b := InsertNextCell b in
  InsertCellPoint i b.

(** One pass of the inner loop over a diverging Voronoi diagram. *)
Definition offset_point (diverging_voro : vtkPolyData) (v2 : point)
    (point_radius_array : list R) (i : nat) (state : builder * nat)
  : outcome (builder * nat) :=
  let '(b, count) := state in
  do point <- GetPoint diverging_voro i;
  let point := vadd point v2 in
  let b := InsertNextPoint point b in
  do radius <- GetTuple1 point_radius_array i;
  do b <- radius_SetTuple1 count radius b;
  let b := InsertNextCell b in
  do b <- InsertCellPoint count b;
  Ok (b, S count).

(** One pass of the loop over the diverging centerlines. *)
Definition offset_branch (line_to_change : vtkPolyData) (locator : list point)
    (factor : list R) (diverging_centerline : list vtkPolyData)
    (diverging_voronoi : list (option vtkPolyData)) (j : nat) (state : builder * nat)
  : outcome (builder * nat) :=
  (* Get offset for Voronoi diagram *)
  do centerline <- getitem diverging_centerline j;
  do point <- GetPoint centerline 0;
  let tmp_id := FindClosestPoint locator point in
  do closest <- GetPoint line_to_change tmp_id;
  let v1 := vsub closest point in
  do f <- getitem factor tmp_id;
  let v2 := vscale v1 (1 - f) in
  (* Offset Voronoi diagram *)
  do entry <- getitem diverging_voronoi j;
  do diverging_voro <- deref entry;
  do point_radius_array <- GetArray_GetTuple1 diverging_voro radiusArrayName;
  for_each (seq 0 (GetNumberOfPoints diverging_voro))
    (offset_point diverging_voro v2 point_radius_array) state.

Definition change_area (voronoi line_to_change : vtkPolyData) (method : string)
    (beta : R) (ratio : option R) (percentage : R) (region_of_interest : string)
    (region_points : option (list R))
    (diverging_centerline : option (list vtkPolyData))
    (diverging_voronoi : list (option vtkPolyData)) : outcome vtkPolyData :=
  (* Get factor *)
  do factor <- get_factor line_to_change method beta ratio percentage
                 region_of_interest region_points;
  (* Locator to find closest point on centerline *)
  let locator := vtk_point_locator line_to_change in
  (* Voronoi diagram *)
  let n := GetNumberOfPoints voronoi in
  do first <- getitem diverging_voronoi 0;
  do m <- (if truthy first then
             do sizes <- map_each (fun diverging_voro =>
                                     do v <- deref diverging_voro;
                                     Ok (GetNumberOfPoints v)) diverging_voronoi;
             Ok (n + sum_list sizes)%nat
           else Ok n);
  let b := mkBuilder [] [] (get_vtk_array m) in
  (* Iterate through Voronoi diagram and manipulate *)
  do point_radius_array <- GetArray_GetTuple1 voronoi radiusArrayName;
  do b <- for_each (seq 0 n)
            (manipulate_point voronoi line_to_change locator factor point_radius_array) b;
  (* Offset Voronoi diagram along "diverging" centerlines *)
  do b <- match diverging_centerline with
          | Some diverging_centerline =>
              (* count = i + 1, with i left over from the loop above *)
              do count <- match n with
                          | O => Raise UnboundLocalError
                          | S i => Ok (i + 1)%nat
                          end;
              do state <- for_each (seq 0 (length diverging_voronoi))
                            (offset_branch line_to_change locator factor
                               diverging_centerline diverging_voronoi) (b, count);
              Ok (fst state)
          | None => Ok b
          end;
  Ok (mkPolyData (voronoi_points b) (cell_array b)
        (<[radiusArrayName := radius_array b]> ∅)).

(** [read_command_line]: the options are those the command line gave or
    their defaults; the checks are those of [parse_args] and of the
    function body. *)
Definition read_command_line (argv : arguments) : outcome arguments :=
  do method <- argparse_choices (arg_method argv) ["variation"; "stenosis"; "area"];
  do region_of_interest <-
    argparse_choices (arg_region_of_interest argv) ["manual"; "commandline"; "first_line"];
  if decide (method = "stenosis" /\ region_of_interest = "first_line")
  then Raise ValueError
  else
    do _ <- match arg_region_points argv with
            | Some region_points =>
                if decide ((length region_points mod 3)%nat <> 0%nat
                           \/ (6 < length region_points)%nat)
                then Raise ValueError else Ok tt
            | None => Ok tt
            end;
    do _ <- match arg_no_smooth_point argv with
            | Some no_smooth_point =>
                if decide (no_smooth_point <> []
                           /\ (length no_smooth_point mod 3)%nat <> 0%nat)
                then Raise ValueError else Ok tt
            | None => Ok tt
            end;
    Ok (mkArguments method region_of_interest (arg_region_points argv) (arg_beta argv)
          (arg_ratio argv) (arg_stenosis_length argv) (arg_percentage argv)
          (arg_no_smooth_point argv)).

(** [main_area] passes what [read_command_line] returns to
    [manipulate_area], whose body is a parameter here. *)
Definition main_area {A : Type} (manipulate_area : arguments -> outcome A)
    (argv : arguments) : outcome A :=
  do kwargs <- read_command_line argv;
  manipulate_area kwargs.

End Model.

(** ** The deformation of the specification

    The point cloud of a Voronoi diagram pairs every point with its radius.
    [deform] is the PointCloudDeformer of the specification and [translate]
    its BranchOffsetPropagator, over a nearest-sample lookup
    [nearest]. *)

Definition cloud (d : vtkPolyData) : list (point * R) :=
  zip (Points d) (default [] (PointData d !! radiusArrayName)).

Definition origin : point := (0, 0, 0).

Section Deformer.

Variable nearest : point -> nat.
Variable centerline : list point.
Variable factor : list R.

Definition displacement (a : point) : point :=
  let id := nearest a in
  vscale (vsub (nth id centerline origin) a) (1 - nth id factor 0).

Definition deform (p : point * R) : point * R :=
  (vadd p.1 (displacement p.1), p.2 * nth (nearest p.1) factor 0).

Definition translate (a : point) (B : list (point * R)) : list (point * R) :=
  (fun q => (vadd q.1 (displacement a), q.2)) <$> B.

End Deformer.

(** The attachment point of a branch: the first sample of its centerline. *)
Definition attachment (centerline : vtkPolyData) : point := hd origin (Points centerline).

(** A Voronoi diagram carries one radius per point. *)
Definition has_radius (d : vtkPolyData) : Prop :=
  exists radii, PointData d !! radiusArrayName = Some radii
                /\ length radii = GetNumberOfPoints d.

(** What a branch, a centerline with its Voronoi diagram, adds to the
    output, and what the loops need of it. *)
Definition moved_branch (nearest : point -> nat) (centerline : list point) (factor : list R)
    (branch : vtkPolyData * vtkPolyData) : list (point * R) :=
  translate nearest centerline factor (attachment branch.1) (cloud branch.2).

Definition branch_ok (branch : vtkPolyData * vtkPolyData) : Prop :=
  Points branch.1 <> [] /\ has_radius branch.2.

(** The output cloud of the specification: the deformed main cloud, then
    the branches in the order given. *)
Definition output_cloud (nearest : point -> nat) (centerline : list point) (factor : list R)
    (voronoi : vtkPolyData) (branches : list (vtkPolyData * vtkPolyData))
  : list (point * R) :=
  (deform nearest centerline factor <$> cloud voronoi)
  ++ concat (moved_branch nearest centerline factor <$> branches).

(** The Voronoi diagram of a cloud: one vertex cell per point. *)
Definition polydata_of_cloud (c : list (point * R)) : vtkPolyData :=
  mkPolyData c.*1 ((fun i => [i]) <$> seq 0 (length c)) (<[radiusArrayName := c.*2]> ∅).

(** Two kinds of input on which [change_area] returns, not a check the
    code makes.  Either there is no diverging centerline and the first
    diverging Voronoi diagram is [None]: the other entries are then never
    looked at, and the last argument is empty whatever they hold.  Or the
    main cloud is not empty and every diverging Voronoi diagram comes with
    its centerline: the last argument pairs them.  A call without diverging
    centerlines whose first diagram is not [None] returns as well; it is
    not among these. *)
Inductive diverging_ok (voronoi : vtkPolyData)
  : option (list vtkPolyData) -> list (option vtkPolyData)
    -> list (vtkPolyData * vtkPolyData) -> Prop :=
| no_diverging (rest : list (option vtkPolyData)) :
    diverging_ok voronoi None (None :: rest) []
| with_diverging (diverging_centerline voros : list vtkPolyData) :
    Points voronoi <> [] -> voros <> [] ->
    (length voros <= length diverging_centerline)%nat ->
    Forall branch_ok (zip diverging_centerline voros) ->
    diverging_ok voronoi (Some diverging_centerline) (Some <$> voros)
      (zip diverging_centerline voros).

(** A centerline carries one section area per sample. *)
Definition has_area (line : vtkPolyData) : Prop :=
  exists area, PointData line !! "CenterlineSectionArea" = Some area
               /\ length area = GetNumberOfPoints line.

(** The exponent the specification solves from a target ratio. *)
Definition solved_beta (ratio R_old : R) : R := 0.5 * (ln ratio / ln R_old - 1).

(** The transition of the specification: [round(0.10 * N)] samples at
    each end, or at the trailing end only for "first_line", whatever the
    method. *)
Definition spec_transition (region_of_interest : string) (n : nat) : list R :=
  let k := round_tenth n in
  if decide (region_of_interest = "first_line")
  then replicate (n - k) 0 ++ Np.linspace 0 1 k
  else Np.linspace 1 0 k ++ replicate (n - 2 * k) 0 ++ Np.linspace 0 1 k.

(** ** A point locator for concrete runs

    The sample closest to [q], the first one among equally close samples.
    VTK's locator is not part of the repository, and which of several
    equally close samples it returns is not modelled: the concrete runs
    below only look for points that have a single closest sample. *)

Definition distance2 (p q : point) : R :=
  let '(x, y, z) := vsub p q in x * x + y * y + z * z.

Fixpoint closest_from (best : nat) (d_best : R) (i : nat) (ps : list point) (q : point)
  : nat :=
  match ps with
  | [] => best
  | p :: ps' =>
      if decide (distance2 p q < d_best)
      then closest_from i (distance2 p q) (S i) ps' q
      else closest_from best d_best (S i) ps' q
  end.

Definition closest_point (ps : list point) (q : point) : nat :=
  match ps with
  | [] => 0%nat
  | p :: ps' => closest_from 0 (distance2 p q) 1 ps' q
  end.

(** ** Inputs for concrete runs *)

(** A straight centerline of [n] samples with the same section area at
    every sample. *)
Definition straight_line (n : nat) (area : R) : vtkPolyData :=
  mkPolyData ((fun i : nat => (INR i, 0, 0)) <$> seq 0 n) []
    {[ "CenterlineSectionArea" := replicate n area ]}.

(** A centerline of two samples with section areas 1 and 4. *)
Definition widening_line : vtkPolyData :=
  mkPolyData [(0, 0, 0); (1, 0, 0)] [] {[ "CenterlineSectionArea" := [1; 4] ]}.

Definition small_voronoi : vtkPolyData :=
  mkPolyData [(0, 1, 0); (1, 0, 2)] [[0%nat]; [1%nat]] {[ radiusArrayName := [1; 2] ]}.

Definition branch_line : vtkPolyData :=
  mkPolyData [(1, 1, 0); (1, 2, 0)] [] ∅.

Definition branch_voronoi : vtkPolyData :=
  mkPolyData [(1, 3, 0)] [[0%nat]] {[ radiusArrayName := [1 / 2] ]}.

(** A filter that leaves its input as it is. *)
Definition unfiltered (input : list R) (sigma : Z) : list R := input.

(** ** More of [vtk_wrapper.py] *)

(** [create_vtk_array(values, name)] with [k = 1]: a new array of
    [values.shape[0]] tuples, set one by one. *)
Definition create_vtk_array (values : list R) : outcome (list R) :=
  let vtk_array := get_vtk_array (length values) in
  for_each (seq 0 (length values))
    (fun i vtk_array => do v <- getitem values i; SetTuple1 vtk_array i v)
    vtk_array.

(** [d.GetPointData().AddArray(a)] for an array named [name]. *)
Definition AddArray (name : string) (a : list R) (d : vtkPolyData) : vtkPolyData :=
  mkPolyData (Points d) (Verts d) (<[name := a]> (PointData d)).

(** [range(start, stop, step)] *)
Definition py_range (start stop step : Z) : outcome (list Z) :=
  if decide (step = 0)%Z then Raise ValueError
  else
    let count := if decide (0 < step)%Z
                 then ((stop - start + step - 1) / step)%Z
                 else ((start - stop - step - 1) / (- step))%Z in
    Ok ((fun k : nat => (start + Z.of_nat k * step)%Z) <$> seq 0 (Z.to_nat count)).

(** VTK calls with a Python integer as index. *)
Definition GetPoint_int (d : vtkPolyData) (i : Z) : outcome point :=
  if decide (0 <= i)%Z then GetPoint d (Z.to_nat i) else OutOfModel VtkOutOfRange.

Definition GetTuple1_int (a : list R) (i : Z) : outcome R :=
  if decide (0 <= i)%Z then GetTuple1 a (Z.to_nat i) else OutOfModel VtkOutOfRange.

(** [vtkSphere.EvaluateFunction]: the squared distance to the center minus
    the squared radius. *)
Definition EvaluateFunction (center : point) (radius : R) (x : point) : R :=
  distance2 x center - radius * radius.

(** The loop of [move_past_sphere]: [tmp_point] and the loop variable [i],
    which is unbound until the first pass. *)
Fixpoint move_past_sphere_loop (centerline : vtkPolyData) (center : point) (radius : R)
    (indices : list Z) (tmp_point : point) (i : option Z) : outcome (point * option Z) :=
  match indices with
  | [] => Ok (tmp_point, i)
  | j :: indices' =>
      do x <- GetPoint_int centerline j;
      let value := EvaluateFunction center radius x in
      if decide (0 <= value) then
        do tmp_point <- GetPoint_int centerline j;
        Ok (tmp_point, Some j)
      else move_past_sphere_loop centerline center radius indices' tmp_point (Some j)
  end.

Definition move_past_sphere (centerline : vtkPolyData) (center : point) (r : R)
    (start step stop : Z) (scale_factor : R) : outcome (point * R * Z) :=
  (* Create the minimal inscribed sphere *)
  let radius := r * scale_factor in
  let tmp_point := (0, 0, 0) in
  (* Go the length of one MISR backwards *)
  do indices <- py_range start stop step;
  do found <- move_past_sphere_loop centerline center radius indices tmp_point None;
  let '(tmp_point, i) := found in
  do radii <- GetArray_GetTuple1 centerline radiusArrayName;
  do i <- match i with Some i => Ok i | None => Raise UnboundLocalError end;
  do r <- GetTuple1_int radii i;
  Ok (tmp_point, r, i).

(** ** The checks of the command line *)

(** What [read_command_line] requires of the region points and of the
    points not to smooth. *)
Definition region_points_ok (argv : arguments) : Prop :=
  match arg_region_points argv with
  | Some region_points =>
      (length region_points mod 3)%nat = 0%nat /\ (length region_points <= 6)%nat
  | None => True
  end.

Definition no_smooth_point_ok (argv : arguments) : Prop :=
  match arg_no_smooth_point argv with
  | Some no_smooth_point =>
      no_smooth_point = [] \/ (length no_smooth_point mod 3)%nat = 0%nat
  | None => True
  end.

Definition names_ok (argv : arguments) : Prop :=
  arg_method argv ∈ ["variation"; "stenosis"; "area"]
  /\ arg_region_of_interest argv ∈ ["manual"; "commandline"; "first_line"].

Definition options_ok (argv : arguments) : Prop :=
  ~ (arg_method argv = "stenosis" /\ arg_region_of_interest argv = "first_line")
  /\ region_points_ok argv /\ no_smooth_point_ok argv.

#[global] Instance names_ok_dec (argv : arguments) : Decision (names_ok argv).
Proof. unfold names_ok. apply _. Defined.

#[global] Instance options_ok_dec (argv : arguments) : Decision (options_ok argv).
Proof.
  unfold options_ok, region_points_ok, no_smooth_point_ok.
  destruct (arg_region_points argv), (arg_no_smooth_point argv); apply _.
Defined.

(** A centerline whose point data lacks the section areas. *)
Definition bare_line : vtkPolyData := mkPolyData [(0, 0, 0); (1, 0, 0)] [] ∅.

(** A Voronoi diagram without points, with its empty radius array. *)
Definition empty_voronoi : vtkPolyData :=
  mkPolyData [] [] {[ radiusArrayName := [] ]}.

(** The sample at index [j] lies strictly inside the sphere. *)
Definition inside_sphere (centerline : vtkPolyData) (center : point) (radius : R) (j : Z)
  : Prop :=
  exists x, GetPoint_int centerline j = Ok x /\ distance2 x center < radius * radius.

(** A centerline of four samples, one unit apart, with radius 1. *)
Definition radius_line : vtkPolyData :=
  mkPolyData [(0, 0, 0); (1, 0, 0); (2, 0, 0); (3, 0, 0)] []
    {[ radiusArrayName := [1; 1; 1; 1] ]}.

(** A second diverging centerline and its Voronoi diagram of two points. *)
Definition far_branch_line : vtkPolyData :=
  mkPolyData [(3, 2, 1); (3, 3, 1)] [] ∅.

Definition far_branch_voronoi : vtkPolyData :=
  mkPolyData [(1, 3, 0); (2, 4, 1)] [[0%nat]; [1%nat]] {[ radiusArrayName := [1 / 2; 1 / 4] ]}.

(** A straight centerline of 42 samples whose first section area is 4 and
    whose other section areas are 1. *)
Definition stepped_line : vtkPolyData :=
  mkPolyData ((fun i : nat => (INR i, 0, 0)) <$> seq 0 42) []
    {[ "CenterlineSectionArea" := 4 :: replicate 41 1 ]}.

(** ** The state of the loops over the diverging diagrams *)

(** The loop state holds the points of the builder [b] and more, and the
    first [n] radii of [b]; its counter is past [n]. *)
Definition keeps (n : nat) (b : builder) (state : builder * nat) : Prop :=
  (n <= state.2)%nat
  /\ (exists more, voronoi_points state.1 = voronoi_points b ++ more)
  /\ forall k, (k < n)%nat -> radius_array state.1 !! k = radius_array b !! k.

(** ** [change_area] over a store of VTK objects

    The arguments of [change_area] are references to mutable VTK objects.
    To state what a call does to them, the model below keeps the objects in
    a store and runs the body of [change_area] on references: a
    [vtkPolyData] object refers to its [vtkPoints], its [vtkCellArray] of
    vertices and its point-data arrays, every VTK call reads or writes the
    object it is made on, and a constructor call adds an object to the
    store.  [get_factor] and [vtk_point_locator] only read the centerline
    (through [get_point_data_array], [GetNumberOfPoints],
    [get_curvilinear_coordinate], [SetDataSet] and [BuildLocator]) and
    build arrays of their own, so they are run on its value. *)

Module Store.

(** References are addresses in the store. *)
Notation ref := nat (only parsing).

Inductive object : Type :=
| vtkPolyDataObject (points verts : option ref) (point_data : gmap string ref)
| vtkPointsObject (ps : list point)
| vtkCellArrayObject (cells : list (list nat))
| vtkDoubleArrayObject (values : list R).

Notation store := (list object) (only parsing).

(** A constructor call: the new object gets the next free address. *)
Definition new (o : object) (s : store) : ref * store := (length s, s ++ [o]).

(** A reference to no object, or to an object of another class: nothing is
    predicted. *)
Definition dangling {A : Type} : outcome A := OutOfModel VtkOutOfRange.

Definition read_points (s : store) (p : option ref) : option (list point) :=
  match p with
  | None => Some []
  | Some p => match s !! p with Some (vtkPointsObject ps) => Some ps | _ => None end
  end.

Definition read_cells (s : store) (v : option ref) : option (list (list nat)) :=
  match v with
  | None => Some []
  | Some v => match s !! v with Some (vtkCellArrayObject cells) => Some cells | _ => None end
  end.

Definition read_array (s : store) (a : ref) : option (list R) :=
  match s !! a with Some (vtkDoubleArrayObject values) => Some values | _ => None end.

(** The value of the [vtkPolyData] object at [d]: its points, its vertex
    cells and its point-data arrays, as its getters give them. *)
Definition load (s : store) (d : ref) : option vtkPolyData :=
  match s !! d with
  | Some (vtkPolyDataObject p v arrays) =>
      match read_points s p, read_cells s v with
      | Some ps, Some cells =>
          if decide (map_Forall (fun _ a => is_Some (read_array s a)) arrays)
          then Some (mkPolyData ps cells (omap (read_array s) arrays))
          else None
      | _, _ => None
      end
  | _ => None
  end.

Definition read (s : store) (d : ref) : outcome vtkPolyData :=
  match load s d with Some value => Ok value | None => dangling end.

Definition points_of (s : store) (d : ref) : outcome (list point) :=
  match s !! d with
  | Some (vtkPolyDataObject p _ _) =>
      match read_points s p with Some ps => Ok ps | None => dangling end
  | _ => dangling
  end.

(** [d.GetNumberOfPoints()] *)
Definition GetNumberOfPoints (d : ref) (s : store) : outcome nat :=
  do ps <- points_of s d; Ok (length ps).

(** [d.GetPoint(i)] *)
Definition GetPoint (d : ref) (i : nat) (s : store) : outcome point :=
  do ps <- points_of s d;
  match ps !! i with Some p => Ok p | None => OutOfModel VtkOutOfRange end.

(** [d.GetPointData().GetArray(name).GetTuple1]: the bound method of the
    array object itself, not of a copy. *)
Definition GetArray_GetTuple1 (d : ref) (name : string) (s : store) : outcome ref :=
  match s !! d with
  | Some (vtkPolyDataObject _ _ arrays) => deref (arrays !! name)
  | _ => dangling
  end.

(** [a.GetTuple1(i)] *)
Definition GetTuple1 (a : ref) (i : nat) (s : store) : outcome R :=
  match read_array s a with
  | Some values => Vtk.GetTuple1 values i
  | None => dangling
  end.

(** [a.SetTuple1(i, x)] *)
Definition SetTuple1 (a : ref) (i : nat) (x : R) (s : store) : outcome store :=
  match read_array s a with
  | Some values =>
      do values <- Vtk.SetTuple1 values i x;
      Ok (<[a := vtkDoubleArrayObject values]> s)
  | None => dangling
  end.

(** [points.InsertNextPoint(p)] *)
Definition InsertNextPoint (points : ref) (p : point) (s : store) : outcome store :=
  match s !! points with
  | Some (vtkPointsObject ps) => Ok (<[points := vtkPointsObject (ps ++ [p])]> s)
  | _ => dangling
  end.

(** [cells.InsertNextCell(1)] *)
Definition InsertNextCell (cells : ref) (s : store) : outcome store :=
  match s !! cells with
  | Some (vtkCellArrayObject cs) => Ok (<[cells := vtkCellArrayObject (cs ++ [[]])]> s)
  | _ => dangling
  end.

(** [cells.InsertCellPoint(i)] *)
Definition InsertCellPoint (cells : ref) (i : nat) (s : store) : outcome store :=
  match s !! cells with
  | Some (vtkCellArrayObject cs) =>
      match last cs with
      | Some c => Ok (<[cells := vtkCellArrayObject (<[pred (length cs) := c ++ [i]]> cs)]> s)
      | None => OutOfModel VtkOutOfRange
      end
  | _ => dangling
  end.

(** [d.SetPoints(points)], [d.SetVerts(cells)] and
    [d.GetPointData().AddArray(a)] for an array named [name]: the object
    keeps the reference it is given. *)
Definition SetPoints (d points : ref) (s : store) : outcome store :=
  match s !! d with
  | Some (vtkPolyDataObject _ v arrays) =>
      Ok (<[d := vtkPolyDataObject (Some points) v arrays]> s)
  | _ => dangling
  end.

Definition SetVerts (d cells : ref) (s : store) : outcome store :=
  match s !! d with
  | Some (vtkPolyDataObject p _ arrays) =>
      Ok (<[d := vtkPolyDataObject p (Some cells) arrays]> s)
  | _ => dangling
  end.

Definition AddArray (d : ref) (name : string) (a : ref) (s : store) : outcome store :=
  match s !! d with
  | Some (vtkPolyDataObject p v arrays) =>
      Ok (<[d := vtkPolyDataObject p v (<[name := a]> arrays)]> s)
  | _ => dangling
  end.

Section Model.

Variable gaussian_filter : list R -> Z -> list R.
Variable FindClosestPoint : list point -> point -> nat.

(** One pass of the loop over the Voronoi diagram of the region of
    interest. *)
Definition manipulate_point (voronoi line_to_change : ref) (locator : list point)
    (factor : list R) (point_radius_array voronoi_points cell_array radius_array : ref)
    (i : nat) (s : store) : outcome store :=
  do point <- GetPoint voronoi i s;
  let tmp_id := FindClosestPoint locator point in
  do closest <- GetPoint line_to_change tmp_id s;
  let v1 := vsub closest point in
  do f <- getitem factor tmp_id;
  let v2 := vscale v1 (1 - f) in
  let point := vadd point v2 in
  (* Change radius *)
  do radius <- GetTuple1 point_radius_array i s;
  let point_radius := radius * f in
  do s <- InsertNextPoint voronoi_points point s;
  do s <- SetTuple1 radius_array i point_radius s;
  do s <- InsertNextCell cell_array s;
  InsertCellPoint cell_array i s.

(** One pass of the inner loop over a diverging Voronoi diagram. *)
Definition offset_point (diverging_voro : ref) (v2 : point)
    (point_radius_array voronoi_points cell_array radius_array : ref) (i : nat)
    (state : store * nat) : outcome (store * nat) :=
  let '(s, count) := state in
  do point <- GetPoint diverging_voro i s;
  let point := vadd point v2 in
  do s <- InsertNextPoint voronoi_points point s;
  do radius <- GetTuple1 point_radius_array i s;
  do s <- SetTuple1 radius_array count radius s;
  do s <- InsertNextCell cell_array s;
  do s <- InsertCellPoint cell_array count s;
  Ok (s, S count).

(** One pass of the loop over the diverging centerlines. *)
Definition offset_branch (line_to_change : ref) (locator : list point) (factor : list R)
    (diverging_centerline : list ref) (diverging_voronoi : list (option ref))
    (voronoi_points cell_array radius_array : ref) (j : nat) (state : store * nat)
  : outcome (store * nat) :=
  (* Get offset for Voronoi diagram *)
  do centerline <- getitem diverging_centerline j;
  do point <- GetPoint centerline 0 (fst state);
  let tmp_id := FindClosestPoint locator point in
  do closest <- GetPoint line_to_change tmp_id (fst state);
  let v1 := vsub closest point in
  do f <- getitem factor tmp_id;
  let v2 := vscale v1 (1 - f) in
  (* Offset Voronoi diagram *)
  do entry <- getitem diverging_voronoi j;
  do diverging_voro <- deref entry;
  do point_radius_array <- GetArray_GetTuple1 diverging_voro radiusArrayName (fst state);
  do n <- GetNumberOfPoints diverging_voro (fst state);
  for_each (seq 0 n)
    (offset_point diverging_voro v2 point_radius_array voronoi_points cell_array
       radius_array) state.

Definition change_area (voronoi line_to_change : ref) (method : string)
    (beta : R) (ratio : option R) (percentage : R) (region_of_interest : string)
    (region_points : option (list R)) (diverging_centerline : option (list ref))
    (diverging_voronoi : list (option ref)) (s : store) : outcome (ref * store) :=
  (* Get factor *)
  do line_value <- read s line_to_change;
  do factor <- get_factor gaussian_filter line_value method beta ratio percentage
                 region_of_interest region_points;
  (* Locator to find closest point on centerline *)
  let locator := vtk_point_locator line_value in
  (* Voronoi diagram *)
  do n <- GetNumberOfPoints voronoi s;
  do first <- getitem diverging_voronoi 0;
  do m <- (if truthy first then
             do sizes <- map_each (fun diverging_voro =>
                                     do v <- deref diverging_voro;
                                     GetNumberOfPoints v s) diverging_voronoi;
             Ok (n + sum_list sizes)%nat
           else Ok n);
  let '(new_voronoi, s) := new (vtkPolyDataObject None None ∅) s in
  let '(voronoi_points, s) := new (vtkPointsObject []) s in
  let '(cell_array, s) := new (vtkCellArrayObject []) s in
  let '(radius_array, s) := new (vtkDoubleArrayObject (get_vtk_array m)) s in
  (* Iterate through Voronoi diagram and manipulate *)
  do point_radius_array <- GetArray_GetTuple1 voronoi radiusArrayName s;
  do s <- for_each (seq 0 n)
            (manipulate_point voronoi line_to_change locator factor point_radius_array
               voronoi_points cell_array radius_array) s;
  (* Offset Voronoi diagram along "diverging" centerlines *)
  do s <- match diverging_centerline with
          | Some diverging_centerline =>
              (* count = i + 1, with i left over from the loop above *)
              do count <- match n with
                          | O => Raise UnboundLocalError
                          | S i => Ok (i + 1)%nat
                          end;
              do state <- for_each (seq 0 (length diverging_voronoi))
                            (offset_branch line_to_change locator factor
                               diverging_centerline diverging_voronoi voronoi_points
                               cell_array radius_array) (s, count);
              Ok (fst state)
          | None => Ok s
          end;
  do s <- SetPoints new_voronoi voronoi_points s;
  do s <- SetVerts new_voronoi cell_array s;
  do s <- AddArray new_voronoi radiusArrayName radius_array s;
  Ok (new_voronoi, s).

End Model.

End Store.

(** The store [s'] still holds every object of [s], as it was. *)
Definition untouched (s s' : Store.store) : Prop :=
  forall r o, s !! r = Some o -> s' !! r = Some o.

(** The arguments of a call: references that hold the given values. *)
Definition holds (s : Store.store) (r : Store.ref) (d : vtkPolyData) : Prop :=
  Store.load s r = Some d.

(** The builder [b] of the model on values, as it sits in the store: its
    three parts are the objects at [vp], [ca] and [ra], which the store [s0]
    of before the call did not hold. *)
Definition sim (s0 : Store.store) (vp ca ra : Store.ref) (b : builder) (s : Store.store)
  : Prop :=
  untouched s0 s
  /\ ((length s0 <= vp)%nat /\ (length s0 <= ca)%nat /\ (length s0 <= ra)%nat)
  /\ (vp <> ca /\ vp <> ra /\ ca <> ra)
  /\ s !! vp = Some (Store.vtkPointsObject (voronoi_points b))
  /\ s !! ca = Some (Store.vtkCellArrayObject (cell_array b))
  /\ s !! ra = Some (Store.vtkDoubleArrayObject (radius_array b)).

(** A store that holds [small_voronoi] at address 3, [straight_line 20 1] at
    6, [branch_line] at 8, [branch_voronoi] at 12, [far_branch_line] at 14
    and [far_branch_voronoi] at 18. *)
Definition example_store : list Store.object :=
  [ Store.vtkPointsObject [(0, 1, 0); (1, 0, 2)];
    Store.vtkCellArrayObject [[0%nat]; [1%nat]];
    Store.vtkDoubleArrayObject [1; 2];
    Store.vtkPolyDataObject (Some 0%nat) (Some 1%nat) {[ radiusArrayName := 2%nat ]};
    Store.vtkPointsObject ((fun i : nat => (INR i, 0, 0)) <$> seq 0 20);
    Store.vtkDoubleArrayObject (replicate 20 1);
    Store.vtkPolyDataObject (Some 4%nat) None {[ "CenterlineSectionArea" := 5%nat ]};
    Store.vtkPointsObject [(1, 1, 0); (1, 2, 0)];
    Store.vtkPolyDataObject (Some 7%nat) None ∅;
    Store.vtkPointsObject [(1, 3, 0)];
    Store.vtkCellArrayObject [[0%nat]];
    Store.vtkDoubleArrayObject [1 / 2];
    Store.vtkPolyDataObject (Some 9%nat) (Some 10%nat) {[ radiusArrayName := 11%nat ]};
    Store.vtkPointsObject [(3, 2, 1); (3, 3, 1)];
    Store.vtkPolyDataObject (Some 13%nat) None ∅;
    Store.vtkPointsObject [(1, 3, 0); (2, 4, 1)];
    Store.vtkCellArrayObject [[0%nat]; [1%nat]];
    Store.vtkDoubleArrayObject [1 / 2; 1 / 4];
    Store.vtkPolyDataObject (Some 15%nat) (Some 16%nat) {[ radiusArrayName := 17%nat ]} ].

(** * Properties *)

(** ** Outcomes *)

Lemma bind_Ok {A B : Type} (m : outcome A) (k : A -> outcome B) (b : B) :
  Py.bind m k = Ok b <-> exists a, m = Ok a /\ k a = Ok b.
Proof.
  destruct m as [a | e | w]; simpl; split.
  - intros H. exists a. split; [reflexivity | exact H].
  - intros (a' & Ha & Hk). injection Ha as ->. exact Hk.
  - discriminate.
  - intros (a' & Ha & _). discriminate.
  - discriminate.
  - intros (a' & Ha & _). discriminate.
Qed.

Lemma map_each_Ok {A B : Type} (f : A -> outcome B) (g : A -> B) (xs : list A) :
  (forall x, x ∈ xs -> f x = Ok (g x)) -> map_each f xs = Ok (g <$> xs).
Proof.
  induction xs as [| x xs IH]; intros H; simpl.
  - reflexivity.
  - rewrite (H x) by constructor. simpl.
    rewrite IH; [reflexivity |]. intros y Hy. apply H. now constructor.
Qed.

Lemma map_each_length {A B : Type} (f : A -> outcome B) (xs : list A) (ys : list B) :
  map_each f xs = Ok ys -> length ys = length xs.
Proof.
  revert ys. induction xs as [| x xs IH]; intros ys; simpl.
  - intros [= <-]. reflexivity.
  - intros H. apply bind_Ok in H as (y & _ & H).
    apply bind_Ok in H as (ys' & Hys & [= <-]). simpl. f_equal. now apply IH.
Qed.

Lemma map_each_lookup {A B : Type} (f : A -> outcome B) (xs : list A) (ys : list B)
    (i : nat) (x : A) :
  map_each f xs = Ok ys -> xs !! i = Some x ->
  exists y, ys !! i = Some y /\ f x = Ok y.
Proof.
  revert ys i. induction xs as [| x' xs IH]; intros ys i; simpl.
  - intros _ H. discriminate.
  - intros H Hi. apply bind_Ok in H as (y & Hy & H).
    apply bind_Ok in H as (ys' & Hys & [= <-]).
    destruct i as [| i]; simpl in *.
    + injection Hi as ->. exists y. split; [reflexivity | exact Hy].
    + eapply IH; eassumption.
Qed.

(** ** numpy *)

Lemma linspace_length (a b : R) (n : nat) : length (Np.linspace a b n) = n.
Proof.
  destruct n as [| [| n]]; try reflexivity.
  unfold Np.linspace. now rewrite length_fmap, length_seq.
Qed.

Lemma linspace_lookup (a b : R) (n i : nat) :
  (2 <= n)%nat -> (i < n)%nat ->
  Np.linspace a b n !! i = Some (a + INR i * ((b - a) / INR (n - 1))).
Proof.
  intros Hn Hi. destruct n as [| [| n]]; [lia | lia |].
  unfold Np.linspace. rewrite list_lookup_fmap, lookup_seq_lt by exact Hi.
  replace (S (S n) - 1)%nat with (S n) by lia. reflexivity.
Qed.

Lemma linspace_last (a b : R) (n : nat) :
  (2 <= n)%nat -> Np.linspace a b n !! (n - 1)%nat = Some b.
Proof.
  intros Hn. rewrite linspace_lookup by lia. f_equal.
  assert (INR (n - 1) <> 0) by (apply not_0_INR; lia). field. assumption.
Qed.

Lemma zeros_Ok (n : nat) : Np.zeros (Z.of_nat n) = Ok (replicate n 0).
Proof.
  unfold Np.zeros. destruct (decide (Z.of_nat n < 0)%Z); [lia |].
  now rewrite Nat2Z.id.
Qed.

Lemma broadcast_same {B : Type} (f : R -> R -> B) (xs ys : list R) :
  length xs = length ys -> Np.broadcast f xs ys = Ok (zip_with f xs ys).
Proof. intros H. unfold Np.broadcast. now destruct (decide _). Qed.

Lemma blend_same (factor trans : list R) :
  length factor = length trans ->
  blend factor trans = Ok (zip_with (fun x t => x * (1 - t) + t) factor trans).
Proof.
  intros H. unfold blend.
  rewrite broadcast_same by now rewrite length_fmap. simpl.
  rewrite broadcast_same by (rewrite length_zip_with, length_fmap; lia).
  f_equal. apply list_eq. intros i.
  rewrite !lookup_zip_with, list_lookup_fmap.
  destruct (factor !! i), (trans !! i); reflexivity.
Qed.

(** ** The transition *)

Lemma round_tenth_half (n : nat) : (2 * round_tenth n <= n)%nat.
Proof.
  unfold round_tenth.
  pose proof (Nat.div_mod_eq n 10) as E.
  pose proof (Nat.mod_upper_bound n 10 ltac:(lia)) as U.
  destruct (Nat.ltb_spec (n mod 10) 5); [lia |].
  destruct (Nat.ltb_spec 5 (n mod 10)); [|destruct (Nat.even (n / 10)) eqn:Ev].
  - destruct (n / 10)%nat eqn:Q; lia.
  - lia.
  - destruct (n / 10)%nat eqn:Q; [discriminate | lia].
Qed.

Lemma transition_Ok (region_of_interest method : string) (n : nat) :
  exists trans, transition region_of_interest method n = Ok trans /\ length trans = n.
Proof.
  unfold transition. pose proof (round_tenth_half n) as Hk.
  destruct (bool_decide _ && bool_decide _).
  - replace (Z.of_nat n - Z.of_nat (round_tenth n) * 2)%Z
      with (Z.of_nat (n - 2 * round_tenth n)) by lia.
    rewrite zeros_Ok. simpl.
    destruct (decide (region_of_interest = "first_line")).
    + replace (Z.of_nat n - Z.of_nat (round_tenth n))%Z
        with (Z.of_nat (n - round_tenth n)) by lia.
      rewrite zeros_Ok. simpl. eexists. split; [reflexivity |].
      rewrite length_app, length_replicate, linspace_length. lia.
    + eexists. split; [reflexivity |].
      rewrite !length_app, length_replicate, !linspace_length. lia.
  - rewrite zeros_Ok. simpl.
    destruct (decide (region_of_interest = "first_line")).
    + replace (Z.of_nat n - Z.of_nat (round_tenth n))%Z
        with (Z.of_nat (n - round_tenth n)) by lia.
      rewrite zeros_Ok. simpl. eexists. split; [reflexivity |].
      rewrite length_app, length_replicate, linspace_length. lia.
    + eexists. split; [reflexivity |].
      rewrite !length_app, length_replicate. simpl. lia.
Qed.

Lemma transition_eq (region_of_interest method : string) (n : nat) :
  transition region_of_interest method n =
  Ok (let k := round_tenth n in
      if decide (region_of_interest = "first_line")
      then replicate (n - k) 0 ++ Np.linspace 0 1 k
      else if bool_decide (region_of_interest ∈ ["manual"; "commandline"])
              && bool_decide (method ∈ ["area"; "variation"])
           then Np.linspace 1 0 k ++ replicate (n - 2 * k) 0 ++ Np.linspace 0 1 k
           else replicate n 0).
Proof.
  unfold transition. pose proof (round_tenth_half n) as Hk.
  assert (Hz : Np.zeros (Z.of_nat n - Z.of_nat (round_tenth n))
               = Ok (replicate (n - round_tenth n) 0)).
  { rewrite <- zeros_Ok. f_equal. lia. }
  destruct (bool_decide _ && bool_decide _).
  - replace (Z.of_nat n - Z.of_nat (round_tenth n) * 2)%Z
      with (Z.of_nat (n - 2 * round_tenth n)) by lia.
    rewrite zeros_Ok. simpl.
    destruct (decide (region_of_interest = "first_line")); [| reflexivity].
    now rewrite Hz.
  - rewrite zeros_Ok. simpl.
    destruct (decide (region_of_interest = "first_line")).
    + now rewrite Hz.
    + now rewrite app_nil_r.
Qed.

(** ** VTK arrays *)

Lemma GetTuple1_all (pre a : list R) :
  map_each (GetTuple1 (pre ++ a)) (seq (length pre) (length a)) = Ok a.
Proof.
  revert pre. induction a as [| x a IH]; intros pre; simpl.
  - reflexivity.
  - unfold GetTuple1 at 1. rewrite list_lookup_middle by reflexivity. simpl.
    specialize (IH (pre ++ [x])). rewrite <- app_assoc, length_app in IH. simpl in IH.
    rewrite Nat.add_1_r in IH. now rewrite IH.
Qed.

Lemma get_point_data_array_Ok (name : string) (line : vtkPolyData) (a : list R) :
  PointData line !! name = Some a -> length a = GetNumberOfPoints line ->
  get_point_data_array name line = Ok a.
Proof.
  intros Ha Hlen. unfold get_point_data_array, GetArray_GetTuple1. rewrite Ha. simpl.
  rewrite <- Hlen. exact (GetTuple1_all [] a).
Qed.

Lemma get_point_data_array_length (name : string) (line : vtkPolyData) (a : list R) :
  get_point_data_array name line = Ok a -> length a = GetNumberOfPoints line.
Proof.
  unfold get_point_data_array. intros H. apply bind_Ok in H as (d & _ & H).
  apply map_each_length in H. now rewrite length_seq in H.
Qed.

Lemma curvilinear_from_length (acc : R) (p : point) (ps : list point) :
  length (curvilinear_from acc p ps) = length ps.
Proof.
  revert acc p. induction ps as [| q ps IH]; intros acc p; simpl; [reflexivity |].
  now rewrite IH.
Qed.

Lemma get_curvilinear_coordinate_length (line : vtkPolyData) :
  length (get_curvilinear_coordinate line) = GetNumberOfPoints line.
Proof.
  unfold get_curvilinear_coordinate, GetNumberOfPoints.
  destruct (Points line) as [| p ps]; simpl; [reflexivity |].
  now rewrite curvilinear_from_length.
Qed.

(** ** The factor *)

Ltac bind_inv H :=
  lazymatch type of H with
  | blend _ _ = _ => fail
  | _ => let x := fresh "x" in
         let E := fresh "E" in
         apply bind_Ok in H; destruct H as (x & E & H)
  end.

Section Factor.

Variable gaussian_filter : list R -> Z -> list R.
Hypothesis gaussian_filter_length :
  forall input sigma, length (gaussian_filter input sigma) = length input.

Lemma blend_Ok_length (factor trans out : list R) :
  length factor = length trans -> blend factor trans = Ok out ->
  length out = length trans.
Proof.
  intros Hlen. rewrite blend_same by exact Hlen. intros [= <-].
  rewrite length_zip_with. lia.
Qed.

Lemma get_factor_length line method beta ratio percentage region_of_interest
    region_points factor :
  get_factor gaussian_filter line method beta ratio percentage region_of_interest
             region_points = Ok factor ->
  length factor = GetNumberOfPoints line.
Proof.
  unfold get_factor. intros H.
  bind_inv H. rename x into area, E into Harea.
  apply get_point_data_array_length in Harea.
  set (smooth := gaussian_filter (gaussian_filter area 5) 5) in *.
  assert (Hsmooth : length smooth = GetNumberOfPoints line).
  { unfold smooth. now rewrite !gaussian_filter_length. }
  bind_inv H. rename x into trans, E into Htrans.
  destruct (transition_Ok region_of_interest method (length smooth))
    as (trans' & Htrans' & Hlen).
  rewrite Htrans' in Htrans. injection Htrans as ->.
  rewrite <- Hsmooth, <- Hlen.
  destruct (decide (method = "variation")).
  { destruct ratio as [r |]; repeat bind_inv H;
      (eapply blend_Ok_length; [| exact H]);
      repeat match goal with
             | E : map_each _ _ = Ok _ |- _ => apply map_each_length in E
             end; congruence. }
  destruct (decide (method = "stenosis")).
  { bind_inv H. destruct (decide (x = 3%nat)).
    - eapply blend_Ok_length; [| exact H].
      rewrite length_fmap, linspace_length. congruence.
    - destruct (decide (x = 6%nat)); [| discriminate].
      repeat bind_inv H. eapply blend_Ok_length; [| exact H].
      repeat match goal with
             | E : map_each _ _ = Ok _ |- _ => apply map_each_length in E
             end.
      rewrite get_curvilinear_coordinate_length in *.
      match goal with
      | E : Np.broadcast _ _ _ = Ok _ |- _ =>
          rewrite broadcast_same in E by (rewrite length_fmap; congruence);
          injection E as <-
      end.
      rewrite length_zip_with, length_fmap in *. lia. }
  destruct (decide (method = "area")); [| discriminate].
  eapply blend_Ok_length; [| exact H].
  unfold Np.ones. now rewrite length_fmap, length_replicate.
Qed.

End Factor.

Lemma bind_assoc {A B C : Type} (m : outcome A) (k : A -> outcome B) (h : B -> outcome C) :
  Py.bind (Py.bind m k) h = Py.bind m (fun a => Py.bind (k a) h).
Proof. now destruct m. Qed.

Lemma bind_ext {A B : Type} (m : outcome A) (k k' : A -> outcome B) :
  (forall a, k a = k' a) -> Py.bind m k = Py.bind m k'.
Proof. intros H. destruct m; simpl; [apply H | reflexivity | reflexivity]. Qed.

Ltac bind_step :=
  repeat (rewrite bind_assoc; simpl);
  first [reflexivity | apply bind_ext; intros ?].

Section FactorRaw.

Variable gaussian_filter : list R -> Z -> list R.

(** [get_factor] blends the raw factor of its method with the
    transition. *)
Lemma get_factor_raw line method beta ratio percentage region_of_interest region_points :
  get_factor gaussian_filter line method beta ratio percentage region_of_interest
             region_points =
  (do area <- get_point_data_array "CenterlineSectionArea" line;
   let area := gaussian_filter (gaussian_filter area 5) 5 in
   do trans <- transition region_of_interest method (length area);
   do raw <- raw_factor line area (length trans) method beta ratio percentage
               region_points;
   blend raw trans).
Proof.
  unfold get_factor, raw_factor.
  apply bind_ext; intros area. simpl. apply bind_ext; intros trans.
  destruct (decide (method = "variation")).
  { destruct ratio as [r |]; repeat bind_step. }
  destruct (decide (method = "stenosis")).
  { bind_step. destruct (decide (a = 3%nat)); [reflexivity |].
    destruct (decide (a = 6%nat)); [| reflexivity]. repeat bind_step. }
  destruct (decide (method = "area")); reflexivity.
Qed.

End FactorRaw.

(** ** The loops of [change_area] *)

Lemma push_Ok (b : builder) (i : nat) (p : point) (x : R) (rs tl : list R) :
  radius_array b = rs ++ 0 :: tl -> length rs = i ->
  (do b <- radius_SetTuple1 i x (InsertNextPoint p b);
   InsertCellPoint i (InsertNextCell b)) =
  Ok (mkBuilder (voronoi_points b ++ [p]) (cell_array b ++ [[i]]) (rs ++ x :: tl)).
Proof.
  intros Hr Hi. unfold radius_SetTuple1, SetTuple1, InsertNextPoint. simpl.
  rewrite Hr.
  destruct (decide _) as [_ | Hge];
    [| rewrite length_app in Hge; simpl in Hge; lia].
  simpl. unfold InsertCellPoint, InsertNextCell. simpl.
  rewrite last_snoc. f_equal. f_equal.
  - rewrite length_app. simpl. rewrite Nat.add_1_r. simpl.
    rewrite insert_app_r_alt by lia. rewrite Nat.sub_diag. reflexivity.
  - subst i. rewrite insert_app_r_alt by lia. rewrite Nat.sub_diag. reflexivity.
Qed.

Section Loops.

Variable FindClosestPoint : list point -> point -> nat.
Variable line_to_change : vtkPolyData.
Variable factor : list R.

Hypothesis closest_in_range :
  forall p, (FindClosestPoint (Points line_to_change) p < GetNumberOfPoints line_to_change)%nat.
Hypothesis factor_length : length factor = GetNumberOfPoints line_to_change.

Let locator := vtk_point_locator line_to_change.
Let nearest := FindClosestPoint locator.

Lemma closest_lookup (p : point) :
  GetPoint line_to_change (nearest p) = Ok (nth (nearest p) (Points line_to_change) origin)
  /\ getitem factor (nearest p) = Ok (nth (nearest p) factor 0).
Proof.
  unfold GetPoint, getitem, nearest, locator, vtk_point_locator.
  pose proof (closest_in_range p) as Hlt. unfold GetNumberOfPoints in *.
  destruct (nth_lookup_or_length (Points line_to_change)
              (FindClosestPoint (Points line_to_change) p) origin) as [-> | ?]; [| lia].
  destruct (nth_lookup_or_length factor
              (FindClosestPoint (Points line_to_change) p) 0) as [-> | ?]; [| lia].
  split; reflexivity.
Qed.

Lemma manipulate_point_Ok (voronoi : vtkPolyData) (radii : list R) (i : nat) (b : builder)
    (p : point) (r : R) (rs tl : list R) :
  Points voronoi !! i = Some p -> radii !! i = Some r ->
  radius_array b = rs ++ 0 :: tl -> length rs = i ->
  manipulate_point FindClosestPoint voronoi line_to_change locator factor radii i b =
  Ok (let q := deform nearest (Points line_to_change) factor (p, r) in
      mkBuilder (voronoi_points b ++ [q.1]) (cell_array b ++ [[i]]) (rs ++ q.2 :: tl)).
Proof.
  intros Hp Hr Hb Hi. unfold manipulate_point, GetPoint at 1. rewrite Hp. simpl.
  destruct (closest_lookup p) as [Hc Hf]. fold nearest. rewrite Hc. simpl.
  rewrite Hf. simpl. unfold GetTuple1. rewrite Hr. simpl.
  now rewrite (push_Ok b i _ _ rs tl Hb Hi).
Qed.

Lemma manipulate_loop (voronoi : vtkPolyData) (radii : list R)
    (todo done : list (point * R)) (b : builder) (rs tl : list R) :
  zip (Points voronoi) radii = done ++ todo ->
  radius_array b = rs ++ replicate (length todo) 0 ++ tl -> length rs = length done ->
  for_each (seq (length done) (length todo))
    (manipulate_point FindClosestPoint voronoi line_to_change locator factor radii) b =
  Ok (let new := deform nearest (Points line_to_change) factor <$> todo in
      mkBuilder (voronoi_points b ++ new.*1)
        (cell_array b ++ ((fun i => [i]) <$> seq (length done) (length todo)))
        (rs ++ new.*2 ++ tl)).
Proof.
  revert done b rs. induction todo as [| [p r] todo IH]; intros done b rs Hz Hb Hrs; simpl.
  - rewrite !app_nil_r. simpl in Hb. rewrite <- Hb. now destruct b.
  - assert (Hi : zip (Points voronoi) radii !! length done = Some (p, r)).
    { rewrite Hz. now apply list_lookup_middle. }
    apply lookup_zip_with_Some in Hi as (p' & r' & [= <- <-] & Hp & Hr).
    rewrite (manipulate_point_Ok voronoi radii (length done) b p r rs
               (replicate (length todo) 0 ++ tl) Hp Hr Hb Hrs). simpl.
    set (q := deform nearest (Points line_to_change) factor (p, r)).
    specialize (IH (done ++ [(p, r)])
                  (mkBuilder (voronoi_points b ++ [q.1]) (cell_array b ++ [[length done]])
                     (rs ++ q.2 :: replicate (length todo) 0 ++ tl))
                  (rs ++ [q.2])).
    assert (Hlen : length (done ++ [(p, r)]) = S (length done))
      by (rewrite length_app; simpl; lia).
    rewrite Hlen in IH. subst q. simpl in IH |- *. rewrite IH.
    + f_equal. f_equal; rewrite <- app_assoc; reflexivity.
    + now rewrite <- app_assoc.
    + now rewrite <- app_assoc.
    + rewrite length_app. simpl. lia.
Qed.

End Loops.

Lemma cloud_zip (d : vtkPolyData) (radii : list R) :
  PointData d !! radiusArrayName = Some radii -> cloud d = zip (Points d) radii.
Proof. intros H. unfold cloud. now rewrite H. Qed.

Lemma cloud_length (d : vtkPolyData) : has_radius d -> length (cloud d) = GetNumberOfPoints d.
Proof.
  intros (radii & Hr & Hlen). rewrite (cloud_zip d radii Hr), length_zip_with.
  unfold GetNumberOfPoints in *. lia.
Qed.

Lemma offset_point_Ok (diverging_voro : vtkPolyData) (v2 : point) (radii : list R)
    (i count : nat) (b : builder) (p : point) (r : R) (rs tl : list R) :
  Points diverging_voro !! i = Some p -> radii !! i = Some r ->
  radius_array b = rs ++ 0 :: tl -> length rs = count ->
  offset_point diverging_voro v2 radii i (b, count) =
  Ok (mkBuilder (voronoi_points b ++ [vadd p v2]) (cell_array b ++ [[count]])
        (rs ++ r :: tl), S count).
Proof.
  intros Hp Hr Hb Hc. unfold offset_point, GetPoint, GetTuple1. rewrite Hp, Hr. simpl.
  pose proof (push_Ok b count (vadd p v2) r rs tl Hb Hc) as Hpush.
  destruct (radius_SetTuple1 count r (InsertNextPoint (vadd p v2) b)) as [b' | |];
    simpl in *; try discriminate.
  now rewrite Hpush.
Qed.

Lemma offset_loop (diverging_voro : vtkPolyData) (v2 : point) (radii : list R)
    (todo done : list (point * R)) (b : builder) (count : nat) (rs tl : list R) :
  zip (Points diverging_voro) radii = done ++ todo ->
  radius_array b = rs ++ replicate (length todo) 0 ++ tl -> length rs = count ->
  for_each (seq (length done) (length todo)) (offset_point diverging_voro v2 radii)
    (b, count) =
  Ok (mkBuilder (voronoi_points b ++ ((fun q => vadd q.1 v2) <$> todo))
        (cell_array b ++ ((fun i => [i]) <$> seq count (length todo)))
        (rs ++ todo.*2 ++ tl),
      (count + length todo)%nat).
Proof.
  revert done b count rs.
  induction todo as [| [p r] todo IH]; intros done b count rs Hz Hb Hrs.
  - simpl. rewrite !app_nil_r, Nat.add_0_r. simpl in Hb. rewrite <- Hb. now destruct b.
  - cbn [length seq for_each].
    assert (Hi : zip (Points diverging_voro) radii !! length done = Some (p, r)).
    { rewrite Hz. now apply list_lookup_middle. }
    apply lookup_zip_with_Some in Hi as (p' & r' & [= <- <-] & Hp & Hr).
    rewrite (offset_point_Ok diverging_voro v2 radii (length done) count b p r rs
               (replicate (length todo) 0 ++ tl) Hp Hr Hb Hrs).
    specialize (IH (done ++ [(p, r)])
                  (mkBuilder (voronoi_points b ++ [vadd p v2]) (cell_array b ++ [[count]])
                     (rs ++ r :: replicate (length todo) 0 ++ tl))
                  (S count) (rs ++ [r])).
    assert (Hlen : length (done ++ [(p, r)]) = S (length done))
      by (rewrite length_app; simpl; lia).
    rewrite Hlen in IH. cbn [Py.bind]. rewrite IH.
    + simpl. f_equal. f_equal; [f_equal; rewrite <- app_assoc; reflexivity | lia].
    + now rewrite <- app_assoc.
    + now rewrite <- app_assoc.
    + rewrite length_app. simpl. lia.
Qed.

Section Branches.

Variable FindClosestPoint : list point -> point -> nat.
Variable line_to_change : vtkPolyData.
Variable factor : list R.

Hypothesis closest_in_range :
  forall p, (FindClosestPoint (Points line_to_change) p < GetNumberOfPoints line_to_change)%nat.
Hypothesis factor_length : length factor = GetNumberOfPoints line_to_change.

Let locator := vtk_point_locator line_to_change.
Let nearest := FindClosestPoint locator.

Let moved := moved_branch nearest (Points line_to_change) factor.

Lemma moved_length (branch : vtkPolyData * vtkPolyData) :
  branch_ok branch -> length (moved branch) = GetNumberOfPoints branch.2.
Proof.
  intros [_ H]. unfold moved, moved_branch, translate. rewrite length_fmap. now apply cloud_length.
Qed.

Lemma offset_branch_Ok (diverging_centerline : list vtkPolyData)
    (diverging_voronoi : list (option vtkPolyData)) (j count : nat) (b : builder)
    (centerline diverging_voro : vtkPolyData) (rs tl : list R) :
  diverging_centerline !! j = Some centerline ->
  diverging_voronoi !! j = Some (Some diverging_voro) ->
  branch_ok (centerline, diverging_voro) ->
  radius_array b = rs ++ replicate (GetNumberOfPoints diverging_voro) 0 ++ tl ->
  length rs = count ->
  offset_branch FindClosestPoint line_to_change locator factor diverging_centerline
    diverging_voronoi j (b, count) =
  Ok (mkBuilder (voronoi_points b ++ (moved (centerline, diverging_voro)).*1)
        (cell_array b
         ++ ((fun i => [i]) <$> seq count (length (moved (centerline, diverging_voro)))))
        (rs ++ (moved (centerline, diverging_voro)).*2 ++ tl),
      (count + length (moved (centerline, diverging_voro)))%nat).
Proof.
  intros Hc Hv [Hne Hrad] Hb Hrs. simpl in Hne, Hrad.
  pose proof (moved_length (centerline, diverging_voro) (conj Hne Hrad)) as Hml.
  destruct Hrad as (radii & Hradii & Hlen). simpl in Hml.
  unfold offset_branch, getitem. rewrite Hc. cbn [Py.bind].
  unfold GetPoint at 1. destruct (Points centerline) as [| a ps] eqn:Hps; [done |].
  cbn [lookup list_lookup Py.bind].
  destruct (closest_lookup FindClosestPoint line_to_change factor
              closest_in_range factor_length a) as [Hcl Hf].
  unfold locator. rewrite Hcl. cbn [Py.bind]. unfold getitem in Hf. rewrite Hf. cbn [Py.bind].
  rewrite Hv. cbn [Py.bind deref].
  unfold GetArray_GetTuple1. rewrite Hradii. cbn [Py.bind].
  assert (Hz : length (zip (Points diverging_voro) radii) = GetNumberOfPoints diverging_voro).
  { rewrite length_zip_with. unfold GetNumberOfPoints in *. lia. }
  rewrite <- Hz in Hb. rewrite <- Hz at 1.
  rewrite (offset_loop diverging_voro _ radii (zip (Points diverging_voro) radii) []
             b count rs tl eq_refl Hb Hrs).
  rewrite Hml, Hz.
  unfold moved, moved_branch, translate, attachment, displacement. cbn [fst snd]. rewrite Hps.
  cbn [hd]. rewrite (cloud_zip _ _ Hradii). unfold nearest, locator.
  rewrite <- !list_fmap_compose. reflexivity.
Qed.

Lemma branch_loop (diverging_centerline voros : list vtkPolyData)
    (todo done : list (vtkPolyData * vtkPolyData)) (b : builder) (count : nat)
    (rs tl : list R) :
  zip diverging_centerline voros = done ++ todo ->
  Forall branch_ok todo ->
  radius_array b = rs ++ replicate (length (concat (moved <$> todo))) 0 ++ tl ->
  length rs = count ->
  for_each (seq (length done) (length todo))
    (offset_branch FindClosestPoint line_to_change locator factor diverging_centerline
       (Some <$> voros)) (b, count) =
  Ok (mkBuilder (voronoi_points b ++ (concat (moved <$> todo)).*1)
        (cell_array b ++ ((fun i => [i]) <$> seq count (length (concat (moved <$> todo)))))
        (rs ++ (concat (moved <$> todo)).*2 ++ tl),
      (count + length (concat (moved <$> todo)))%nat).
Proof.
  revert done b count rs.
  induction todo as [| [cl bv] todo IH]; intros done b count rs Hz Hok Hb Hrs.
  - simpl. rewrite !app_nil_r, Nat.add_0_r. simpl in Hb. rewrite <- Hb. now destruct b.
  - cbn [length seq for_each].
    apply Forall_cons in Hok as [Hok1 Hok].
    assert (Hi : zip diverging_centerline voros !! length done = Some (cl, bv)).
    { rewrite Hz. now apply list_lookup_middle. }
    apply lookup_zip_with_Some in Hi as (cl' & bv' & [= <- <-] & Hcl & Hbv).
    assert (Hbv' : (Some <$> voros) !! length done = Some (Some bv)).
    { rewrite list_lookup_fmap, Hbv. reflexivity. }
    set (new := moved (cl, bv)) in *.
    set (rest := concat (moved <$> todo)) in *.
    assert (Hnew : length new = GetNumberOfPoints bv) by now apply moved_length.
    assert (Hcat : concat (moved <$> (cl, bv) :: todo) = new ++ rest) by reflexivity.
    rewrite Hcat in *. rewrite length_app, replicate_add, <- app_assoc, Hnew in Hb.
    rewrite (offset_branch_Ok diverging_centerline (Some <$> voros) (length done) count b
               cl bv rs (replicate (length rest) 0 ++ tl) Hcl Hbv' Hok1 Hb Hrs).
    fold new. cbn [Py.bind].
    specialize (IH (done ++ [(cl, bv)])
                  (mkBuilder (voronoi_points b ++ new.*1)
                     (cell_array b ++ ((fun i => [i]) <$> seq count (length new)))
                     (rs ++ new.*2 ++ replicate (length rest) 0 ++ tl))
                  (count + length new)%nat (rs ++ new.*2)).
    assert (Hlen : length (done ++ [(cl, bv)]) = S (length done))
      by (rewrite length_app; simpl; lia).
    rewrite Hlen in IH. rewrite IH.
    + cbn [voronoi_points cell_array radius_array].
      rewrite !fmap_app, length_app, seq_app, fmap_app, <- !app_assoc.
      f_equal. f_equal. lia.
    + now rewrite <- app_assoc.
    + exact Hok.
    + cbn [radius_array]. now rewrite <- app_assoc.
    + rewrite length_app, length_fmap. lia.
Qed.

End Branches.

(** ** [change_area] as a function of the clouds *)

Lemma sizes_Ok (voros : list vtkPolyData) :
  map_each (fun diverging_voro : option vtkPolyData =>
              do v <- deref diverging_voro; Ok (GetNumberOfPoints v)) (Some <$> voros)
  = Ok (GetNumberOfPoints <$> voros).
Proof.
  induction voros as [| v voros IH]; [reflexivity |].
  change (Some <$> v :: voros) with (Some v :: (Some <$> voros)).
  cbn [map_each deref Py.bind]. now rewrite IH.
Qed.

Lemma moved_total (nearest : point -> nat) (centerline : list point) (factor : list R)
    (branches : list (vtkPolyData * vtkPolyData)) :
  Forall branch_ok branches ->
  length (concat (moved_branch nearest centerline factor <$> branches))
  = sum_list (GetNumberOfPoints <$> branches.*2).
Proof.
  induction 1 as [| branch branches Hok _ IH]; [reflexivity |].
  cbn [fmap list_fmap concat sum_list sum_list_with]. rewrite length_app.
  change (list_fmap ?f ?l) with (f <$> l) in *. rewrite IH. f_equal.
  unfold moved_branch, translate. rewrite length_fmap. apply cloud_length, Hok.
Qed.

Lemma zip_snd_le {A B : Type} (xs : list A) (ys : list B) :
  (length ys <= length xs)%nat -> (zip xs ys).*2 = ys.
Proof.
  revert xs. induction ys as [| y ys IH]; intros [| x xs] Hle; simpl in *;
    try reflexivity; try lia.
  f_equal. apply IH. lia.
Qed.

Section ChangeArea.

Variable gaussian_filter : list R -> Z -> list R.
Variable FindClosestPoint : list point -> point -> nat.
Hypothesis gaussian_filter_length :
  forall input sigma, length (gaussian_filter input sigma) = length input.
Hypothesis closest_in_range :
  forall ps p, ps <> [] -> (FindClosestPoint ps p < length ps)%nat.

Variables voronoi line_to_change : vtkPolyData.
Variables (method : string) (beta : R) (ratio : option R) (percentage : R)
  (region_of_interest : string) (region_points : option (list R)).
Variable factor : list R.

Hypothesis factor_Ok :
  get_factor gaussian_filter line_to_change method beta ratio percentage
    region_of_interest region_points = Ok factor.
Hypothesis line_nonempty : Points line_to_change <> [].
Hypothesis voronoi_radius : has_radius voronoi.

Let nearest := FindClosestPoint (Points line_to_change).

Lemma main_loop_Ok (radii tl : list R) :
  PointData voronoi !! radiusArrayName = Some radii ->
  for_each (seq 0 (GetNumberOfPoints voronoi))
    (manipulate_point FindClosestPoint voronoi line_to_change
       (vtk_point_locator line_to_change) factor radii)
    (mkBuilder [] [] (get_vtk_array (GetNumberOfPoints voronoi + length tl)))
  = Ok (let new := deform nearest (Points line_to_change) factor <$> cloud voronoi in
        mkBuilder new.*1 ((fun i => [i]) <$> seq 0 (length new))
          (new.*2 ++ replicate (length tl) 0)).
Proof.
  intros Hr. pose proof (cloud_length voronoi voronoi_radius) as Hcl.
  rewrite (cloud_zip _ _ Hr) in *. rewrite <- Hcl at 1.
  rewrite (manipulate_loop FindClosestPoint line_to_change factor
             (fun p => closest_in_range _ p line_nonempty)
             (get_factor_length gaussian_filter gaussian_filter_length _ _ _ _ _ _ _ _
                factor_Ok)
             voronoi radii (zip (Points voronoi) radii) [] _ [] (replicate (length tl) 0)).
  - cbn [voronoi_points cell_array radius_array app length]. rewrite length_fmap.
    reflexivity.
  - reflexivity.
  - cbn [radius_array app]. unfold get_vtk_array. rewrite <- Hcl. apply replicate_add.
  - reflexivity.
Qed.

(** Without diverging centerlines the output is the deformed main
    cloud. *)
Lemma change_area_main (rest : list (option vtkPolyData)) :
  change_area gaussian_filter FindClosestPoint voronoi line_to_change method beta ratio
    percentage region_of_interest region_points None (None :: rest)
  = Ok (polydata_of_cloud
          (output_cloud nearest (Points line_to_change) factor voronoi [])).
Proof.
  unfold change_area. rewrite factor_Ok. cbn [Py.bind getitem lookup list_lookup truthy].
  destruct voronoi_radius as (radii & Hr & Hlen).
  pose proof (main_loop_Ok radii [] Hr) as Hloop. cbn [length] in Hloop.
  rewrite Nat.add_0_r in Hloop.
  unfold GetArray_GetTuple1. rewrite Hr. cbn [Py.bind].
  rewrite Hloop. cbn [Py.bind voronoi_points cell_array radius_array replicate].
  unfold polydata_of_cloud, output_cloud. cbn [fmap list_fmap concat].
  now rewrite !app_nil_r.
Qed.

(** With diverging centerlines the branches follow the deformed main
    cloud, in the order given. *)
Lemma change_area_branches (diverging_centerline voros : list vtkPolyData) :
  Points voronoi <> [] -> voros <> [] ->
  (length voros <= length diverging_centerline)%nat ->
  Forall branch_ok (zip diverging_centerline voros) ->
  change_area gaussian_filter FindClosestPoint voronoi line_to_change method beta ratio
    percentage region_of_interest region_points (Some diverging_centerline)
    (Some <$> voros)
  = Ok (polydata_of_cloud
          (output_cloud nearest (Points line_to_change) factor voronoi
             (zip diverging_centerline voros))).
Proof.
  intros Hn Hv Hle Hok.
  pose proof (moved_total nearest (Points line_to_change) factor _ Hok) as Htotal.
  rewrite zip_snd_le in Htotal by exact Hle.
  set (branches := concat (moved_branch nearest (Points line_to_change) factor
                             <$> zip diverging_centerline voros)) in *.
  unfold change_area. rewrite factor_Ok. cbn [Py.bind].
  destruct voros as [| v voros']; [done |].
  set (voros := v :: voros') in *.
  change (Some <$> voros) with (Some v :: (Some <$> voros')) at 1.
  cbn [getitem lookup list_lookup Py.bind truthy].
  rewrite sizes_Ok. cbn [Py.bind]. rewrite <- Htotal.
  pose proof (cloud_length voronoi voronoi_radius) as Hcl.
  destruct voronoi_radius as (radii & Hr & Hlen).
  pose proof (main_loop_Ok radii (replicate (length branches) 0) Hr) as Hloop.
  rewrite length_replicate in Hloop.
  unfold GetArray_GetTuple1. rewrite Hr. cbn [Py.bind].
  rewrite Hloop. cbn [Py.bind].
  set (main := deform nearest (Points line_to_change) factor <$> cloud voronoi) in *.
  unfold GetNumberOfPoints at 1.
  destruct (Points voronoi) as [| p0 ps] eqn:Hps; [done |]. cbn [length Py.bind].
  assert (Hmain : length main = S (length ps)).
  { unfold main. rewrite length_fmap, Hcl. unfold GetNumberOfPoints.
    now rewrite Hps. }
  replace (length ps + 1)%nat with (length main) by lia.
  assert (Hzl : length (zip diverging_centerline voros) = length (Some <$> voros)).
  { rewrite length_zip_with, length_fmap. lia. }
  rewrite <- Hzl.
  rewrite (branch_loop FindClosestPoint line_to_change factor
             (fun p => closest_in_range _ p line_nonempty)
             (get_factor_length gaussian_filter gaussian_filter_length _ _ _ _ _ _ _ _
                factor_Ok)
             diverging_centerline voros (zip diverging_centerline voros) []
             _ (length main) main.*2 [] eq_refl Hok).
  - cbn [Py.bind fst voronoi_points cell_array radius_array]. fold nearest. fold branches.
    unfold polydata_of_cloud, output_cloud. fold main. fold branches.
    rewrite !fmap_app, length_app, seq_app, fmap_app, app_nil_r. reflexivity.
  - cbn [radius_array]. fold nearest. fold branches. now rewrite app_nil_r.
  - now rewrite length_fmap.
Qed.

End ChangeArea.

(** ** The concrete filter and locator *)

Lemma scipy_gaussian_filter_length (input : list R) (sigma : Z) :
  length (Scipy.gaussian_filter input sigma) = length input.
Proof.
  unfold Scipy.gaussian_filter. destruct (decide _); [reflexivity |].
  now rewrite length_fmap, length_seq.
Qed.

Lemma sum_scale (f : Z -> R) (t c : R) (js : list Z) :
  Np.sum ((fun j => f j / t * c) <$> js) = Np.sum (f <$> js) / t * c.
Proof.
  unfold Np.sum. induction js as [| j js IH]; cbn [fmap list_fmap foldr].
  - unfold Rdiv. ring.
  - change (list_fmap ?g ?l) with (g <$> l) in *. rewrite IH. unfold Rdiv. ring.
Qed.

Lemma sum_positive (f : Z -> R) (js : list Z) :
  js <> [] -> (forall j, 0 < f j) -> 0 < Np.sum (f <$> js).
Proof.
  intros Hne Hpos. destruct js as [| j js]; [done |]. clear Hne.
  unfold Np.sum. revert j.
  induction js as [| j' js IH]; intros j; cbn [fmap list_fmap foldr] in *.
  - specialize (Hpos j). lra.
  - specialize (Hpos j). specialize (IH j'). lra.
Qed.

Lemma reflect_lt (n : nat) (p : Z) : (0 < n)%nat -> (Scipy.reflect n p < n)%nat.
Proof.
  intros Hn. unfold Scipy.reflect.
  pose proof (Z.mod_pos_bound p (2 * Z.of_nat n) ltac:(lia)) as Hq.
  destruct (decide _); lia.
Qed.

Lemma fmap_seq_const {A : Type} (f : nat -> A) (c : A) (n : nat) :
  (forall i, (i < n)%nat -> f i = c) -> f <$> seq 0 n = replicate n c.
Proof.
  intros H. apply list_eq. intros i. rewrite list_lookup_fmap.
  destruct (decide (i < n)%nat) as [Hi | Hi].
  - rewrite lookup_seq_lt by exact Hi. simpl. rewrite H by exact Hi.
    symmetry. now apply lookup_replicate_2.
  - rewrite lookup_seq_ge by lia. simpl. symmetry. apply lookup_replicate_None. lia.
Qed.

(** A constant area is a fixed point of the filter. *)
Lemma scipy_gaussian_filter_constant (n : nat) (c : R) (sigma : Z) :
  Scipy.gaussian_filter (replicate n c) sigma = replicate n c.
Proof.
  unfold Scipy.gaussian_filter. destruct (decide _) as [| Hs]; [reflexivity |].
  rewrite length_replicate. apply fmap_seq_const. intros i Hi.
  set (js := Scipy.offsets (4 * sigma)).
  set (total := Np.sum (Scipy.weight sigma <$> js)).
  assert (Hjs : js <> []).
  { unfold js, Scipy.offsets.
    destruct (Z.to_nat (2 * (4 * sigma) + 1)) as [| k] eqn:Hk; [lia | discriminate]. }
  assert (Htotal : 0 < total).
  { apply sum_positive; [exact Hjs |]. intros j. apply exp_pos. }
  transitivity (Np.sum ((fun j => Scipy.weight sigma j / total * c) <$> js)).
  - f_equal. apply list_fmap_ext. intros k j _. f_equal.
    rewrite nth_lookup, lookup_replicate_2; [reflexivity |].
    apply reflect_lt. lia.
  - rewrite sum_scale. fold total. field. lra.
Qed.

Lemma closest_from_range (best : nat) (d : R) (i : nat) (ps : list point) (q : point) :
  closest_from best d i ps q = best
  \/ (i <= closest_from best d i ps q < i + length ps)%nat.
Proof.
  revert best d i. induction ps as [| p ps IH]; intros best d i; simpl.
  - now left.
  - destruct (decide _).
    + right. destruct (IH i (distance2 p q) (S i)) as [-> | H]; lia.
    + destruct (IH best d (S i)) as [-> | H]; [now left | right; lia].
Qed.

Lemma closest_point_lt (ps : list point) (q : point) :
  ps <> [] -> (closest_point ps q < length ps)%nat.
Proof.
  destruct ps as [| p ps]; [done |]. intros _. simpl.
  destruct (closest_from_range 0 (distance2 p q) 1 ps q) as [-> | H]; lia.
Qed.

(** ** The raw factor of each method *)

Lemma transition_length (region_of_interest method : string) (n : nat) (trans : list R) :
  transition region_of_interest method n = Ok trans -> length trans = n.
Proof.
  intros H. destruct (transition_Ok region_of_interest method n) as (t & Ht & Hlen).
  congruence.
Qed.

Lemma raw_factor_length (line : vtkPolyData) (area : list R) (n : nat) (method : string)
    (beta : R) (ratio : option R) (percentage : R) (region_points : option (list R))
    (raw : list R) :
  length area = GetNumberOfPoints line -> n = GetNumberOfPoints line ->
  raw_factor line area n method beta ratio percentage region_points = Ok raw ->
  length raw = GetNumberOfPoints line.
Proof.
  intros Harea Hn H. unfold raw_factor in H.
  destruct (decide (method = "variation")).
  { bind_inv H. bind_inv H. apply map_each_length in H, E0. congruence. }
  destruct (decide (method = "stenosis")).
  { bind_inv H. destruct (decide (x = 3%nat)).
    - injection H as <-. now rewrite length_fmap, linspace_length.
    - destruct (decide (x = 6%nat)); [| discriminate].
      repeat bind_inv H.
      repeat match goal with
             | E : map_each _ _ = Ok _ |- _ => apply map_each_length in E
             end.
      rewrite get_curvilinear_coordinate_length in *.
      match goal with
      | E : Np.broadcast _ _ _ = Ok _ |- _ =>
          rewrite broadcast_same in E by (rewrite length_fmap; congruence);
          injection E as <-
      end.
      rewrite length_zip_with, length_fmap in *. lia. }
  destruct (decide (method = "area")); [| discriminate].
  injection H as <-. unfold Np.ones. now rewrite length_fmap, length_replicate.
Qed.

Section FactorMethods.

Variable gaussian_filter : list R -> Z -> list R.
Hypothesis gaussian_filter_length :
  forall input sigma, length (gaussian_filter input sigma) = length input.

Variable line : vtkPolyData.
Variable area : list R.
Hypothesis line_area : PointData line !! "CenterlineSectionArea" = Some area.
Hypothesis area_length : length area = GetNumberOfPoints line.

Let smooth := gaussian_filter (gaussian_filter area 5) 5.

Lemma smooth_length : length smooth = GetNumberOfPoints line.
Proof. unfold smooth. now rewrite !gaussian_filter_length. Qed.

(** On a well-formed centerline [get_factor] returns as soon as the raw
    factor of the method is defined, and blends it. *)
Lemma get_factor_blend method beta ratio percentage region_of_interest region_points
    (trans raw : list R) :
  transition region_of_interest method (GetNumberOfPoints line) = Ok trans ->
  raw_factor line smooth (GetNumberOfPoints line) method beta ratio percentage
    region_points = Ok raw ->
  get_factor gaussian_filter line method beta ratio percentage region_of_interest
    region_points = Ok (zip_with (fun x t => x * (1 - t) + t) raw trans).
Proof.
  intros Htrans Hraw. rewrite get_factor_raw.
  rewrite (get_point_data_array_Ok _ _ _ line_area area_length). cbn [Py.bind].
  fold smooth. rewrite smooth_length, Htrans. cbn [Py.bind].
  rewrite (transition_length _ _ _ _ Htrans), Hraw. cbn [Py.bind].
  apply blend_same.
  rewrite (raw_factor_length _ _ _ _ _ _ _ _ _ smooth_length eq_refl Hraw).
  symmetry. exact (transition_length _ _ _ _ Htrans).
Qed.

(** Conversely, whatever [get_factor] returns is such a blend. *)
Lemma get_factor_inv method beta ratio percentage region_of_interest region_points
    (factor : list R) :
  get_factor gaussian_filter line method beta ratio percentage region_of_interest
    region_points = Ok factor ->
  exists trans raw,
    transition region_of_interest method (GetNumberOfPoints line) = Ok trans
    /\ raw_factor line smooth (GetNumberOfPoints line) method beta ratio percentage
         region_points = Ok raw
    /\ length trans = GetNumberOfPoints line
    /\ length raw = GetNumberOfPoints line
    /\ factor = zip_with (fun x t => x * (1 - t) + t) raw trans.
Proof.
  rewrite get_factor_raw.
  rewrite (get_point_data_array_Ok _ _ _ line_area area_length). cbn [Py.bind].
  fold smooth. rewrite smooth_length. intros H.
  bind_inv H. rename x into trans, E into Htrans.
  pose proof (transition_length _ _ _ _ Htrans) as Hlen. rewrite Hlen in H.
  bind_inv H. rename x into raw, E into Hraw.
  pose proof (raw_factor_length _ _ _ _ _ _ _ _ _ smooth_length eq_refl Hraw) as Hrl.
  rewrite blend_same in H by congruence. injection H as <-.
  exists trans, raw. repeat split; assumption.
Qed.

End FactorMethods.

Lemma raw_factor_area (line : vtkPolyData) (area : list R) (n : nat) (beta : R)
    (ratio : option R) (percentage : R) (region_points : option (list R)) :
  raw_factor line area n "area" beta ratio percentage region_points
  = Ok (replicate n (1 * (1 + percentage * 0.01))).
Proof.
  unfold raw_factor. rewrite decide_False by discriminate.
  rewrite decide_False by discriminate. rewrite decide_True by reflexivity.
  unfold Np.ones. now rewrite fmap_replicate.
Qed.

Lemma raw_factor_stenosis_one (line : vtkPolyData) (area : list R) (n : nat) (beta : R)
    (ratio : option R) (percentage : R) (region_points : list R) :
  length region_points = 3%nat ->
  raw_factor line area n "stenosis" beta ratio percentage (Some region_points)
  = Ok ((fun ti => 1 - sin ti * percentage * 0.01)
          <$> Np.linspace 0 PI (GetNumberOfPoints line)).
Proof.
  intros H. unfold raw_factor. rewrite decide_False by discriminate.
  rewrite decide_True by reflexivity. cbn [len Py.bind]. rewrite H.
  now rewrite decide_True by reflexivity.
Qed.

Lemma sum_list_positive (xs : list R) :
  xs <> [] -> Forall (fun a => 0 < a) xs -> 0 < Np.sum xs.
Proof.
  intros Hne H. unfold Np.sum. induction H as [| x xs Hx H IH]; [done |].
  cbn [foldr]. destruct xs as [| y ys].
  - simpl. lra.
  - specialize (IH ltac:(discriminate)). lra.
Qed.

Lemma mean_positive (xs : list R) :
  xs <> [] -> Forall (fun a => 0 < a) xs -> 0 < Np.mean xs.
Proof.
  intros Hne H. unfold Np.mean. apply Rdiv_lt_0_compat.
  - now apply sum_list_positive.
  - apply lt_0_INR. destruct xs; [done | simpl; lia].
Qed.

Lemma foldr_Rmin_positive (x : R) (xs : list R) :
  0 < x -> Forall (fun a => 0 < a) xs -> 0 < foldr Rmin x xs.
Proof.
  intros Hx H. induction H as [| y ys Hy H IH]; cbn [foldr]; [exact Hx |].
  now apply Rmin_glb_lt.
Qed.

Lemma foldr_Rmax_positive (x : R) (xs : list R) :
  0 < x -> Forall (fun a => 0 < a) xs -> 0 < foldr Rmax x xs.
Proof.
  intros Hx H. induction H as [| y ys Hy H IH]; cbn [foldr]; [exact Hx |].
  eapply Rlt_le_trans; [exact Hy | apply Rmax_l].
Qed.

(** The powers of the areas relative to their mean. *)
Lemma relative_powers (area : list R) (beta : R) :
  Forall (fun a => 0 < a) area ->
  (do relative <- map_each (fun a => Np.divide a (Np.mean area)) area;
   map_each (fun x => Np.power x beta) relative)
  = Ok ((fun a => Rpower (a / Np.mean area) beta) <$> area).
Proof.
  intros Hpos. destruct area as [| a0 area']; [reflexivity |].
  set (area := a0 :: area') in *.
  pose proof (mean_positive area ltac:(discriminate) Hpos) as Hmean.
  rewrite (map_each_Ok _ (fun a => a / Np.mean area)).
  2:{ intros a _. unfold Np.divide. rewrite decide_False by lra. reflexivity. }
  cbn [Py.bind].
  rewrite (map_each_Ok _ (fun x => Rpower x beta)).
  - now rewrite <- list_fmap_compose.
  - intros x Hx. apply list_elem_of_fmap in Hx as (a & -> & Ha).
    rewrite Forall_forall in Hpos. specialize (Hpos a Ha).
    unfold Np.power. rewrite decide_True; [reflexivity |].
    now apply Rdiv_lt_0_compat.
Qed.

Lemma raw_factor_variation_beta (line : vtkPolyData) (area : list R) (n : nat) (beta : R)
    (percentage : R) (region_points : option (list R)) :
  Forall (fun a => 0 < a) area ->
  raw_factor line area n "variation" beta None percentage region_points
  = Ok ((fun a => Rpower (a / Np.mean area) beta) <$> area).
Proof.
  intros Hpos. unfold raw_factor. rewrite decide_True by reflexivity.
  cbn [Py.bind]. now apply relative_powers.
Qed.

Lemma raw_factor_variation_ratio (line : vtkPolyData) (area : list R) (n : nat)
    (beta ratio : R) (percentage : R) (region_points : option (list R))
    (area_max area_min : R) :
  Forall (fun a => 0 < a) area ->
  Np.max area = Ok area_max -> Np.min area = Ok area_min ->
  0 < ratio -> area_max <> area_min ->
  raw_factor line area n "variation" beta (Some ratio) percentage region_points
  = Ok ((fun a => Rpower (a / Np.mean area) (solved_beta ratio (area_max / area_min)))
          <$> area).
Proof.
  intros Hpos Hmax Hmin Hratio Hne. unfold raw_factor.
  rewrite decide_True by reflexivity. rewrite Hmax, Hmin. cbn [Py.bind].
  destruct area as [| a0 area']; [discriminate |].
  apply Forall_cons in Hpos as Hpos'. destruct Hpos' as [H0 Hrest].
  injection Hmax as Hmax. injection Hmin as Hmin.
  assert (Hmin_pos : 0 < area_min) by (subst; now apply foldr_Rmin_positive).
  assert (Hmax_pos : 0 < area_max) by (subst; now apply foldr_Rmax_positive).
  unfold Np.divide at 1. rewrite decide_False by lra. cbn [Py.bind].
  unfold math_log. rewrite decide_True by exact Hratio. cbn [Py.bind].
  assert (Hold : 0 < area_max / area_min) by now apply Rdiv_lt_0_compat.
  rewrite decide_True by exact Hold. cbn [Py.bind].
  unfold truediv. rewrite decide_False.
  - cbn [Py.bind]. now apply relative_powers.
  - intros Hln. apply Hne. rewrite <- ln_1 in Hln. apply ln_inv in Hln; [| exact Hold | lra].
    apply (f_equal (fun x => x * area_min)) in Hln. field_simplify in Hln; lra.
Qed.

(** The three ways the solve of [beta] raises. *)
Lemma raw_factor_ratio_constant (line : vtkPolyData) (area : list R) (n : nat)
    (beta ratio : R) (percentage : R) (region_points : option (list R)) (a : R) :
  Np.max area = Ok a -> Np.min area = Ok a -> a <> 0 -> 0 < ratio ->
  raw_factor line area n "variation" beta (Some ratio) percentage region_points
  = Raise ZeroDivisionError.
Proof.
  intros Hmax Hmin Ha Hratio. unfold raw_factor.
  rewrite decide_True by reflexivity. rewrite Hmax, Hmin. cbn [Py.bind].
  unfold Np.divide. rewrite decide_False by exact Ha. cbn [Py.bind].
  unfold math_log. rewrite decide_True by exact Hratio. cbn [Py.bind].
  replace (a / a) with 1 by now field.
  rewrite decide_True by lra. cbn [Py.bind].
  unfold truediv. rewrite ln_1. now rewrite decide_True by reflexivity.
Qed.

Lemma raw_factor_ratio_nonpositive (line : vtkPolyData) (area : list R) (n : nat)
    (beta ratio : R) (percentage : R) (region_points : option (list R))
    (area_max area_min : R) :
  Np.max area = Ok area_max -> Np.min area = Ok area_min -> area_min <> 0 ->
  ratio <= 0 \/ area_max / area_min <= 0 ->
  raw_factor line area n "variation" beta (Some ratio) percentage region_points
  = Raise ValueError.
Proof.
  intros Hmax Hmin Ha Hbad. unfold raw_factor.
  rewrite decide_True by reflexivity. rewrite Hmax, Hmin. cbn [Py.bind].
  unfold Np.divide. rewrite decide_False by exact Ha. cbn [Py.bind].
  unfold math_log. destruct (decide (0 < ratio)) as [Hr |]; [| reflexivity].
  cbn [Py.bind]. destruct Hbad as [? | Hold]; [lra |].
  now rewrite decide_False by lra.
Qed.

(** The transition weights lie between 0 and 1. *)
Lemma linspace_unit (a b : R) (k : nat) :
  0 <= a <= 1 -> 0 <= b <= 1 ->
  Forall (fun t => 0 <= t <= 1) (Np.linspace a b k).
Proof.
  intros Ha Hb. destruct (decide (2 <= k)%nat) as [Hk2 | Hk2].
  2:{ destruct k as [| [| k]]; [apply Forall_nil_2 | now apply Forall_singleton | lia]. }
  apply Forall_forall. intros t Ht. apply list_elem_of_lookup in Ht as (i & Hi).
  pose proof (lookup_lt_Some _ _ _ Hi) as Hlt. rewrite linspace_length in Hlt.
  rewrite linspace_lookup in Hi by lia. injection Hi as <-.
  set (d := INR (k - 1)).
  assert (Hd : 0 < d) by (apply lt_0_INR; lia).
  assert (Hid : 0 <= INR i <= d).
  { split; [apply pos_INR | apply le_INR; lia]. }
  set (s := INR i / d).
  assert (Hs : 0 <= s <= 1).
  { unfold s. split.
    - apply Rmult_le_pos; [lra | left; now apply Rinv_0_lt_compat].
    - apply Rmult_le_reg_r with d; [exact Hd |].
      unfold Rdiv. rewrite Rmult_assoc, Rinv_l by lra. lra. }
  replace (a + INR i * ((b - a) / d)) with (a * (1 - s) + b * s)
    by (unfold s; field; lra).
  assert (0 <= a * (1 - s)) by (apply Rmult_le_pos; lra).
  assert (0 <= b * s) by (apply Rmult_le_pos; lra).
  assert (a * (1 - s) <= 1 * (1 - s)) by (apply Rmult_le_compat_r; lra).
  assert (b * s <= 1 * s) by (apply Rmult_le_compat_r; lra).
  lra.
Qed.

Lemma transition_unit (region_of_interest method : string) (n : nat) (trans : list R) :
  transition region_of_interest method n = Ok trans ->
  Forall (fun t => 0 <= t <= 1) trans.
Proof.
  rewrite transition_eq. intros [= <-]. cbv zeta.
  assert (Hz : forall m, Forall (fun t => 0 <= t <= 1) (replicate m 0)).
  { intros m. apply Forall_replicate. lra. }
  assert (Hup : Forall (fun t => 0 <= t <= 1) (Np.linspace 0 1 (round_tenth n)))
    by (apply linspace_unit; lra).
  assert (Hdown : Forall (fun t => 0 <= t <= 1) (Np.linspace 1 0 (round_tenth n)))
    by (apply linspace_unit; lra).
  destruct (decide _); [now apply Forall_app |].
  destruct (_ && _); [| apply Hz].
  apply Forall_app. split; [exact Hdown |]. now apply Forall_app.
Qed.

Lemma blend_positive (raw trans : list R) :
  Forall (fun x => 0 < x) raw -> Forall (fun t => 0 <= t <= 1) trans ->
  Forall (fun x => 0 < x) (zip_with (fun x t => x * (1 - t) + t) raw trans).
Proof.
  intros Hraw. revert trans. induction Hraw as [| x raw Hx Hraw IH]; intros trans Ht.
  - constructor.
  - destruct Ht as [| t trans Ht Htrans]; [constructor |]. cbn [zip_with].
    constructor; [| now apply IH].
    destruct (Rle_lt_or_eq_dec t 1 ltac:(lra)) as [Hlt | ->]; [| lra].
    assert (0 < x * (1 - t)) by (apply Rmult_lt_0_compat; lra). lra.
Qed.

(** ** The output cloud *)

Lemma cloud_polydata (c : list (point * R)) : cloud (polydata_of_cloud c) = c.
Proof.
  unfold cloud, polydata_of_cloud. cbn [PointData Points].
  rewrite lookup_insert_eq. cbn [default]. apply zip_fst_snd.
Qed.

Lemma polydata_of_cloud_radius (c : list (point * R)) : has_radius (polydata_of_cloud c).
Proof.
  exists c.*2. unfold polydata_of_cloud, GetNumberOfPoints. cbn [PointData Points].
  split; [apply lookup_insert_eq | now rewrite !length_fmap].
Qed.

Section Output.

Variable gaussian_filter : list R -> Z -> list R.
Variable FindClosestPoint : list point -> point -> nat.
Hypothesis gaussian_filter_length :
  forall input sigma, length (gaussian_filter input sigma) = length input.
Hypothesis closest_in_range :
  forall ps p, ps <> [] -> (FindClosestPoint ps p < length ps)%nat.

(** On either kind of input of [diverging_ok], [change_area] returns the
    Voronoi diagram of the output cloud of the specification. *)
Lemma change_area_Ok voronoi line method beta ratio percentage region_of_interest
    region_points diverging_centerline diverging_voronoi branches factor :
  get_factor gaussian_filter line method beta ratio percentage region_of_interest
    region_points = Ok factor ->
  Points line <> [] -> has_radius voronoi ->
  diverging_ok voronoi diverging_centerline diverging_voronoi branches ->
  change_area gaussian_filter FindClosestPoint voronoi line method beta ratio percentage
    region_of_interest region_points diverging_centerline diverging_voronoi
  = Ok (polydata_of_cloud
          (output_cloud (FindClosestPoint (Points line)) (Points line) factor voronoi
             branches)).
Proof.
  intros Hf Hline Hrad Hdiv. destruct Hdiv as [rest | cls voros Hn Hv Hle Hok].
  - now apply change_area_main.
  - now apply change_area_branches.
Qed.

Lemma output_cloud_main nearest centerline factor voronoi branches i p r :
  cloud voronoi !! i = Some (p, r) ->
  output_cloud nearest centerline factor voronoi branches !! i
  = Some (deform nearest centerline factor (p, r)).
Proof.
  intros Hi. unfold output_cloud. rewrite lookup_app_l.
  - now rewrite list_lookup_fmap, Hi.
  - rewrite length_fmap. now apply lookup_lt_Some in Hi.
Qed.

Lemma concat_lookup {A B : Type} (f : A -> list B) (xs : list A) (j i : nat) (x : A)
    (y : B) :
  xs !! j = Some x -> f x !! i = Some y ->
  concat (f <$> xs) !! (length (concat (f <$> take j xs)) + i)%nat = Some y.
Proof.
  intros Hj Hi. pose proof (take_drop_middle xs j x Hj) as Hx.
  clear Hj. set (pre := take j xs) in *. set (post := drop (S j) xs) in *.
  clearbody pre post. subst xs.
  rewrite fmap_app, concat_app, fmap_cons. cbn [concat].
  rewrite lookup_app_r by lia.
  replace (length (concat (f <$> pre)) + i - length (concat (f <$> pre)))%nat
    with i by lia.
  rewrite lookup_app_l; [exact Hi |]. now apply lookup_lt_Some in Hi.
Qed.

End Output.

(** ** The concrete inputs *)

Lemma straight_line_size (n : nat) (a : R) : GetNumberOfPoints (straight_line n a) = n.
Proof. unfold GetNumberOfPoints, straight_line. cbn [Points]. now rewrite length_fmap, length_seq. Qed.

Lemma straight_line_has_area (n : nat) (a : R) : has_area (straight_line n a).
Proof.
  exists (replicate n a). split.
  - apply lookup_singleton_eq.
  - now rewrite straight_line_size, length_replicate.
Qed.

Lemma straight_line_nonempty (n : nat) (a : R) : (0 < n)%nat -> Points (straight_line n a) <> [].
Proof.
  intros Hn H. apply (f_equal length) in H.
  change (length (Points (straight_line n a))) with (GetNumberOfPoints (straight_line n a)) in H.
  rewrite straight_line_size in H. simpl in H. lia.
Qed.

Lemma small_voronoi_radius : has_radius small_voronoi.
Proof. exists [1; 2]. split; [apply lookup_singleton_eq | reflexivity]. Qed.

Lemma branch_voronoi_radius : has_radius branch_voronoi.
Proof. exists [1 / 2]. split; [apply lookup_singleton_eq | reflexivity]. Qed.

(** The factor of method "area" on a well-formed centerline. *)
Lemma get_factor_area gaussian_filter line beta ratio percentage region_of_interest
    region_points :
  (forall input sigma, length (gaussian_filter input sigma) = length input) ->
  has_area line ->
  exists trans,
    transition region_of_interest "area" (GetNumberOfPoints line) = Ok trans
    /\ get_factor gaussian_filter line "area" beta ratio percentage region_of_interest
         region_points
       = Ok ((fun t => 1 * (1 + percentage * 0.01) * (1 - t) + t) <$> trans).
Proof.
  intros Hgf (area & Harea & Hlen).
  destruct (transition_Ok region_of_interest "area" (GetNumberOfPoints line))
    as (trans & Htrans & Htl).
  exists trans. split; [exact Htrans |].
  rewrite (get_factor_blend gaussian_filter Hgf line area Harea Hlen _ _ _ _ _ _ trans _
             Htrans (raw_factor_area _ _ _ _ _ _ _)).
  f_equal. apply zip_with_replicate_l. lia.
Qed.

Lemma diverging_ok_branches (voronoi : vtkPolyData)
    (diverging_centerline voros : list vtkPolyData)
    (branches : list (vtkPolyData * vtkPolyData)) :
  diverging_ok voronoi (Some diverging_centerline) (Some <$> voros) branches ->
  branches = zip diverging_centerline voros
  /\ Points voronoi <> [] /\ voros <> []
  /\ (length voros <= length diverging_centerline)%nat
  /\ Forall branch_ok (zip diverging_centerline voros).
Proof.
  intros H. inversion H as [| cls vs Hn Hv Hle Hall Hcls Hvs Hzip].
  apply (inj (fmap Some)) in Hvs. subst vs. repeat split; assumption.
Qed.

Lemma example_diverging_ok :
  diverging_ok small_voronoi (Some [branch_line]) (Some <$> [branch_voronoi])
    (zip [branch_line] [branch_voronoi]).
Proof.
  apply with_diverging; [discriminate | discriminate | simpl; lia |].
  apply Forall_singleton. split; [discriminate | apply branch_voronoi_radius].
Qed.

Lemma factor_one_deform (nearest : point -> nat) (centerline : list point)
    (factor : list R) (c : list (point * R)) :
  (forall p, nth (nearest p) factor 0 = 1) ->
  deform nearest centerline factor <$> c = c.
Proof.
  intros H. rewrite <- (list_fmap_id c) at 2. apply list_fmap_ext.
  intros _ [[[x y] z] r] _. unfold deform, displacement. cbn [fst snd]. rewrite H.
  destruct (nth (nearest (x, y, z)) centerline origin) as [[cx cy] cz].
  unfold vadd, vscale, vsub. cbv [Datatypes.id]. f_equal; [f_equal; [f_equal |] |]; ring.
Qed.

(** ** The shape of the transition *)

Lemma ramp_down_lookup (k i : nat) :
  (2 <= k)%nat -> (i < k)%nat ->
  Np.linspace 1 0 k !! i = Some (1 - INR i / INR (k - 1)).
Proof.
  intros Hk Hi. rewrite linspace_lookup by assumption. f_equal.
  assert (INR (k - 1) <> 0) by (apply not_0_INR; lia). now field.
Qed.

Lemma ramp_up_lookup (k i : nat) :
  (2 <= k)%nat -> (i < k)%nat ->
  Np.linspace 0 1 k !! (k - 1 - i)%nat = Some (1 - INR i / INR (k - 1)).
Proof.
  intros Hk Hi. rewrite linspace_lookup by lia. f_equal.
  assert (INR (k - 1) <> 0) by (apply not_0_INR; lia).
  replace (k - 1 - i)%nat with ((k - 1) - i)%nat by lia.
  rewrite minus_INR by lia. now field.
Qed.

(** With "first_line" only the trailing end ramps. *)
Lemma transition_first_line (method : string) (n : nat) (trans : list R) :
  transition "first_line" method n = Ok trans ->
  let k := round_tenth n in
  (forall i, (i < n - k)%nat -> trans !! i = Some 0)
  /\ ((2 <= k)%nat -> forall i, (i < k)%nat ->
      trans !! (n - 1 - i)%nat = Some (1 - INR i / INR (k - 1))).
Proof.
  rewrite transition_eq. cbv zeta. rewrite decide_True by reflexivity. intros [= <-].
  pose proof (round_tenth_half n) as Hk. split.
  - intros i Hi. rewrite lookup_app_l by (rewrite length_replicate; lia).
    now apply lookup_replicate_2.
  - intros Hk2 i Hi. rewrite lookup_app_r by (rewrite length_replicate; lia).
    rewrite length_replicate.
    replace (n - 1 - i - (n - round_tenth n))%nat with (round_tenth n - 1 - i)%nat by lia.
    now apply ramp_up_lookup.
Qed.

(** With "manual" or "commandline", methods "area" and "variation" ramp at
    both ends. *)
Lemma transition_both_ends (region_of_interest method : string) (n : nat) (trans : list R) :
  region_of_interest ∈ ["manual"; "commandline"] -> method ∈ ["area"; "variation"] ->
  transition region_of_interest method n = Ok trans ->
  let k := round_tenth n in
  (forall i, (k <= i < n - k)%nat -> trans !! i = Some 0)
  /\ ((2 <= k)%nat -> forall i, (i < k)%nat ->
      trans !! i = Some (1 - INR i / INR (k - 1))
      /\ trans !! (n - 1 - i)%nat = Some (1 - INR i / INR (k - 1))).
Proof.
  intros Hroi Hmethod. rewrite transition_eq. cbv zeta.
  rewrite decide_False.
  2:{ intros ->. repeat (apply elem_of_cons in Hroi as [Hroi | Hroi]; [discriminate |]).
      inversion Hroi. }
  rewrite !bool_decide_eq_true_2 by assumption. cbn [andb]. intros [= <-].
  pose proof (round_tenth_half n) as Hk. split.
  - intros i Hi. rewrite lookup_app_r by (rewrite linspace_length; lia).
    rewrite linspace_length, lookup_app_l by (rewrite length_replicate; lia).
    apply lookup_replicate_2. lia.
  - intros Hk2 i Hi. split.
    + rewrite lookup_app_l by (rewrite linspace_length; lia). now apply ramp_down_lookup.
    + rewrite lookup_app_r by (rewrite linspace_length; lia).
      rewrite linspace_length, lookup_app_r by (rewrite length_replicate; lia).
      rewrite length_replicate.
      match goal with
      | |- _ !! ?j = _ => replace j with (round_tenth n - 1 - i)%nat by lia
      end.
      now apply ramp_up_lookup.
Qed.

(** Every other combination has no transition. *)
Lemma transition_none (region_of_interest method : string) (n : nat) :
  region_of_interest <> "first_line" ->
  ~ (region_of_interest ∈ ["manual"; "commandline"] /\ method ∈ ["area"; "variation"]) ->
  transition region_of_interest method n = Ok (replicate n 0).
Proof.
  intros Hfirst Hnot. rewrite transition_eq. cbv zeta.
  rewrite decide_False by exact Hfirst.
  destruct (bool_decide (region_of_interest ∈ ["manual"; "commandline"])) eqn:E1;
    [| reflexivity].
  destruct (bool_decide (method ∈ ["area"; "variation"])) eqn:E2; [| reflexivity].
  apply bool_decide_eq_true_1 in E1, E2. exfalso. apply Hnot. now split.
Qed.

Lemma stenosis_not_ramped : ~ ("stenosis" ∈ ["area"; "variation"]).
Proof.
  intros H. repeat (apply elem_of_cons in H as [H | H]; [discriminate |]). inversion H.
Qed.

(** A raise in the raw factor is a raise of [get_factor]. *)
Lemma get_factor_raise (gaussian_filter : list R -> Z -> list R) (line : vtkPolyData)
    (area : list R) (method : string) (beta : R) (ratio : option R) (percentage : R)
    (region_of_interest : string) (region_points : option (list R)) (e : exn) :
  (forall input sigma, length (gaussian_filter input sigma) = length input) ->
  PointData line !! "CenterlineSectionArea" = Some area ->
  length area = GetNumberOfPoints line ->
  raw_factor line (gaussian_filter (gaussian_filter area 5%Z) 5%Z) (GetNumberOfPoints line)
    method beta ratio percentage region_points = Raise e ->
  get_factor gaussian_filter line method beta ratio percentage region_of_interest
    region_points = Raise e.
Proof.
  intros Hgf Harea Hlen Hraw. rewrite get_factor_raw.
  rewrite (get_point_data_array_Ok _ _ _ Harea Hlen). cbn [Py.bind].
  rewrite !Hgf, Hlen.
  destruct (transition_Ok region_of_interest method (GetNumberOfPoints line))
    as (trans & -> & Htl).
  cbn [Py.bind]. rewrite Htl, Hraw. reflexivity.
Qed.

Lemma raw_factor_unknown_method (line : vtkPolyData) (area : list R) (n : nat)
    (method : string) (beta : R) (ratio : option R) (percentage : R)
    (region_points : option (list R)) :
  method ∉ ["variation"; "stenosis"; "area"] ->
  raw_factor line area n method beta ratio percentage region_points
  = Raise UnboundLocalError.
Proof.
  intros H. unfold raw_factor.
  rewrite decide_False by (intros ->; apply H; set_solver).
  rewrite decide_False by (intros ->; apply H; set_solver).
  rewrite decide_False by (intros ->; apply H; set_solver).
  reflexivity.
Qed.

Lemma smooth_straight_line (n : nat) (a : R) :
  Scipy.gaussian_filter (Scipy.gaussian_filter (replicate n a) 5) 5 = replicate n a.
Proof. now rewrite !scipy_gaussian_filter_constant. Qed.

Lemma foldr_Rmax_replicate (n : nat) (a : R) : foldr Rmax a (replicate n a) = a.
Proof.
  induction n as [| n IH]; [reflexivity |]. cbn [replicate foldr]. rewrite IH.
  apply Rmax_left. lra.
Qed.

Lemma foldr_Rmin_replicate (n : nat) (a : R) : foldr Rmin a (replicate n a) = a.
Proof.
  induction n as [| n IH]; [reflexivity |]. cbn [replicate foldr]. rewrite IH.
  apply Rmin_left. lra.
Qed.

Lemma blend_ones (raw trans : list R) :
  Forall (fun x => x = 1) raw ->
  Forall (fun f => f = 1) (zip_with (fun x t => x * (1 - t) + t) raw trans).
Proof.
  intros Hraw. revert trans. induction Hraw as [| x raw -> Hraw IH]; intros trans.
  - constructor.
  - destruct trans as [| t trans]; [constructor |]. cbn [zip_with].
    constructor; [ring | apply IH].
Qed.

Lemma factor_one_translate (nearest : point -> nat) (centerline : list point)
    (factor : list R) (a : point) (B : list (point * R)) :
  nth (nearest a) factor 0 = 1 -> translate nearest centerline factor a B = B.
Proof.
  intros H. unfold translate. rewrite <- (list_fmap_id B) at 2. apply list_fmap_ext.
  intros _ [[[x y] z] r] _. unfold displacement. cbn [fst snd]. rewrite H.
  destruct (vsub (nth (nearest a) centerline origin) a) as [[dx dy] dz].
  unfold vadd, vscale. cbv [Datatypes.id].
  replace (1 - 1) with 0 by ring. now rewrite !Rmult_0_r, !Rplus_0_r.
Qed.

Lemma nth_all_ones (factor : list R) (i : nat) :
  Forall (fun f => f = 1) factor -> (i < length factor)%nat -> nth i factor 0 = 1.
Proof.
  intros Hones Hi. destruct (nth_lookup_or_length factor i 0) as [Hf | ?]; [| lia].
  rewrite Forall_forall in Hones. apply Hones. eapply list_elem_of_lookup_2. exact Hf.
Qed.

Lemma sizes_outcome (diverging_voronoi : list (option vtkPolyData)) :
  (exists sizes,
     map_each (fun diverging_voro : option vtkPolyData =>
                 do v <- deref diverging_voro; Ok (GetNumberOfPoints v)) diverging_voronoi
     = Ok sizes)
  \/ map_each (fun diverging_voro : option vtkPolyData =>
                 do v <- deref diverging_voro; Ok (GetNumberOfPoints v)) diverging_voronoi
     = Raise AttributeError.
Proof.
  induction diverging_voronoi as [| [v |] l IH]; cbn [map_each deref Py.bind].
  - left. now eexists.
  - destruct IH as [[sizes ->] | ->]; cbn [Py.bind]; [left; now eexists | now right].
  - now right.
Qed.

(** ** Arrays written and read back *)

Lemma SetTuple1_middle (done tl : list R) (old x : R) :
  SetTuple1 (done ++ old :: tl) (length done) x = Ok (done ++ x :: tl).
Proof.
  unfold SetTuple1. rewrite decide_True by (rewrite length_app; simpl; lia).
  rewrite insert_app_r_alt by lia. now rewrite Nat.sub_diag.
Qed.

Lemma create_vtk_array_loop (values todo done : list R) :
  values = done ++ todo ->
  for_each (seq (length done) (length todo))
    (fun i vtk_array => do v <- getitem values i; SetTuple1 vtk_array i v)
    (done ++ replicate (length todo) 0)
  = Ok values.
Proof.
  revert done. induction todo as [| x todo IH]; intros done Hv.
  - simpl. rewrite app_nil_r in *. now subst.
  - cbn [length seq for_each replicate]. unfold getitem at 1.
    rewrite Hv at 1. rewrite list_lookup_middle by reflexivity. cbn [Py.bind].
    rewrite SetTuple1_middle.
    specialize (IH (done ++ [x])).
    assert (Hlen : length (done ++ [x]) = S (length done))
      by (rewrite length_app; simpl; lia).
    rewrite Hlen in IH. cbn [Py.bind].
    replace (done ++ x :: replicate (length todo) 0)
      with ((done ++ [x]) ++ replicate (length todo) 0) by now rewrite <- app_assoc.
    apply IH. now rewrite <- app_assoc.
Qed.

Lemma GetTuple1_prefix (pre a suffix : list R) :
  map_each (GetTuple1 (pre ++ a ++ suffix)) (seq (length pre) (length a)) = Ok a.
Proof.
  revert pre. induction a as [| x a IH]; intros pre; [reflexivity |].
  cbn [length seq map_each]. unfold GetTuple1 at 1.
  change ((x :: a) ++ suffix) with (x :: (a ++ suffix)).
  rewrite list_lookup_middle by reflexivity. cbn [Py.bind].
  specialize (IH (pre ++ [x])).
  assert (Hlen : length (pre ++ [x]) = S (length pre))
    by (rewrite length_app; simpl; lia).
  rewrite Hlen, <- app_assoc in IH. cbn [app] in IH. now rewrite IH.
Qed.

(** ** Walking out of a sphere *)

Lemma move_past_sphere_loop_spec (centerline : vtkPolyData) (center : point) (radius : R)
    (indices : list Z) (tmp_point p : point) (i0 i : option Z) :
  move_past_sphere_loop centerline center radius indices tmp_point i0 = Ok (p, i) ->
  (exists before j after,
     indices = before ++ j :: after /\ i = Some j
     /\ GetPoint_int centerline j = Ok p
     /\ radius * radius <= distance2 p center
     /\ Forall (inside_sphere centerline center radius) before)
  \/ (p = tmp_point
      /\ i = match last indices with Some j => Some j | None => i0 end
      /\ Forall (inside_sphere centerline center radius) indices).
Proof.
  revert i0. induction indices as [| j indices IH]; intros i0; cbn [move_past_sphere_loop].
  - intros [= <- <-]. right. repeat split. constructor.
  - intros H. apply bind_Ok in H as (x & Hx & H).
    unfold EvaluateFunction in H.
    destruct (decide (0 <= distance2 x center - radius * radius)) as [Hout | Hin].
    + apply bind_Ok in H as (x' & Hx' & [= <- <-]).
      left. exists [], j, indices. repeat split; try assumption.
      * rewrite Hx in Hx'. injection Hx' as <-. lra.
      * constructor.
    + assert (Hj : inside_sphere centerline center radius j).
      { exists x. split; [exact Hx | lra]. }
      destruct (IH _ H) as [(before & j' & after & -> & -> & Hp & Hd & Hall)
                           | (-> & -> & Hall)].
      * left. exists (j :: before), j', after. repeat split; try assumption.
        now constructor.
      * right. repeat split; [| now constructor].
        destruct indices as [| j2 rest]; [reflexivity |].
        cbn [last]. destruct (last (j2 :: rest)) eqn:E; [reflexivity |].
        now apply last_None in E.
Qed.

Lemma py_range_empty (start stop step : Z) :
  (0 < step /\ stop <= start)%Z \/ (step < 0 /\ start <= stop)%Z ->
  py_range start stop step = Ok [].
Proof.
  intros H. unfold py_range. rewrite decide_False by lia.
  destruct (decide (0 < step)%Z) as [Hs | Hs].
  - assert (Hc : ((stop - start + step - 1) / step < 1)%Z)
      by (apply Z.div_lt_upper_bound; lia).
    replace (Z.to_nat ((stop - start + step - 1) / step)) with 0%nat by lia. reflexivity.
  - assert (Hc : ((start - stop - step - 1) / - step < 1)%Z)
      by (apply Z.div_lt_upper_bound; lia).
    replace (Z.to_nat ((start - stop - step - 1) / - step)) with 0%nat by lia. reflexivity.
Qed.

(** ** What the loops over the diverging diagrams keep *)

Lemma for_each_invariant {A S : Type} (P : S -> Prop) (body : A -> S -> outcome S)
    (xs : list A) (s s' : S) :
  (forall x s s', P s -> body x s = Ok s' -> P s') ->
  P s -> for_each xs body s = Ok s' -> P s'.
Proof.
  intros Hstep. revert s. induction xs as [| x xs IH]; intros s Hs; cbn [for_each].
  - now intros [= <-].
  - intros H. apply bind_Ok in H as (s1 & H1 & H). eauto.
Qed.

Lemma offset_point_keeps (n : nat) (b0 : builder) (diverging_voro : vtkPolyData)
    (v2 : point) (radii : list R) (i : nat) (state state' : builder * nat) :
  keeps n b0 state -> offset_point diverging_voro v2 radii i state = Ok state' ->
  keeps n b0 state'.
Proof.
  destruct state as [b count]. intros (Hn & [more Hpts] & Hrad). cbn [fst snd] in *.
  unfold offset_point. intros H.
  apply bind_Ok in H as (p & _ & H). apply bind_Ok in H as (r & _ & H).
  apply bind_Ok in H as (b1 & H1 & H). apply bind_Ok in H as (b2 & H2 & [= <-]).
  unfold radius_SetTuple1, SetTuple1 in H1. cbn [radius_array InsertNextPoint] in H1.
  destruct (decide _) as [Hlt |]; [| discriminate]. cbn [Py.bind] in H1.
  injection H1 as <-.
  unfold InsertCellPoint, InsertNextCell in H2. cbn [cell_array voronoi_points radius_array] in H2.
  destruct (last _); [| discriminate]. injection H2 as <-.
  split; [cbn [snd]; lia |]. cbn [fst voronoi_points radius_array]. split.
  - exists (more ++ [vadd p v2]). rewrite Hpts. now rewrite app_assoc.
  - intros k Hk. rewrite list_lookup_insert_ne by lia. now apply Hrad.
Qed.

Lemma offset_branch_keeps (FindClosestPoint : list point -> point -> nat) (n : nat)
    (b0 : builder) (line_to_change : vtkPolyData) (locator : list point) (factor : list R)
    (diverging_centerline : list vtkPolyData)
    (diverging_voronoi : list (option vtkPolyData)) (j : nat)
    (state state' : builder * nat) :
  keeps n b0 state ->
  offset_branch FindClosestPoint line_to_change locator factor diverging_centerline
    diverging_voronoi j state = Ok state' ->
  keeps n b0 state'.
Proof.
  intros Hk. unfold offset_branch. intros H.
  repeat (apply bind_Ok in H as (? & _ & H)).
  eapply for_each_invariant; [| exact Hk | exact H].
  intros ? ? ?. apply offset_point_keeps.
Qed.

Section MainPoint.

Variable gaussian_filter : list R -> Z -> list R.
Variable FindClosestPoint : list point -> point -> nat.
Hypothesis gaussian_filter_length :
  forall input sigma, length (gaussian_filter input sigma) = length input.
Hypothesis closest_in_range :
  forall ps p, ps <> [] -> (FindClosestPoint ps p < length ps)%nat.

(** Whatever comes with it, a run of [change_area] that returns has deformed
    every point of the main cloud. *)
Lemma change_area_main_point voronoi line method beta ratio percentage region_of_interest
    region_points diverging_centerline diverging_voronoi factor out i p r :
  get_factor gaussian_filter line method beta ratio percentage region_of_interest
    region_points = Ok factor ->
  Points line <> [] -> has_radius voronoi ->
  change_area gaussian_filter FindClosestPoint voronoi line method beta ratio percentage
    region_of_interest region_points diverging_centerline diverging_voronoi = Ok out ->
  cloud voronoi !! i = Some (p, r) ->
  cloud out !! i = Some (deform (FindClosestPoint (Points line)) (Points line) factor (p, r)).
Proof.
  intros Hfactor Hline Hrad Hout Hi.
  unfold change_area in Hout. rewrite Hfactor in Hout. cbn [Py.bind] in Hout.
  apply bind_Ok in Hout as (first & _ & Hout).
  apply bind_Ok in Hout as (m & Hm & Hout).
  assert (Hmn : exists extra, m = (GetNumberOfPoints voronoi + extra)%nat).
  { destruct (truthy first).
    - apply bind_Ok in Hm as (sizes & _ & [= <-]). eauto.
    - injection Hm as <-. exists 0%nat. lia. }
  destruct Hmn as [extra ->].
  pose proof Hrad as (radii & Hr & Hlen).
  unfold GetArray_GetTuple1 in Hout. rewrite Hr in Hout. cbn [Py.bind] in Hout.
  pose proof (main_loop_Ok gaussian_filter FindClosestPoint gaussian_filter_length
                closest_in_range voronoi line method beta ratio percentage
                region_of_interest region_points factor Hfactor Hline Hrad radii
                (replicate extra 0) Hr) as Hloop.
  rewrite length_replicate in Hloop. rewrite Hloop in Hout. cbn [Py.bind] in Hout.
  set (new := deform (FindClosestPoint (Points line)) (Points line) factor
                <$> cloud voronoi) in *.
  set (b1 := mkBuilder new.*1 ((fun i => [i]) <$> seq 0 (length new))
               (new.*2 ++ replicate extra 0)) in *.
  assert (Hnew : new !! i = Some (deform (FindClosestPoint (Points line)) (Points line)
                                    factor (p, r))).
  { unfold new. now rewrite list_lookup_fmap, Hi. }
  assert (Hin : (i < length new)%nat) by now apply lookup_lt_Some in Hnew.
  assert (Hkeep : exists state, keeps (length new) b1 state
                                /\ out = mkPolyData (voronoi_points state.1)
                                           (cell_array state.1)
                                           (<[radiusArrayName := radius_array state.1]> ∅)).
  { destruct diverging_centerline as [cls |].
    - apply bind_Ok in Hout as (b2 & Hb2 & [= <-]).
      apply bind_Ok in Hb2 as (count & Hcount & Hb2).
      apply bind_Ok in Hb2 as (state & Hloop2 & [= <-]).
      exists state. split; [| reflexivity].
      eapply for_each_invariant; [| | exact Hloop2].
      + intros j s s'. apply offset_branch_keeps.
      + assert (Hc : count = length new).
        { pose proof (cloud_length voronoi Hrad) as Hcl.
          unfold new. rewrite length_fmap, Hcl.
          destruct (GetNumberOfPoints voronoi); [discriminate |].
          injection Hcount as <-. lia. }
        split; [cbn [snd]; lia |]. split; [exists []; now rewrite app_nil_r | easy].
    - cbn [Py.bind] in Hout. injection Hout as <-. exists (b1, length new).
      split; [| reflexivity].
      split; [cbn [snd]; lia |]. split; [exists []; now rewrite app_nil_r | easy]. }
  destruct Hkeep as (state & (_ & [more Hpts] & Hkeep) & ->).
  unfold cloud. cbn [Points PointData]. rewrite lookup_insert_eq. cbn [default].
  apply lookup_zip_with_Some. eexists _, _. split; [reflexivity |]. split.
  - rewrite Hpts. cbn [b1 voronoi_points]. rewrite lookup_app_l by now rewrite length_fmap.
    now rewrite list_lookup_fmap, Hnew.
  - rewrite Hkeep by exact Hin. cbn [b1 radius_array].
    rewrite lookup_app_l by now rewrite length_fmap.
    now rewrite list_lookup_fmap, Hnew.
Qed.

End MainPoint.

(** ** Concrete runs on the straight centerline of 20 samples *)

Lemma straight_line_20_points (a : R) :
  Points (straight_line 20 a)
  = [(0, 0, 0); (1, 0, 0); (2, 0, 0); (3, 0, 0); (4, 0, 0); (5, 0, 0); (6, 0, 0);
     (7, 0, 0); (8, 0, 0); (9, 0, 0); (10, 0, 0); (11, 0, 0); (12, 0, 0); (13, 0, 0);
     (14, 0, 0); (15, 0, 0); (16, 0, 0); (17, 0, 0); (18, 0, 0); (19, 0, 0)].
Proof.
  unfold straight_line. cbn [Points fmap list_fmap seq]. rewrite !INR_IZR_INZ. reflexivity.
Qed.

Lemma closest_from_closer (best : nat) (d : R) (i : nat) (p : point) (ps : list point)
    (q : point) :
  distance2 p q < d ->
  closest_from best d i (p :: ps) q = closest_from i (distance2 p q) (S i) ps q.
Proof. intros H. cbn [closest_from]. now rewrite decide_True by exact H. Qed.

Lemma closest_from_farther (best : nat) (d : R) (i : nat) (p : point) (ps : list point)
    (q : point) :
  ~ distance2 p q < d ->
  closest_from best d i (p :: ps) q = closest_from best d (S i) ps q.
Proof. intros H. cbn [closest_from]. now rewrite decide_False by exact H. Qed.

Ltac closest_sample :=
  unfold vtk_point_locator; rewrite straight_line_20_points; unfold closest_point;
  repeat first
    [ rewrite closest_from_closer by (cbv [distance2 vsub]; lra)
    | rewrite closest_from_farther by (cbv [distance2 vsub]; lra) ];
  reflexivity.

Lemma closest_sample_main_0 :
  closest_point (vtk_point_locator (straight_line 20 1)) (0, 1, 0) = 0%nat.
Proof. closest_sample. Qed.

Lemma closest_sample_main_1 :
  closest_point (vtk_point_locator (straight_line 20 1)) (1, 0, 2) = 1%nat.
Proof. closest_sample. Qed.

Lemma closest_sample_branch :
  closest_point (vtk_point_locator (straight_line 20 1)) (1, 1, 0) = 1%nat.
Proof. closest_sample. Qed.

Lemma closest_sample_far_branch :
  closest_point (vtk_point_locator (straight_line 20 1)) (3, 2, 1) = 3%nat.
Proof. closest_sample. Qed.

(** Method "area" with 50 percent under "manual": the factor is 1.5 between
    the two end samples. *)
Lemma area_factor_20 :
  exists factor,
    get_factor Scipy.gaussian_filter (straight_line 20 1) "area" 0.5 None 50 "manual" None
    = Ok factor
    /\ forall i, (1 <= i <= 18)%nat -> factor !! i = Some 1.5.
Proof.
  destruct (get_factor_area Scipy.gaussian_filter (straight_line 20 1) 0.5 None 50 "manual"
              None scipy_gaussian_filter_length (straight_line_has_area 20 1))
    as (trans & Htrans & Hf).
  eexists. split; [exact Hf |]. intros i Hi.
  rewrite straight_line_size in Htrans.
  destruct (transition_both_ends "manual" "area" 20 trans ltac:(constructor)
              ltac:(constructor) Htrans) as [Hmid Hends].
  change (round_tenth 20) with 2%nat in Hmid, Hends.
  assert (Ht : trans !! i = Some 0).
  { destruct (decide (i = 1%nat)) as [-> | ?];
      [| destruct (decide (i = 18%nat)) as [-> | ?]].
    - destruct (Hends ltac:(lia) 1%nat ltac:(lia)) as [H _]. rewrite H. f_equal.
      cbn [Nat.sub INR]. field.
    - destruct (Hends ltac:(lia) 1%nat ltac:(lia)) as [_ H].
      change (20 - 1 - 1)%nat with 18%nat in H. rewrite H. f_equal.
      cbn [Nat.sub INR]. field.
    - apply Hmid. lia. }
  rewrite list_lookup_fmap, Ht. cbn [fmap option_fmap option_map]. f_equal. lra.
Qed.

Lemma far_branch_voronoi_radius : has_radius far_branch_voronoi.
Proof. exists [1 / 2; 1 / 4]. split; [apply lookup_singleton_eq | reflexivity]. Qed.

Lemma two_branches_ok :
  Forall branch_ok (zip [branch_line; far_branch_line] [branch_voronoi; far_branch_voronoi]).
Proof.
  repeat apply Forall_cons_2; [| | apply Forall_nil_2].
  - split; [discriminate | apply branch_voronoi_radius].
  - split; [discriminate | apply far_branch_voronoi_radius].
Qed.

Lemma one_branch_ok : Forall branch_ok (zip [branch_line] [branch_voronoi]).
Proof. apply Forall_singleton. split; [discriminate | apply branch_voronoi_radius]. Qed.

(** ** The largest and the smallest element *)

Lemma max_spec (xs : list R) (m : R) :
  Np.max xs = Ok m <-> m ∈ xs /\ Forall (fun a => a <= m) xs.
Proof.
  assert (Hfold : forall x l, foldr Rmax x l ∈ x :: l
                              /\ Forall (fun a => a <= foldr Rmax x l) (x :: l)).
  { intros x l. induction l as [| y l [Hin Hall]]; cbn [foldr].
    - split; [constructor | repeat constructor; lra].
    - apply Forall_cons in Hall as [Hx Hall]. split.
      + unfold Rmax at 1. destruct (Rle_dec _ _).
        * apply elem_of_cons in Hin as [-> | Hin]; [constructor |].
          now do 2 apply list_elem_of_further.
        * apply list_elem_of_further. constructor.
      + pose proof (Rmax_l y (foldr Rmax x l)). pose proof (Rmax_r y (foldr Rmax x l)).
        repeat apply Forall_cons_2; [lra | lra |].
        eapply Forall_impl; [exact Hall |]. intros a Ha. cbn beta in *. lra. }
  destruct xs as [| x l]; cbn [Np.max].
  - split; [discriminate | intros [H _]; inversion H].
  - destruct (Hfold x l) as [Hin Hall]. split.
    + intros [= <-]. now split.
    + intros [Hm Hle]. f_equal. apply Rle_antisym.
      * rewrite Forall_forall in Hle. now apply Hle.
      * rewrite Forall_forall in Hall. now apply Hall.
Qed.

Lemma min_spec (xs : list R) (m : R) :
  Np.min xs = Ok m <-> m ∈ xs /\ Forall (fun a => m <= a) xs.
Proof.
  assert (Hfold : forall x l, foldr Rmin x l ∈ x :: l
                              /\ Forall (fun a => foldr Rmin x l <= a) (x :: l)).
  { intros x l. induction l as [| y l [Hin Hall]]; cbn [foldr].
    - split; [constructor | repeat constructor; lra].
    - apply Forall_cons in Hall as [Hx Hall]. split.
      + unfold Rmin at 1. destruct (Rle_dec _ _).
        * apply list_elem_of_further. constructor.
        * apply elem_of_cons in Hin as [-> | Hin]; [constructor |].
          now do 2 apply list_elem_of_further.
      + pose proof (Rmin_l y (foldr Rmin x l)). pose proof (Rmin_r y (foldr Rmin x l)).
        repeat apply Forall_cons_2; [lra | lra |].
        eapply Forall_impl; [exact Hall |]. intros a Ha. cbn beta in *. lra. }
  destruct xs as [| x l]; cbn [Np.min].
  - split; [discriminate | intros [H _]; inversion H].
  - destruct (Hfold x l) as [Hin Hall]. split.
    + intros [= <-]. now split.
    + intros [Hm Hle]. f_equal. apply Rle_antisym.
      * rewrite Forall_forall in Hall. now apply Hall.
      * rewrite Forall_forall in Hle. now apply Hle.
Qed.

(** ** The Gaussian filter as a weighted average *)

Lemma sum_le (f g : Z -> R) (js : list Z) :
  (forall j, j ∈ js -> f j <= g j) -> Np.sum (f <$> js) <= Np.sum (g <$> js).
Proof.
  unfold Np.sum. induction js as [| j js IH]; intros H; cbn [fmap list_fmap foldr].
  - lra.
  - change (list_fmap ?h ?l) with (h <$> l) in *.
    pose proof (H j ltac:(constructor)).
    assert (foldr Rplus 0 (f <$> js) <= foldr Rplus 0 (g <$> js)).
    { apply IH. intros k Hk. apply H. now constructor. }
    lra.
Qed.

Lemma sum_lt (f g : Z -> R) (js : list Z) (j0 : Z) :
  (forall j, j ∈ js -> f j <= g j) -> j0 ∈ js -> f j0 < g j0 ->
  Np.sum (f <$> js) < Np.sum (g <$> js).
Proof.
  intros Hle Hin Hlt. apply list_elem_of_split in Hin as (pre & post & ->).
  rewrite !fmap_app, !fmap_cons. unfold Np.sum. rewrite !foldr_app. cbn [foldr].
  assert (Hpost : Np.sum (f <$> post) <= Np.sum (g <$> post)).
  { apply sum_le. intros j Hj. apply Hle. apply elem_of_app. right. now constructor. }
  unfold Np.sum in Hpost.
  assert (Hacc : forall a b l, a < b ->
                   (forall j, j ∈ l -> f j <= g j) ->
                   foldr Rplus a (f <$> l) < foldr Rplus b (g <$> l)).
  { intros a b l Hab. induction l as [| j l IH]; intros H; cbn [fmap list_fmap foldr].
    - exact Hab.
    - change (list_fmap ?h ?l) with (h <$> l) in *.
      pose proof (H j ltac:(constructor)).
      assert (foldr Rplus a (f <$> l) < foldr Rplus b (g <$> l)).
      { apply IH. intros k Hk. apply H. now constructor. }
      lra. }
  apply Hacc; [lra |]. intros j Hj. apply Hle. apply elem_of_app. now left.
Qed.

Lemma offsets_range (lw j : Z) : j ∈ Scipy.offsets lw -> (- lw <= j <= lw)%Z.
Proof.
  unfold Scipy.offsets. intros H. apply list_elem_of_fmap in H as (k & -> & Hk).
  apply elem_of_seq in Hk. lia.
Qed.

Lemma offsets_zero (lw : Z) : (0 <= lw)%Z -> 0%Z ∈ Scipy.offsets lw.
Proof.
  intros H. unfold Scipy.offsets. apply list_elem_of_fmap. exists (Z.to_nat lw).
  split; [lia |]. apply elem_of_seq. lia.
Qed.

Lemma reflect_zero (n : nat) : (0 < n)%nat -> Scipy.reflect n 0 = 0%nat.
Proof.
  intros H. unfold Scipy.reflect. rewrite Z.mod_0_l by lia.
  now rewrite decide_True by lia.
Qed.

(** Away from the leading end, the window of a sample does not reach
    before it by more than the radius of the kernel, also where it is
    reflected at the trailing end. *)
Lemma reflect_ge (n i : nat) (lw j : Z) :
  (i < n)%nat -> (- lw <= j <= lw)%Z -> (lw <= Z.of_nat i)%Z ->
  (Z.of_nat i - lw <= Z.of_nat (Scipy.reflect n (Z.of_nat i + j)))%Z.
Proof.
  intros Hi Hj Hlw. unfold Scipy.reflect.
  rewrite Z.mod_small by lia. destruct (decide _); lia.
Qed.

Section Window.

Variables (input : list R) (sigma : Z).
Hypothesis sigma_positive : (0 < sigma)%Z.

Let n := length input.
Let js := Scipy.offsets (4 * sigma).
Let total := Np.sum (Scipy.weight sigma <$> js).

Lemma total_positive : 0 < total.
Proof.
  apply sum_positive; [| intros j; apply exp_pos].
  unfold js, Scipy.offsets.
  destruct (Z.to_nat (2 * (4 * sigma) + 1)) as [| k] eqn:Hk; [lia | discriminate].
Qed.

Lemma scipy_gaussian_filter_lookup (i : nat) :
  (i < n)%nat ->
  Scipy.gaussian_filter input sigma !! i
  = Some (Np.sum ((fun j => Scipy.weight sigma j / total
                            * nth (Scipy.reflect n (Z.of_nat i + j)) input 0) <$> js)).
Proof.
  intros Hi. unfold Scipy.gaussian_filter. rewrite decide_False by lia.
  rewrite list_lookup_fmap, lookup_seq_lt by exact Hi. reflexivity.
Qed.

Lemma average_constant (c : R) :
  Np.sum ((fun j => Scipy.weight sigma j / total * c) <$> js) = c.
Proof. rewrite sum_scale. fold total. pose proof total_positive. now field; lra. Qed.

Lemma weight_positive (j : Z) : 0 < Scipy.weight sigma j / total.
Proof. apply Rdiv_lt_0_compat; [apply exp_pos | apply total_positive]. Qed.

Lemma window_in_range (i : nat) (j : Z) :
  (i < n)%nat ->
  exists a, input !! Scipy.reflect n (Z.of_nat i + j) = Some a
            /\ nth (Scipy.reflect n (Z.of_nat i + j)) input 0 = a.
Proof.
  intros Hi.
  assert (Hlt : (Scipy.reflect n (Z.of_nat i + j) < n)%nat) by (apply reflect_lt; lia).
  destruct (lookup_lt_is_Some_2 input _ Hlt) as [a Ha].
  exists a. split; [exact Ha |]. now apply nth_lookup_Some with (d := 0) in Ha.
Qed.

(** The filter keeps a lower bound of its input. *)
Lemma scipy_gaussian_filter_ge (lo : R) :
  Forall (fun a => lo <= a) input ->
  Forall (fun a => lo <= a) (Scipy.gaussian_filter input sigma).
Proof.
  intros Hin. apply Forall_lookup. intros i s Hs.
  assert (Hi : (i < n)%nat).
  { apply lookup_lt_Some in Hs. now rewrite scipy_gaussian_filter_length in Hs. }
  rewrite scipy_gaussian_filter_lookup in Hs by exact Hi. injection Hs as <-.
  rewrite <- (average_constant lo) at 1. apply sum_le. intros j _.
  destruct (window_in_range i j Hi) as (a & Ha & ->).
  pose proof (weight_positive j). rewrite Forall_lookup in Hin.
  pose proof (Hin _ _ Ha). cbn beta in *. nra.
Qed.

(** A strict lower bound as well. *)
Lemma scipy_gaussian_filter_gt (lo : R) :
  Forall (fun a => lo < a) input ->
  Forall (fun a => lo < a) (Scipy.gaussian_filter input sigma).
Proof.
  intros Hin. apply Forall_lookup. intros i s Hs.
  assert (Hi : (i < n)%nat).
  { apply lookup_lt_Some in Hs. now rewrite scipy_gaussian_filter_length in Hs. }
  rewrite scipy_gaussian_filter_lookup in Hs by exact Hi. injection Hs as <-.
  rewrite <- (average_constant lo) at 1. rewrite Forall_lookup in Hin.
  apply (sum_lt _ _ js 0%Z).
  - intros j _. destruct (window_in_range i j Hi) as (a & Ha & ->).
    pose proof (weight_positive j). pose proof (Hin _ _ Ha). cbn beta in *. nra.
  - apply offsets_zero. lia.
  - destruct (window_in_range i 0 Hi) as (a & Ha & ->).
    pose proof (weight_positive 0). pose proof (Hin _ _ Ha). cbn beta in *. nra.
Qed.

(** The first sample stays above a lower bound it is above. *)
Lemma scipy_gaussian_filter_first (lo a : R) :
  Forall (fun a => lo <= a) input -> input !! 0%nat = Some a -> lo < a ->
  exists s, Scipy.gaussian_filter input sigma !! 0%nat = Some s /\ lo < s.
Proof.
  intros Hin Ha Hlo.
  assert (Hn : (0 < n)%nat) by now apply lookup_lt_Some in Ha.
  eexists. split; [now apply scipy_gaussian_filter_lookup |].
  rewrite <- (average_constant lo) at 1. rewrite Forall_lookup in Hin.
  apply (sum_lt _ _ js 0%Z).
  - intros j _. destruct (window_in_range 0 j Hn) as (b & Hb & ->).
    pose proof (weight_positive j). pose proof (Hin _ _ Hb). cbn beta in *. nra.
  - apply offsets_zero. lia.
  - change (Z.of_nat 0 + 0)%Z with 0%Z. rewrite reflect_zero by exact Hn.
    apply nth_lookup_Some with (d := 0) in Ha. rewrite Ha.
    pose proof (weight_positive 0). nra.
Qed.

(** Where the input is constant from sample [from] on, the output is the
    same constant from the radius of the kernel further on. *)
Lemma scipy_gaussian_filter_tail (from : nat) (c : R) (i : nat) :
  (forall k, (from <= k < n)%nat -> input !! k = Some c) ->
  (Z.of_nat from + 4 * sigma <= Z.of_nat i)%Z -> (i < n)%nat ->
  Scipy.gaussian_filter input sigma !! i = Some c.
Proof.
  intros Hc Hfrom Hi. rewrite scipy_gaussian_filter_lookup by exact Hi. f_equal.
  etransitivity; [| apply (average_constant c)]. f_equal. apply list_fmap_ext.
  intros k j Hj. apply list_elem_of_lookup_2 in Hj. apply offsets_range in Hj.
  f_equal.
  pose proof (reflect_ge n i (4 * sigma) j Hi Hj ltac:(lia)) as Hge.
  assert (Hlt : (Scipy.reflect n (Z.of_nat i + j) < n)%nat) by (apply reflect_lt; lia).
  apply nth_lookup_Some. apply Hc. lia.
Qed.

End Window.

(** The section areas of [stepped_line], smoothed twice: positive, at least
    1, above 1 at the first sample and 1 at the last. *)
Lemma stepped_line_size : GetNumberOfPoints stepped_line = 42%nat.
Proof. reflexivity. Qed.

Lemma stepped_smooth :
  let smooth := Scipy.gaussian_filter (Scipy.gaussian_filter (4 :: replicate 41 1) 5) 5 in
  length smooth = 42%nat
  /\ Forall (fun a => 0 < a) smooth
  /\ Forall (fun a => 1 <= a) smooth
  /\ (exists first, smooth !! 0%nat = Some first /\ 1 < first)
  /\ smooth !! 41%nat = Some 1.
Proof.
  set (area := 4 :: replicate 41 1).
  set (once := Scipy.gaussian_filter area 5).
  intros smooth.
  assert (Harea : Forall (fun a => 1 <= a) area).
  { apply Forall_cons_2; [lra |]. apply Forall_replicate. lra. }
  assert (Honce : Forall (fun a => 1 <= a) once)
    by (apply scipy_gaussian_filter_ge; [lia | exact Harea]).
  assert (Hlen1 : length once = 42%nat)
    by (unfold once; now rewrite scipy_gaussian_filter_length).
  split; [unfold smooth; now rewrite scipy_gaussian_filter_length |].
  split.
  { do 2 (apply scipy_gaussian_filter_gt; [lia |]).
    eapply Forall_impl; [exact Harea |]. intros a Ha. cbn beta in *. lra. }
  split; [apply scipy_gaussian_filter_ge; [lia | exact Honce] |].
  split.
  - destruct (scipy_gaussian_filter_first area 5 ltac:(lia) 1 4 Harea eq_refl ltac:(lra))
      as (s & Hs & Hlt).
    exact (scipy_gaussian_filter_first once 5 ltac:(lia) 1 s Honce Hs Hlt).
  - apply (scipy_gaussian_filter_tail once 5 ltac:(lia) 21 1); [| lia | lia].
    intros k Hk.
    apply (scipy_gaussian_filter_tail area 5 ltac:(lia) 1 1); [| lia | cbn; lia].
    intros k' Hk'. destruct k' as [| k']; [lia |]. cbn [area lookup list_lookup].
    apply lookup_replicate_2. cbn in Hk'. lia.
Qed.

(** ** The store model against the model on values *)

Lemma untouched_refl (s : Store.store) : untouched s s.
Proof. now intros r o H. Qed.

Lemma untouched_new (s0 s : Store.store) (o : Store.object) :
  untouched s0 s -> untouched s0 (s ++ [o]).
Proof. intros H r o' Hr. apply lookup_app_l_Some. now apply H. Qed.

Lemma untouched_insert (s0 s : Store.store) (r : Store.ref) (o : Store.object) :
  (length s0 <= r)%nat -> untouched s0 s -> untouched s0 (<[r := o]> s).
Proof.
  intros Hr H r' o' Hr'. pose proof (lookup_lt_Some _ _ _ Hr').
  rewrite list_lookup_insert_ne by lia. now apply H.
Qed.

Lemma read_points_untouched (s s' : Store.store) (p : option Store.ref) (ps : list point) :
  untouched s s' -> Store.read_points s p = Some ps -> Store.read_points s' p = Some ps.
Proof.
  intros H. destruct p as [p |]; cbn; [| done].
  destruct (s !! p) as [[] |] eqn:E; try discriminate.
  intros [= <-]. now rewrite (H _ _ E).
Qed.

Lemma read_cells_untouched (s s' : Store.store) (v : option Store.ref)
    (cells : list (list nat)) :
  untouched s s' -> Store.read_cells s v = Some cells -> Store.read_cells s' v = Some cells.
Proof.
  intros H. destruct v as [v |]; cbn; [| done].
  destruct (s !! v) as [[] |] eqn:E; try discriminate.
  intros [= <-]. now rewrite (H _ _ E).
Qed.

Lemma read_array_untouched (s s' : Store.store) (a : Store.ref) (values : list R) :
  untouched s s' -> Store.read_array s a = Some values -> Store.read_array s' a = Some values.
Proof.
  intros H. unfold Store.read_array.
  destruct (s !! a) as [[] |] eqn:E; try discriminate.
  intros [= <-]. now rewrite (H _ _ E).
Qed.

Lemma load_untouched (s s' : Store.store) (d : Store.ref) (value : vtkPolyData) :
  untouched s s' -> holds s d value -> holds s' d value.
Proof.
  intros H. unfold holds, Store.load.
  destruct (s !! d) as [[p v arrays | | |] |] eqn:E; try discriminate.
  rewrite (H _ _ E).
  destruct (Store.read_points s p) as [ps |] eqn:Ep; [| discriminate].
  destruct (Store.read_cells s v) as [cells |] eqn:Ec; [| discriminate].
  rewrite (read_points_untouched _ _ _ _ H Ep), (read_cells_untouched _ _ _ _ H Ec).
  destruct (decide _) as [Hall |]; [| discriminate]. intros [= <-].
  rewrite decide_True.
  - f_equal. f_equal. apply map_eq. intros name. rewrite !lookup_omap.
    destruct (arrays !! name) as [a |] eqn:Ea; [| reflexivity]. cbn.
    destruct (Hall name a Ea) as [values Hv]. rewrite Hv.
    now apply (read_array_untouched s s').
  - intros name a Ha. destruct (Hall name a Ha) as [values Hv]. exists values.
    now apply (read_array_untouched s s').
Qed.

Lemma load_points_of (s : Store.store) (d : Store.ref) (value : vtkPolyData) :
  holds s d value -> Store.points_of s d = Ok (Points value).
Proof.
  unfold holds, Store.load, Store.points_of.
  destruct (s !! d) as [[p v arrays | | |] |]; try discriminate.
  destruct (Store.read_points s p) as [ps |]; [| discriminate].
  destruct (Store.read_cells s v) as [cells |]; [| discriminate].
  destruct (decide _); [| discriminate]. now intros [= <-].
Qed.

Lemma load_GetNumberOfPoints (s : Store.store) (d : Store.ref) (value : vtkPolyData) :
  holds s d value -> Store.GetNumberOfPoints d s = Ok (GetNumberOfPoints value).
Proof. intros H. unfold Store.GetNumberOfPoints. now rewrite (load_points_of _ _ _ H). Qed.

Lemma load_GetPoint (s : Store.store) (d : Store.ref) (value : vtkPolyData) (i : nat) :
  holds s d value -> Store.GetPoint d i s = GetPoint value i.
Proof. intros H. unfold Store.GetPoint. now rewrite (load_points_of _ _ _ H). Qed.

Lemma load_GetArray (s0 s : Store.store) (d : Store.ref) (value : vtkPolyData)
    (name : string) (values : list R) :
  holds s0 d value -> untouched s0 s -> PointData value !! name = Some values ->
  exists a, Store.GetArray_GetTuple1 d name s = Ok a /\ Store.read_array s0 a = Some values.
Proof.
  unfold holds, Store.load, Store.GetArray_GetTuple1. intros Hload Hs.
  destruct (s0 !! d) as [[p v arrays | | |] |] eqn:E; try discriminate.
  rewrite (Hs _ _ E).
  destruct (Store.read_points s0 p) as [ps |]; [| discriminate].
  destruct (Store.read_cells s0 v) as [cells |]; [| discriminate].
  destruct (decide _); [| discriminate]. injection Hload as <-.
  cbn [PointData]. rewrite lookup_omap.
  destruct (arrays !! name) as [a |]; [| discriminate]. cbn.
  intros Ha. exists a. now split.
Qed.

Lemma for_each_simulation {A S T : Type} (Rel : S -> T -> Prop)
    (f : A -> S -> outcome S) (g : A -> T -> outcome T) (xs : list A) :
  (forall x b b' s, Rel b s -> f x b = Ok b' -> exists s', g x s = Ok s' /\ Rel b' s') ->
  forall b b' s, Rel b s -> for_each xs f b = Ok b' ->
                 exists s', for_each xs g s = Ok s' /\ Rel b' s'.
Proof.
  intros Hstep. induction xs as [| x xs IH]; intros b b' s Hrel; cbn [for_each].
  - intros [= <-]. now exists s.
  - intros H. apply bind_Ok in H as (b1 & H1 & H).
    destruct (Hstep x b b1 s Hrel H1) as (s1 & -> & Hrel1). cbn [Py.bind]. eauto.
Qed.

Section Simulation.

Variable gaussian_filter : list R -> Z -> list R.
Variable FindClosestPoint : list point -> point -> nat.
Variable s0 : Store.store.
Variables vp ca ra : Store.ref.

Lemma sim_read (b : builder) (s : Store.store) (d : Store.ref) (value : vtkPolyData) :
  sim s0 vp ca ra b s -> holds s0 d value -> holds s d value.
Proof. intros [H _]. now apply load_untouched. Qed.

Lemma sim_GetTuple1 (b : builder) (s : Store.store) (a : Store.ref) (values : list R)
    (i : nat) :
  sim s0 vp ca ra b s -> Store.read_array s0 a = Some values ->
  Store.GetTuple1 a i s = GetTuple1 values i.
Proof.
  intros [H _] Ha. unfold Store.GetTuple1.
  now rewrite (read_array_untouched _ _ _ _ H Ha).
Qed.

Lemma sim_InsertNextPoint (b : builder) (s : Store.store) (p : point) :
  sim s0 vp ca ra b s ->
  exists s', Store.InsertNextPoint vp p s = Ok s' /\ sim s0 vp ca ra (InsertNextPoint p b) s'.
Proof.
  intros (H & (Hvp & Hca & Hra) & (N1 & N2 & N3) & Evp & Eca & Era).
  unfold Store.InsertNextPoint. rewrite Evp. eexists. split; [reflexivity |].
  pose proof (lookup_lt_Some _ _ _ Evp).
  repeat split; try assumption; cbn [InsertNextPoint voronoi_points cell_array radius_array].
  - now apply untouched_insert.
  - now rewrite list_lookup_insert_eq.
  - now rewrite list_lookup_insert_ne.
  - now rewrite list_lookup_insert_ne.
Qed.

Lemma sim_InsertNextCell (b : builder) (s : Store.store) :
  sim s0 vp ca ra b s ->
  exists s', Store.InsertNextCell ca s = Ok s' /\ sim s0 vp ca ra (InsertNextCell b) s'.
Proof.
  intros (H & (Hvp & Hca & Hra) & (N1 & N2 & N3) & Evp & Eca & Era).
  unfold Store.InsertNextCell. rewrite Eca. eexists. split; [reflexivity |].
  pose proof (lookup_lt_Some _ _ _ Eca).
  repeat split; try assumption; cbn [InsertNextCell voronoi_points cell_array radius_array].
  - now apply untouched_insert.
  - now rewrite list_lookup_insert_ne.
  - now rewrite list_lookup_insert_eq.
  - now rewrite list_lookup_insert_ne.
Qed.

Lemma sim_InsertCellPoint (b b' : builder) (s : Store.store) (i : nat) :
  sim s0 vp ca ra b s -> InsertCellPoint i b = Ok b' ->
  exists s', Store.InsertCellPoint ca i s = Ok s' /\ sim s0 vp ca ra b' s'.
Proof.
  intros (H & (Hvp & Hca & Hra) & (N1 & N2 & N3) & Evp & Eca & Era).
  unfold Store.InsertCellPoint, InsertCellPoint. rewrite Eca.
  destruct (last (cell_array b)) as [c |]; [| discriminate]. intros [= <-].
  eexists. split; [reflexivity |].
  pose proof (lookup_lt_Some _ _ _ Eca).
  repeat split; try assumption; cbn [voronoi_points cell_array radius_array].
  - now apply untouched_insert.
  - now rewrite list_lookup_insert_ne.
  - now rewrite list_lookup_insert_eq.
  - now rewrite list_lookup_insert_ne.
Qed.

Lemma sim_SetTuple1 (b b' : builder) (s : Store.store) (i : nat) (x : R) :
  sim s0 vp ca ra b s -> radius_SetTuple1 i x b = Ok b' ->
  exists s', Store.SetTuple1 ra i x s = Ok s' /\ sim s0 vp ca ra b' s'.
Proof.
  intros (H & (Hvp & Hca & Hra) & (N1 & N2 & N3) & Evp & Eca & Era).
  unfold Store.SetTuple1, Store.read_array, radius_SetTuple1. rewrite Era.
  destruct (SetTuple1 (radius_array b) i x) as [values | |]; try discriminate.
  cbn [Py.bind]. intros [= <-]. eexists. split; [reflexivity |].
  pose proof (lookup_lt_Some _ _ _ Era).
  repeat split; try assumption; cbn [voronoi_points cell_array radius_array].
  - now apply untouched_insert.
  - now rewrite list_lookup_insert_ne.
  - now rewrite list_lookup_insert_ne.
  - now rewrite list_lookup_insert_eq.
Qed.

Variables (voronoi line_to_change : Store.ref) (voronoi_value line_value : vtkPolyData).
Hypothesis voronoi_held : holds s0 voronoi voronoi_value.
Hypothesis line_held : holds s0 line_to_change line_value.

Variables (locator : list point) (factor : list R).

Lemma manipulate_point_sim (point_radius_array : Store.ref) (radii : list R) (i : nat)
    (b b' : builder) (s : Store.store) :
  Store.read_array s0 point_radius_array = Some radii ->
  sim s0 vp ca ra b s ->
  manipulate_point FindClosestPoint voronoi_value line_value locator factor radii i b
  = Ok b' ->
  exists s',
    Store.manipulate_point FindClosestPoint voronoi line_to_change locator factor
      point_radius_array vp ca ra i s = Ok s'
    /\ sim s0 vp ca ra b' s'.
Proof.
  intros Hradii Hsim. unfold manipulate_point, Store.manipulate_point.
  rewrite (load_GetPoint _ _ _ i (sim_read _ _ _ _ Hsim voronoi_held)).
  intros H. apply bind_Ok in H as (point & -> & H). cbn [Py.bind].
  rewrite (load_GetPoint _ _ _ _ (sim_read _ _ _ _ Hsim line_held)).
  apply bind_Ok in H as (closest & -> & H). cbn [Py.bind].
  apply bind_Ok in H as (f & -> & H). cbn [Py.bind].
  rewrite (sim_GetTuple1 _ _ _ _ i Hsim Hradii).
  apply bind_Ok in H as (radius & -> & H). cbn [Py.bind].
  apply bind_Ok in H as (b1 & H1 & H).
  destruct (sim_InsertNextPoint b s (vadd point (vscale (vsub closest point) (1 - f))) Hsim)
    as (s1 & -> & Hsim1). cbn [Py.bind].
  destruct (sim_SetTuple1 _ _ _ _ _ Hsim1 H1) as (s2 & -> & Hsim2). cbn [Py.bind].
  destruct (sim_InsertNextCell _ _ Hsim2) as (s3 & -> & Hsim3). cbn [Py.bind].
  exact (sim_InsertCellPoint _ _ _ _ Hsim3 H).
Qed.

Lemma offset_point_sim (diverging_voro : Store.ref) (diverging_value : vtkPolyData)
    (v2 : point) (point_radius_array : Store.ref) (radii : list R) (i : nat)
    (state state' : builder * nat) (s : Store.store) :
  holds s0 diverging_voro diverging_value ->
  Store.read_array s0 point_radius_array = Some radii ->
  sim s0 vp ca ra state.1 s ->
  offset_point diverging_value v2 radii i state = Ok state' ->
  exists s',
    Store.offset_point diverging_voro v2 point_radius_array vp ca ra i (s, state.2)
    = Ok (s', state'.2)
    /\ sim s0 vp ca ra state'.1 s'.
Proof.
  destruct state as [b count]. cbn [fst snd]. intros Hheld Hradii Hsim.
  unfold offset_point, Store.offset_point.
  rewrite (load_GetPoint _ _ _ i (sim_read _ _ _ _ Hsim Hheld)).
  intros H. apply bind_Ok in H as (point & -> & H). cbn [Py.bind].
  destruct (sim_InsertNextPoint b s (vadd point v2) Hsim) as (s1 & -> & Hsim1).
  cbn [Py.bind].
  rewrite (sim_GetTuple1 _ _ _ _ i Hsim1 Hradii).
  apply bind_Ok in H as (radius & -> & H). cbn [Py.bind].
  apply bind_Ok in H as (b1 & H1 & H).
  destruct (sim_SetTuple1 _ _ _ _ _ Hsim1 H1) as (s2 & -> & Hsim2). cbn [Py.bind].
  destruct (sim_InsertNextCell _ _ Hsim2) as (s3 & -> & Hsim3). cbn [Py.bind].
  apply bind_Ok in H as (b2 & H2 & [= <-]).
  destruct (sim_InsertCellPoint _ _ _ _ Hsim3 H2) as (s4 & -> & Hsim4). cbn [Py.bind].
  exists s4. now split.
Qed.

Lemma offset_branch_sim (diverging_centerline : list Store.ref)
    (centerline_values : list vtkPolyData) (diverging_voronoi : list (option Store.ref))
    (diverging_values : list (option vtkPolyData)) (j : nat)
    (state state' : builder * nat) (st : Store.store * nat) :
  Forall2 (holds s0) diverging_centerline centerline_values ->
  Forall2 (option_Forall2 (holds s0)) diverging_voronoi diverging_values ->
  state.2 = st.2 -> sim s0 vp ca ra state.1 st.1 ->
  offset_branch FindClosestPoint line_value locator factor centerline_values
    diverging_values j state = Ok state' ->
  exists st',
    Store.offset_branch FindClosestPoint line_to_change locator factor diverging_centerline
      diverging_voronoi vp ca ra j st = Ok st'
    /\ state'.2 = st'.2 /\ sim s0 vp ca ra state'.1 st'.1.
Proof.
  intros Hcls Hdvs Hcount Hsim. unfold offset_branch, Store.offset_branch, getitem.
  intros H. apply bind_Ok in H as (centerline & Hc & H).
  destruct (centerline_values !! j) as [cv |] eqn:Ecv; [| discriminate].
  injection Hc as ->.
  destruct (Forall2_lookup_r _ _ _ _ _ Hcls Ecv) as (rc & -> & Hrc). cbn [Py.bind].
  rewrite (load_GetPoint _ _ _ 0 (sim_read _ _ _ _ Hsim Hrc)).
  apply bind_Ok in H as (point & -> & H). cbn [Py.bind].
  rewrite (load_GetPoint _ _ _ _ (sim_read _ _ _ _ Hsim line_held)).
  apply bind_Ok in H as (closest & -> & H). cbn [Py.bind].
  apply bind_Ok in H as (f & Hf & H).
  destruct (factor !! _) as [f' |]; [| discriminate]. injection Hf as ->. cbn [Py.bind].
  apply bind_Ok in H as (entry & He & H).
  destruct (diverging_values !! j) as [dv |] eqn:Edv; [| discriminate].
  injection He as ->.
  destruct (Forall2_lookup_r _ _ _ _ _ Hdvs Edv) as (rd & -> & Hrd). cbn [Py.bind].
  apply bind_Ok in H as (diverging_value & Hd & H).
  destruct Hrd as [rd diverging_value' Hrd |]; [| discriminate].
  injection Hd as ->. cbn [Py.bind deref].
  apply bind_Ok in H as (radii & Hr & H).
  unfold GetArray_GetTuple1 in Hr.
  destruct (PointData diverging_value !! radiusArrayName) as [radii' |] eqn:Er;
    [| discriminate].
  injection Hr as ->.
  destruct (load_GetArray s0 st.1 rd diverging_value radiusArrayName radii Hrd
              (proj1 Hsim) Er) as (a & -> & Ha). cbn [Py.bind].
  rewrite (load_GetNumberOfPoints _ _ _ (sim_read _ _ _ _ Hsim Hrd)). cbn [Py.bind].
  refine (for_each_simulation
            (fun (state : builder * nat) (st : list Store.object * nat) =>
               state.2 = st.2 /\ sim s0 vp ca ra state.1 st.1)
            _ _ _ _ state state' st (conj Hcount Hsim) H).
  intros i [b c] [b' c'] [s c2] [Ec Hs] Hstep. cbn [fst snd] in Ec, Hs. subst c2.
  destruct (offset_point_sim rd diverging_value _ a radii i (b, c) (b', c') s Hrd Ha Hs
              Hstep) as (s' & Hs' & Hsim').
  exists (s', c'). split; [exact Hs' | now split].
Qed.

End Simulation.

Lemma sizes_sim (s : Store.store) (diverging_voronoi : list (option Store.ref))
    (diverging_values : list (option vtkPolyData)) (sizes : list nat) :
  Forall2 (option_Forall2 (holds s)) diverging_voronoi diverging_values ->
  map_each (fun diverging_voro : option vtkPolyData =>
              do v <- deref diverging_voro; Ok (GetNumberOfPoints v)) diverging_values
  = Ok sizes ->
  map_each (fun diverging_voro : option nat =>
              do v <- deref diverging_voro; Store.GetNumberOfPoints v s) diverging_voronoi
  = Ok sizes.
Proof.
  intros H. revert sizes. induction H as [| r d rs ds Hrd _ IH]; intros sizes; cbn [map_each].
  - done.
  - intros Hs. apply bind_Ok in Hs as (n & Hn & Hs).
    apply bind_Ok in Hs as (ns & Hns & [= <-]).
    destruct Hrd as [r d Hrd |]; [| discriminate]. cbn [deref Py.bind] in Hn |- *.
    injection Hn as <-. rewrite (load_GetNumberOfPoints _ _ _ Hrd). cbn [Py.bind].
    now rewrite (IH ns Hns).
Qed.

(** Run on references to objects that hold the arguments, [change_area]
    returns the same Voronoi diagram in a new object and leaves every object
    of the store as it was. *)
Lemma change_area_refines (gaussian_filter : list R -> Z -> list R)
    (FindClosestPoint : list point -> point -> nat) (s : Store.store)
    (voronoi line_to_change : Store.ref) (voronoi_value line_value : vtkPolyData)
    (method : string) (beta : R) (ratio : option R) (percentage : R)
    (region_of_interest : string) (region_points : option (list R))
    (diverging_centerline : option (list Store.ref))
    (centerline_values : option (list vtkPolyData))
    (diverging_voronoi : list (option Store.ref))
    (diverging_values : list (option vtkPolyData)) (out : vtkPolyData) :
  holds s voronoi voronoi_value -> holds s line_to_change line_value ->
  option_Forall2 (Forall2 (holds s)) diverging_centerline centerline_values ->
  Forall2 (option_Forall2 (holds s)) diverging_voronoi diverging_values ->
  change_area gaussian_filter FindClosestPoint voronoi_value line_value method beta ratio
    percentage region_of_interest region_points centerline_values diverging_values = Ok out ->
  exists s',
    Store.change_area gaussian_filter FindClosestPoint voronoi line_to_change method beta
      ratio percentage region_of_interest region_points diverging_centerline
      diverging_voronoi s = Ok (length s, s')
    /\ holds s' (length s) out /\ untouched s s'.
Proof.
  intros Hv Hl Hdc Hdv. unfold change_area, Store.change_area, Store.read.
  rewrite Hl. cbn [Py.bind]. intros H.
  apply bind_Ok in H as (factor & -> & H). cbn [Py.bind].
  rewrite (load_GetNumberOfPoints _ _ _ Hv). cbn [Py.bind].
  apply bind_Ok in H as (first & Hfirst & H).
  unfold getitem in Hfirst |- *.
  destruct (diverging_values !! 0%nat) as [first' |] eqn:Efirst; [| discriminate].
  injection Hfirst as ->.
  destruct (Forall2_lookup_r _ _ _ _ _ Hdv Efirst) as (rfirst & -> & Hrfirst).
  cbn [Py.bind].
  apply bind_Ok in H as (m & Hm & H).
  assert (Hm' : (if truthy rfirst
                 then do sizes <- map_each
                                    (fun diverging_voro : option nat =>
                                       do v <- deref diverging_voro;
                                       Store.GetNumberOfPoints v s) diverging_voronoi;
                      Ok (GetNumberOfPoints voronoi_value + sum_list sizes)%nat
                 else Ok (GetNumberOfPoints voronoi_value)) = Ok m).
  { destruct Hrfirst as [rf vf _ |]; cbn [truthy] in Hm |- *; [| exact Hm].
    apply bind_Ok in Hm as (sizes & Hsizes & [= <-]).
    now rewrite (sizes_sim _ _ _ _ Hdv Hsizes). }
  rewrite Hm'. cbn [Py.bind Store.new].
  set (n := GetNumberOfPoints voronoi_value) in *.
  set (new_voronoi := length s).
  set (s0 := s ++ [Store.vtkPolyDataObject None None ∅]).
  assert (Hs0 : untouched s s0) by apply untouched_new, untouched_refl.
  assert (Hlen0 : length s0 = S new_voronoi).
  { unfold s0, new_voronoi. rewrite length_app. cbn. lia. }
  set (vp := length s0).
  set (s1 := s0 ++ [Store.vtkPointsObject []]).
  set (ca := length s1).
  set (s2 := s1 ++ [Store.vtkCellArrayObject []]).
  set (ra := length s2).
  set (s3 := s2 ++ [Store.vtkDoubleArrayObject (get_vtk_array m)]).
  assert (Hca : ca = S vp) by (unfold ca, s1; rewrite length_app; cbn; lia).
  assert (Hra : ra = S ca) by (unfold ra, s2; rewrite length_app; cbn; lia).
  assert (Hsim : sim s0 vp ca ra (mkBuilder [] [] (get_vtk_array m)) s3).
  { unfold sim. cbn [voronoi_points cell_array radius_array].
    split; [do 3 apply untouched_new; apply untouched_refl |].
    split; [unfold vp; lia |]. split; [lia |].
    split; [| split].
    - unfold s3, s2. rewrite <- !app_assoc. unfold s1. rewrite <- app_assoc. cbn [app].
      unfold vp. now rewrite list_lookup_middle.
    - unfold s3, s2. rewrite <- app_assoc. cbn [app]. unfold ca.
      now rewrite list_lookup_middle.
    - unfold s3, ra. now rewrite list_lookup_middle. }
  apply bind_Ok in H as (radii & Hradii & H).
  unfold GetArray_GetTuple1 in Hradii.
  destruct (PointData voronoi_value !! radiusArrayName) as [radii' |] eqn:Er;
    [| discriminate].
  injection Hradii as ->.
  assert (Hv0 : holds s0 voronoi voronoi_value) by exact (load_untouched _ _ _ _ Hs0 Hv).
  assert (Hl0 : holds s0 line_to_change line_value)
    by exact (load_untouched _ _ _ _ Hs0 Hl).
  destruct (load_GetArray s0 s3 voronoi voronoi_value radiusArrayName radii Hv0
              (proj1 Hsim) Er) as (a & -> & Ha). cbn [Py.bind].
  apply bind_Ok in H as (b1 & Hloop & H).
  destruct (for_each_simulation (sim s0 vp ca ra) _
              (Store.manipulate_point FindClosestPoint voronoi line_to_change
                 (vtk_point_locator line_value) factor a vp ca ra)
              (seq 0 n)
              (fun i b b' st Hst Hstep =>
                 manipulate_point_sim FindClosestPoint s0 vp ca ra voronoi line_to_change
                   voronoi_value line_value Hv0 Hl0 _ factor a radii i b b' st Ha Hst Hstep)
              _ _ s3 Hsim Hloop) as (s4 & -> & Hsim4).
  cbn [Py.bind].
  apply bind_Ok in H as (b2 & Hb2 & [= <-]).
  assert (Hbranches : exists s5,
             match diverging_centerline with
             | Some diverging_centerline =>
                 do count <- match n with
                             | O => Raise UnboundLocalError
                             | S i => Ok (i + 1)%nat
                             end;
                 do state <- for_each (seq 0 (length diverging_voronoi))
                               (Store.offset_branch FindClosestPoint line_to_change
                                  (vtk_point_locator line_value) factor diverging_centerline
                                  diverging_voronoi vp ca ra) (s4, count);
                 Ok state.1
             | None => Ok s4
             end = Ok s5 /\ sim s0 vp ca ra b2 s5).
  { destruct Hdc as [rcs cls Hcls |].
    - apply bind_Ok in Hb2 as (count & -> & Hb2). cbn [Py.bind].
      apply bind_Ok in Hb2 as (state & Hloop2 & [= <-]).
      rewrite (Forall2_length _ _ _ Hdv).
      assert (Hcls0 : Forall2 (holds s0) rcs cls).
      { eapply Forall2_impl; [exact Hcls |]. intros r d. now apply load_untouched. }
      assert (Hdv0 : Forall2 (option_Forall2 (holds s0)) diverging_voronoi diverging_values).
      { eapply Forall2_impl; [exact Hdv |]. intros r d [r' d' Hrd |]; constructor.
        now apply (load_untouched s s0). }
      destruct (for_each_simulation
                  (fun (state : builder * nat) (st : list Store.object * nat) =>
                     state.2 = st.2 /\ sim s0 vp ca ra state.1 st.1) _
                  (Store.offset_branch FindClosestPoint line_to_change
                     (vtk_point_locator line_value) factor rcs diverging_voronoi vp ca ra)
                  (seq 0 (length diverging_values))
                  (fun j st st' sst Hst Hstep =>
                     offset_branch_sim FindClosestPoint s0 vp ca ra line_to_change
                       line_value Hl0 _ factor rcs cls diverging_voronoi diverging_values j
                       st st' sst Hcls0 Hdv0 (proj1 Hst) (proj2 Hst) Hstep)
                  (b1, count) state (s4, count) (conj eq_refl Hsim4) Hloop2)
        as (st5 & -> & _ & Hsim5).
      cbn [Py.bind]. now exists st5.1.
    - injection Hb2 as <-. now exists s4. }
  destruct Hbranches as (s5 & -> & Hsim5). cbn [Py.bind].
  destruct Hsim5 as (H05 & _ & (N1 & N2 & N3) & Evp & Eca & Era).
  assert (Env : s5 !! new_voronoi = Some (Store.vtkPolyDataObject None None ∅)).
  { apply H05. unfold s0, new_voronoi. now rewrite list_lookup_middle. }
  pose proof (lookup_lt_Some _ _ _ Env) as Hlt.
  unfold Store.SetPoints. rewrite Env. cbn [Py.bind].
  unfold Store.SetVerts. rewrite list_lookup_insert_eq by exact Hlt. cbn [Py.bind].
  unfold Store.AddArray.
  rewrite list_lookup_insert_eq by (rewrite length_insert; exact Hlt). cbn [Py.bind].
  rewrite !list_insert_insert_eq.
  eexists. split; [reflexivity |].
  assert (Hnv : new_voronoi <> vp /\ new_voronoi <> ca /\ new_voronoi <> ra)
    by (unfold vp; lia).
  destruct Hnv as (M1 & M2 & M3).
  split.
  - unfold holds, Store.load. rewrite list_lookup_insert_eq by exact Hlt.
    unfold Store.read_points, Store.read_cells.
    rewrite !list_lookup_insert_ne by assumption. rewrite Evp, Eca.
    assert (Hread : Store.read_array
                    (<[new_voronoi := Store.vtkPolyDataObject (Some vp) (Some ca)
                                        (<[radiusArrayName := ra]> ∅)]> s5) ra
                  = Some (radius_array b2)).
    { unfold Store.read_array. rewrite list_lookup_insert_ne by assumption.
      now rewrite Era. }
    rewrite decide_True.
    + f_equal. f_equal. rewrite (omap_insert_Some _ _ _ _ _ Hread). now rewrite omap_empty.
    + apply map_Forall_insert_2; [now rewrite Hread | apply map_Forall_empty].
  - apply untouched_insert; [unfold new_voronoi; lia |].
    intros r o Hr. apply H05. now apply Hs0.
Qed.

Lemma area_factor_20_first (factor : list R) :
  get_factor Scipy.gaussian_filter (straight_line 20 1) "area" 0.5 None 50 "manual" None
  = Ok factor ->
  factor !! 0%nat = Some 1.
Proof.
  destruct (get_factor_area Scipy.gaussian_filter (straight_line 20 1) 0.5 None 50 "manual"
              None scipy_gaussian_filter_length (straight_line_has_area 20 1))
    as (trans & Htrans & Hf).
  rewrite Hf. intros [= <-]. rewrite straight_line_size in Htrans.
  destruct (transition_both_ends "manual" "area" 20 trans ltac:(constructor)
              ltac:(constructor) Htrans) as [_ Hends].
  change (round_tenth 20) with 2%nat in Hends.
  destruct (Hends ltac:(lia) 0%nat ltac:(lia)) as [H _].
  rewrite list_lookup_fmap, H. cbn [fmap option_fmap option_map]. f_equal.
  cbn [Nat.sub INR]. field.
Qed.

(** ** The concrete store *)

Ltac load_example :=
  unfold holds, Store.load, example_store;
  cbn [lookup list_lookup Store.read_points Store.read_cells];
  first
    [ rewrite decide_True by
        (apply map_Forall_singleton; eexists; unfold Store.read_array;
         cbn [lookup list_lookup]; reflexivity);
      erewrite omap_singleton_Some by
        (unfold Store.read_array; cbn [lookup list_lookup]; reflexivity)
    | rewrite decide_True by apply map_Forall_empty; rewrite omap_empty ];
  reflexivity.

Lemma example_store_voronoi : holds example_store 3 small_voronoi.
Proof. load_example. Qed.

Lemma example_store_line : holds example_store 6 (straight_line 20 1).
Proof. load_example. Qed.

Lemma example_store_branch_line : holds example_store 8 branch_line.
Proof. load_example. Qed.

Lemma example_store_branch_voronoi : holds example_store 12 branch_voronoi.
Proof. load_example. Qed.

Lemma example_store_far_branch_line : holds example_store 14 far_branch_line.
Proof. load_example. Qed.

Lemma example_store_far_branch_voronoi : holds example_store 18 far_branch_voronoi.
Proof. load_example. Qed.

(** ** Values of the deformation *)

Lemma deform_value (nearest : point -> nat) (centerline : list point) (factor : list R)
    (x y z r : R) (id : nat) (cx cy cz f : R) :
  nearest (x, y, z) = id -> centerline !! id = Some (cx, cy, cz) -> factor !! id = Some f ->
  deform nearest centerline factor ((x, y, z), r)
  = ((x + (cx - x) * (1 - f), y + (cy - y) * (1 - f), z + (cz - z) * (1 - f)), r * f).
Proof.
  intros Hid Hc Hf. unfold deform, displacement. cbn [fst snd]. rewrite Hid.
  now rewrite (nth_lookup_Some _ _ origin _ Hc), (nth_lookup_Some _ _ 0 _ Hf).
Qed.

Lemma translate_value (nearest : point -> nat) (centerline : list point) (factor : list R)
    (ax ay az : R) (id : nat) (cx cy cz f : R) (B : list (point * R)) :
  nearest (ax, ay, az) = id -> centerline !! id = Some (cx, cy, cz) ->
  factor !! id = Some f ->
  translate nearest centerline factor (ax, ay, az) B
  = (fun q => (vadd q.1 ((cx - ax) * (1 - f), (cy - ay) * (1 - f), (cz - az) * (1 - f)),
               q.2)) <$> B.
Proof.
  intros Hid Hc Hf. unfold translate, displacement. rewrite Hid.
  now rewrite (nth_lookup_Some _ _ origin _ Hc), (nth_lookup_Some _ _ 0 _ Hf).
Qed.

(** Without diverging centerlines but with diverging diagrams, [change_area]
    returns the deformed main points and a radius array sized for the
    diagrams as well. *)
Lemma change_area_without_centerlines (gaussian_filter : list R -> Z -> list R)
    (FindClosestPoint : list point -> point -> nat)
    (voronoi line : vtkPolyData) (method : string) (beta : R) (ratio : option R)
    (percentage : R) (region_of_interest : string) (region_points : option (list R))
    (voros : list vtkPolyData) (factor : list R) :
  (forall input sigma, length (gaussian_filter input sigma) = length input) ->
  (forall ps q, ps <> [] -> (FindClosestPoint ps q < length ps)%nat) ->
  get_factor gaussian_filter line method beta ratio percentage region_of_interest
    region_points = Ok factor ->
  Points line <> [] -> has_radius voronoi -> voros <> [] ->
  let main := deform (FindClosestPoint (Points line)) (Points line) factor
                <$> cloud voronoi in
  change_area gaussian_filter FindClosestPoint voronoi line method beta ratio percentage
    region_of_interest region_points None (Some <$> voros)
  = Ok (mkPolyData main.*1 ((fun i => [i]) <$> seq 0 (length main))
          (<[radiusArrayName := main.*2
                                ++ replicate (sum_list (GetNumberOfPoints <$> voros)) 0]> ∅)).
Proof.
  intros Hgf Hfcp Hfactor Hline Hrad Hv main. destruct voros as [| v voros']; [done |].
  unfold change_area. rewrite Hfactor.
  change (Some <$> v :: voros') with (Some v :: (Some <$> voros')).
  cbn [Py.bind getitem lookup list_lookup truthy].
  change (Some v :: (Some <$> voros')) with (Some <$> v :: voros').
  rewrite sizes_Ok. cbn [Py.bind].
  destruct Hrad as (radii & Hr & Hlen).
  pose proof (main_loop_Ok gaussian_filter FindClosestPoint Hgf Hfcp voronoi line method
                beta ratio percentage region_of_interest region_points factor Hfactor
                Hline (ex_intro _ radii (conj Hr Hlen)) radii
                (replicate (sum_list (GetNumberOfPoints <$> v :: voros')) 0) Hr) as Hloop.
  rewrite length_replicate in Hloop.
  unfold GetArray_GetTuple1. rewrite Hr. cbn [Py.bind]. rewrite Hloop. reflexivity.
Qed.

(** * The claims *)

(** C6.  Whatever the method, the region mode and the parameters, a factor
    field that [get_factor] returns has one factor per centerline sample:
    its length is the number of points of the centerline. *)
Theorem factor_field_length (gaussian_filter : list R -> Z -> list R)
    (line : vtkPolyData) (method : string) (beta : R) (ratio : option R) (percentage : R)
    (region_of_interest : string) (region_points : option (list R)) (factor : list R) :
  (forall input sigma, length (gaussian_filter input sigma) = length input) ->
  get_factor gaussian_filter line method beta ratio percentage region_of_interest
    region_points = Ok factor ->
  length factor = GetNumberOfPoints line.
Proof. intros Hgf. now apply get_factor_length. Qed.

Lemma factor_field_length_witness :
  exists factor,
    get_factor Scipy.gaussian_filter (straight_line 20 1) "area" 0.5 None 50 "manual" None
    = Ok factor
    /\ length factor = GetNumberOfPoints (straight_line 20 1).
Proof.
  destruct (get_factor_area Scipy.gaussian_filter (straight_line 20 1) 0.5 None 50 "manual"
              None scipy_gaussian_filter_length (straight_line_has_area 20 1))
    as (trans & _ & Hf).
  eexists. split; [exact Hf |].
  exact (factor_field_length Scipy.gaussian_filter (straight_line 20 1) "area" 0.5 None 50
           "manual" None _ scipy_gaussian_filter_length Hf).
Defined.

(** C10.  With method "variation" and a ratio given, the factor field does
    not depend on the [beta] argument. *)
Theorem ratio_overrides_beta (gaussian_filter : list R -> Z -> list R)
    (line : vtkPolyData) (beta1 beta2 ratio percentage : R)
    (region_of_interest : string) (region_points : option (list R)) :
  get_factor gaussian_filter line "variation" beta1 (Some ratio) percentage
    region_of_interest region_points
  = get_factor gaussian_filter line "variation" beta2 (Some ratio) percentage
      region_of_interest region_points.
Proof.
  unfold get_factor. apply bind_ext; intros area. cbv zeta. apply bind_ext; intros trans.
  rewrite decide_True by reflexivity. reflexivity.
Qed.

(** C1.  Every point [(x, y, z)] of the main cloud, with radius [r], is moved
    towards the centerline sample [(cx, cy, cz)], of index [id], that the
    locator finds for it: in every run of [change_area] that returns, the
    output holds at the same index the position
    [(x + (cx - x) * (1 - f), y + (cy - y) * (1 - f), z + (cz - z) * (1 - f))]
    and the radius [r * f], where [f = factor[id]]; the radius found in the
    output, divided by [r], is [f]. *)
Theorem main_cloud_deformation (gaussian_filter : list R -> Z -> list R)
    (FindClosestPoint : list point -> point -> nat)
    (voronoi line : vtkPolyData) (method : string) (beta : R) (ratio : option R)
    (percentage : R) (region_of_interest : string) (region_points : option (list R))
    (diverging_centerline : option (list vtkPolyData))
    (diverging_voronoi : list (option vtkPolyData)) (factor : list R) (out : vtkPolyData)
    (i : nat) (x y z r : R) :
  (forall input sigma, length (gaussian_filter input sigma) = length input) ->
  (forall ps q, ps <> [] -> (FindClosestPoint ps q < length ps)%nat) ->
  get_factor gaussian_filter line method beta ratio percentage region_of_interest
    region_points = Ok factor ->
  Points line <> [] -> has_radius voronoi ->
  change_area gaussian_filter FindClosestPoint voronoi line method beta ratio percentage
    region_of_interest region_points diverging_centerline diverging_voronoi = Ok out ->
  cloud voronoi !! i = Some ((x, y, z), r) ->
  let id := FindClosestPoint (vtk_point_locator line) (x, y, z) in
  exists cx cy cz f,
    Points line !! id = Some (cx, cy, cz)
    /\ factor !! id = Some f
    /\ cloud out !! i
       = Some ((x + (cx - x) * (1 - f), y + (cy - y) * (1 - f), z + (cz - z) * (1 - f)),
               r * f)
    /\ forall p' r', cloud out !! i = Some (p', r') -> r <> 0 -> r' / r = f.
Proof.
  intros Hgf Hfcp Hfactor Hline Hrad Hout Hi id.
  pose proof (Hfcp (Points line) (x, y, z) Hline) as Hid.
  change (FindClosestPoint (Points line) (x, y, z)) with id in Hid.
  pose proof (get_factor_length _ Hgf _ _ _ _ _ _ _ _ Hfactor) as Hlen.
  unfold GetNumberOfPoints in Hlen.
  destruct (nth_lookup_or_length (Points line) id origin) as [Hc | ?]; [| lia].
  destruct (nth_lookup_or_length factor id 0) as [Hf | ?]; [| lia].
  pose proof (change_area_main_point gaussian_filter FindClosestPoint Hgf Hfcp _ _ _ _ _ _
                _ _ _ _ _ _ _ _ _ Hfactor Hline Hrad Hout Hi) as Hnew.
  unfold deform, displacement in Hnew. cbn [fst snd] in Hnew.
  change (FindClosestPoint (Points line) (x, y, z)) with id in Hnew.
  destruct (nth id (Points line) origin) as [[cx cy] cz].
  exists cx, cy, cz, (nth id factor 0).
  split; [exact Hc |]. split; [exact Hf |]. split; [exact Hnew |].
  intros p' r' Hp' Hr. rewrite Hnew in Hp'. injection Hp' as _ <-. now field.
Qed.

Lemma main_cloud_deformation_witness :
  exists out,
    change_area Scipy.gaussian_filter closest_point small_voronoi (straight_line 20 1)
      "area" 0.5 None 50 "manual" None None [None] = Ok out
    /\ cloud small_voronoi !! 1%nat = Some ((1, 0, 2), 2)
    /\ cloud out !! 1%nat = Some ((1, 0, 3), 3)
    /\ forall p' r', cloud out !! 1%nat = Some (p', r') -> r' / 2 = 1.5.
Proof.
  destruct area_factor_20 as (factor & Hf & Hvalues).
  pose proof (change_area_main Scipy.gaussian_filter closest_point
                scipy_gaussian_filter_length closest_point_lt small_voronoi
                (straight_line 20 1) "area" 0.5 None 50 "manual" None factor Hf
                (straight_line_nonempty 20 1 ltac:(lia)) small_voronoi_radius []) as Hout.
  eexists. split; [exact Hout |]. split; [reflexivity |].
  destruct (main_cloud_deformation Scipy.gaussian_filter closest_point small_voronoi
              (straight_line 20 1) "area" 0.5 None 50 "manual" None None [None] factor _
              1 1 0 2 2 scipy_gaussian_filter_length closest_point_lt Hf
              (straight_line_nonempty 20 1 ltac:(lia)) small_voronoi_radius Hout eq_refl)
    as (cx & cy & cz & f & Hc & Hfid & Hnew & Hratio).
  rewrite closest_sample_main_1 in Hc, Hfid.
  rewrite straight_line_20_points in Hc. injection Hc as <- <- <-.
  rewrite (Hvalues 1%nat ltac:(lia)) in Hfid. injection Hfid as <-.
  split.
  - rewrite Hnew. f_equal. f_equal; [f_equal; [f_equal |] |]; lra.
  - intros p' r' Hp'. apply (Hratio p' r' Hp'). lra.
Defined.

(** C5.  A side branch is translated rigidly.  For the branch at index [j],
    with attachment point [(ax, ay, az)] (the first sample of its centerline)
    and [(cx, cy, cz)] the centerline sample, of index [id], the locator finds
    for it, one displacement
    [((cx - ax) * (1 - f), (cy - ay) * (1 - f), (cz - az) * (1 - f))], with
    [f = factor[id]], is added to every point of the branch, and every radius
    is kept.  The branch starts in the output after the main cloud and the
    branches before it. *)
Theorem branch_rigid_translation (gaussian_filter : list R -> Z -> list R)
    (FindClosestPoint : list point -> point -> nat)
    (voronoi line : vtkPolyData) (method : string) (beta : R) (ratio : option R)
    (percentage : R) (region_of_interest : string) (region_points : option (list R))
    (diverging_centerline voros : list vtkPolyData) (factor : list R)
    (j : nat) (centerline branch : vtkPolyData) (ax ay az : R) :
  (forall input sigma, length (gaussian_filter input sigma) = length input) ->
  (forall ps q, ps <> [] -> (FindClosestPoint ps q < length ps)%nat) ->
  get_factor gaussian_filter line method beta ratio percentage region_of_interest
    region_points = Ok factor ->
  Points line <> [] -> has_radius voronoi -> Points voronoi <> [] ->
  (length voros <= length diverging_centerline)%nat ->
  Forall branch_ok (zip diverging_centerline voros) ->
  diverging_centerline !! j = Some centerline -> voros !! j = Some branch ->
  Points centerline !! 0%nat = Some (ax, ay, az) ->
  let id := FindClosestPoint (vtk_point_locator line) (ax, ay, az) in
  exists out cx cy cz f,
    change_area gaussian_filter FindClosestPoint voronoi line method beta ratio percentage
      region_of_interest region_points (Some diverging_centerline) (Some <$> voros) = Ok out
    /\ Points line !! id = Some (cx, cy, cz)
    /\ factor !! id = Some f
    /\ let dx := (cx - ax) * (1 - f) in
       let dy := (cy - ay) * (1 - f) in
       let dz := (cz - az) * (1 - f) in
       let start := (GetNumberOfPoints voronoi
                     + sum_list (GetNumberOfPoints <$> take j voros))%nat in
       forall i x y z r,
         cloud branch !! i = Some ((x, y, z), r) ->
         cloud out !! (start + i)%nat = Some ((x + dx, y + dy, z + dz), r).
Proof.
  intros Hgf Hfcp Hfactor Hline Hrad Hmain Hle Hok Hcl Hbr Ha id.
  assert (Hvoros : voros <> []) by (intros ->; discriminate).
  pose proof (Hfcp (Points line) (ax, ay, az) Hline) as Hid.
  change (FindClosestPoint (Points line) (ax, ay, az)) with id in Hid.
  pose proof (get_factor_length _ Hgf _ _ _ _ _ _ _ _ Hfactor) as Hlen.
  unfold GetNumberOfPoints in Hlen.
  destruct (nth_lookup_or_length (Points line) id origin) as [Hc | ?]; [| lia].
  destruct (nth_lookup_or_length factor id 0) as [Hf | ?]; [| lia].
  set (moved := moved_branch (FindClosestPoint (Points line)) (Points line) factor).
  set (main := deform (FindClosestPoint (Points line)) (Points line) factor
                 <$> cloud voronoi).
  assert (Hz : zip diverging_centerline voros !! j = Some (centerline, branch)).
  { apply lookup_zip_with_Some. eauto. }
  assert (Hstart : (GetNumberOfPoints voronoi
                    + sum_list (GetNumberOfPoints <$> take j voros))%nat
                   = (length main
                      + length (concat (moved <$> take j (zip diverging_centerline
                                                           voros))))%nat).
  { unfold main. rewrite length_fmap, (cloud_length _ Hrad). f_equal.
    unfold moved. rewrite moved_total by now apply Forall_take.
    rewrite (fmap_take snd), zip_snd_le by exact Hle. reflexivity. }
  assert (Hmoved : forall i q r,
             cloud branch !! i = Some (q, r) ->
             (main ++ concat (moved <$> zip diverging_centerline voros))
               !! (GetNumberOfPoints voronoi
                   + sum_list (GetNumberOfPoints <$> take j voros) + i)%nat
             = Some (vadd q (vscale (vsub (nth id (Points line) origin) (ax, ay, az))
                               (1 - nth id factor 0)), r)).
  { intros i q r Hi. rewrite Hstart, <- Nat.add_assoc.
    rewrite lookup_app_r by apply Nat.le_add_r.
    rewrite Nat.add_comm, Nat.add_sub.
    apply (concat_lookup moved _ j i (centerline, branch)); [exact Hz |].
    unfold moved, moved_branch, translate, attachment, displacement. cbn [fst snd].
    rewrite list_lookup_fmap, Hi. cbn [fmap option_fmap option_map fst snd].
    destruct (Points centerline) as [| a' ps]; [discriminate |].
    injection Ha as ->. reflexivity. }
  destruct (nth id (Points line) origin) as [[cx cy] cz].
  eexists _, cx, cy, cz, (nth id factor 0).
  split; [| split; [exact Hc | split; [exact Hf |]]].
  - eapply change_area_branches; eassumption.
  - intros dx dy dz start i x y z r Hi. rewrite cloud_polydata. unfold output_cloud.
    exact (Hmoved i (x, y, z) r Hi).
Qed.

Lemma branch_rigid_translation_witness :
  exists out,
    change_area Scipy.gaussian_filter closest_point small_voronoi (straight_line 20 1)
      "area" 0.5 None 50 "manual" None (Some [branch_line; far_branch_line])
      (Some <$> [branch_voronoi; far_branch_voronoi]) = Ok out
    /\ cloud branch_voronoi = [((1, 3, 0), 1 / 2)]
    /\ cloud far_branch_voronoi = [((1, 3, 0), 1 / 2); ((2, 4, 1), 1 / 4)]
    /\ cloud out !! 2%nat = Some ((1, 3.5, 0), 1 / 2)
    /\ cloud out !! 3%nat = Some ((1, 4, 0.5), 1 / 2)
    /\ cloud out !! 4%nat = Some ((2, 5, 1.5), 1 / 4).
Proof.
  destruct area_factor_20 as (factor & Hf & Hvalues).
  destruct (branch_rigid_translation Scipy.gaussian_filter closest_point small_voronoi
              (straight_line 20 1) "area" 0.5 None 50 "manual" None
              [branch_line; far_branch_line] [branch_voronoi; far_branch_voronoi] factor
              0 branch_line branch_voronoi 1 1 0
              scipy_gaussian_filter_length closest_point_lt Hf
              (straight_line_nonempty 20 1 ltac:(lia)) small_voronoi_radius
              ltac:(discriminate) ltac:(reflexivity) two_branches_ok eq_refl eq_refl eq_refl)
    as (out & cx & cy & cz & f & Hout & Hc & Hfid & Hnear).
  destruct (branch_rigid_translation Scipy.gaussian_filter closest_point small_voronoi
              (straight_line 20 1) "area" 0.5 None 50 "manual" None
              [branch_line; far_branch_line] [branch_voronoi; far_branch_voronoi] factor
              1 far_branch_line far_branch_voronoi 3 2 1
              scipy_gaussian_filter_length closest_point_lt Hf
              (straight_line_nonempty 20 1 ltac:(lia)) small_voronoi_radius
              ltac:(discriminate) ltac:(reflexivity) two_branches_ok eq_refl eq_refl eq_refl)
    as (out' & cx' & cy' & cz' & f' & Hout' & Hc' & Hfid' & Hfar).
  rewrite Hout in Hout'. injection Hout' as <-.
  rewrite closest_sample_branch in Hc, Hfid.
  rewrite closest_sample_far_branch in Hc', Hfid'.
  rewrite straight_line_20_points in Hc, Hc'.
  injection Hc as <- <- <-. injection Hc' as <- <- <-.
  rewrite (Hvalues 1%nat ltac:(lia)) in Hfid. injection Hfid as <-.
  rewrite (Hvalues 3%nat ltac:(lia)) in Hfid'. injection Hfid' as <-.
  exists out. split; [exact Hout |]. split; [reflexivity |]. split; [reflexivity |].
  cbv zeta in Hnear, Hfar.
  pose proof (Hnear 0%nat 1 3 0 (1 / 2) eq_refl : cloud out !! 2%nat = _) as H2.
  pose proof (Hfar 0%nat 1 3 0 (1 / 2) eq_refl : cloud out !! 3%nat = _) as H3.
  pose proof (Hfar 1%nat 2 4 1 (1 / 4) eq_refl : cloud out !! 4%nat = _) as H4.
  split; [| split].
  - rewrite H2. f_equal. f_equal. f_equal; [f_equal |]; lra.
  - rewrite H3. f_equal. f_equal. f_equal; [f_equal |]; lra.
  - rewrite H4. f_equal. f_equal. f_equal; [f_equal |]; lra.
Defined.

(** C8, as stated, fails: a diverging Voronoi diagram given without
    diverging centerlines is left out of the output, which then has the two
    points of the main cloud, not three, and one radius more than it has
    points. *)
Lemma diagram_without_centerline_dropped :
  exists out radii,
    change_area Scipy.gaussian_filter closest_point small_voronoi (straight_line 20 1)
      "area" 0.5 None 50 "manual" None None [Some branch_voronoi] = Ok out
    /\ GetNumberOfPoints out = 2%nat
    /\ GetNumberOfPoints out
       <> (GetNumberOfPoints small_voronoi + GetNumberOfPoints branch_voronoi)%nat
    /\ PointData out !! radiusArrayName = Some radii /\ length radii = 3%nat
    /\ ~ has_radius out.
Proof.
  destruct area_factor_20 as (factor & Hf & _).
  pose proof (change_area_without_centerlines Scipy.gaussian_filter closest_point
                small_voronoi (straight_line 20 1) "area" 0.5 None 50 "manual" None
                [branch_voronoi] factor scipy_gaussian_filter_length closest_point_lt Hf
                (straight_line_nonempty 20 1 ltac:(lia)) small_voronoi_radius
                ltac:(discriminate)) as Hout.
  cbv zeta in Hout.
  pose proof (cloud_length small_voronoi small_voronoi_radius) as Hmain.
  change (GetNumberOfPoints small_voronoi) with 2%nat in Hmain.
  set (main := deform (closest_point (Points (straight_line 20 1)))
                 (Points (straight_line 20 1)) factor <$> cloud small_voronoi) in *.
  set (radii := main.*2 ++ replicate (sum_list (GetNumberOfPoints <$> [branch_voronoi])) 0)
    in *.
  assert (Hlen : length radii = 3%nat).
  { unfold radii, main. now rewrite length_app, !length_fmap, Hmain. }
  match type of Hout with _ = Ok ?o => set (out := o) in * end.
  assert (Hn : GetNumberOfPoints out = 2%nat).
  { unfold out, GetNumberOfPoints, main. cbn [Points]. now rewrite !length_fmap. }
  assert (Hr : PointData out !! radiusArrayName = Some radii) by apply lookup_insert_eq.
  exists out, radii. split; [exact Hout |]. split; [exact Hn |].
  split; [rewrite Hn; discriminate |]. split; [exact Hr |]. split; [exact Hlen |].
  intros (radii' & Hr' & Hlen'). rewrite Hr in Hr'. injection Hr' as <-.
  rewrite Hlen, Hn in Hlen'. discriminate.
Qed.

(** C8, amended.  When every branch is given with its centerline and its
    Voronoi diagram, or none is given, the output holds one point per input
    point: the deformed main cloud first, then every branch cloud,
    translated, in the order the branches were given and in the order of its
    own points.  Positions and radii stay paired, every point has its own
    vertex cell, and the number of points is that of the main cloud plus
    those of the branches.  The inputs are untouched: run on references to
    objects that hold the arguments, the call returns the output in an
    object the store did not hold and leaves every object of the store as it
    was. *)
Theorem output_cloud_structure (gaussian_filter : list R -> Z -> list R)
    (FindClosestPoint : list point -> point -> nat)
    (voronoi line : vtkPolyData) (method : string) (beta : R) (ratio : option R)
    (percentage : R) (region_of_interest : string) (region_points : option (list R))
    (branches : list (vtkPolyData * vtkPolyData))
    (diverging_centerline : option (list vtkPolyData))
    (diverging_voronoi : list (option vtkPolyData)) (factor : list R) :
  (forall input sigma, length (gaussian_filter input sigma) = length input) ->
  (forall ps q, ps <> [] -> (FindClosestPoint ps q < length ps)%nat) ->
  get_factor gaussian_filter line method beta ratio percentage region_of_interest
    region_points = Ok factor ->
  Points line <> [] -> has_radius voronoi -> Forall branch_ok branches ->
  (branches = [] /\ diverging_centerline = None /\ diverging_voronoi = [None])
  \/ (branches <> [] /\ Points voronoi <> []
      /\ diverging_centerline = Some branches.*1
      /\ diverging_voronoi = Some <$> branches.*2) ->
  let nearest := FindClosestPoint (vtk_point_locator line) in
  exists out,
    change_area gaussian_filter FindClosestPoint voronoi line method beta ratio percentage
      region_of_interest region_points diverging_centerline diverging_voronoi = Ok out
    /\ GetNumberOfPoints out
       = (GetNumberOfPoints voronoi + sum_list (GetNumberOfPoints <$> branches.*2))%nat
    /\ has_radius out
    /\ Verts out = (fun i => [i]) <$> seq 0 (GetNumberOfPoints out)
    /\ cloud out
       = (deform nearest (Points line) factor <$> cloud voronoi)
         ++ concat ((fun branch => translate nearest (Points line) factor
                                     (attachment branch.1) (cloud branch.2))
                      <$> branches)
    /\ forall (s : list Store.object) (voronoi_ref line_ref : nat)
              (centerline_refs : option (list nat)) (voronoi_refs : list (option nat)),
         holds s voronoi_ref voronoi -> holds s line_ref line ->
         option_Forall2 (Forall2 (holds s)) centerline_refs diverging_centerline ->
         Forall2 (option_Forall2 (holds s)) voronoi_refs diverging_voronoi ->
         exists new s',
           Store.change_area gaussian_filter FindClosestPoint voronoi_ref line_ref method
             beta ratio percentage region_of_interest region_points centerline_refs
             voronoi_refs s = Ok (new, s')
           /\ holds s' new out
           /\ s !! new = None
           /\ untouched s s'.
Proof.
  intros Hgf Hfcp Hfactor Hline Hrad Hbranches Hgiven nearest.
  set (c := output_cloud (FindClosestPoint (Points line)) (Points line) factor voronoi
              branches).
  assert (Hout : change_area gaussian_filter FindClosestPoint voronoi line method beta
                   ratio percentage region_of_interest region_points diverging_centerline
                   diverging_voronoi = Ok (polydata_of_cloud c)).
  { destruct Hgiven as [(-> & -> & ->) | (Hne & Hmain & -> & ->)].
    - now apply change_area_main.
    - unfold c. rewrite <- (zip_fst_snd branches) at 3.
      apply change_area_branches; try assumption.
      + destruct branches; [done | discriminate].
      + now rewrite !length_fmap.
      + now rewrite zip_fst_snd. }
  exists (polydata_of_cloud c). split; [exact Hout |].
  assert (Hc : length c = (GetNumberOfPoints voronoi
                           + sum_list (GetNumberOfPoints <$> branches.*2))%nat).
  { unfold c, output_cloud. rewrite length_app, length_fmap, (cloud_length _ Hrad).
    now rewrite moved_total. }
  assert (Hn : GetNumberOfPoints (polydata_of_cloud c) = length c).
  { unfold GetNumberOfPoints, polydata_of_cloud. cbn [Points]. now rewrite length_fmap. }
  split; [now rewrite Hn |]. split; [apply polydata_of_cloud_radius |].
  split; [rewrite Hn; reflexivity |]. split; [now rewrite cloud_polydata |].
  intros s voronoi_ref line_ref centerline_refs voronoi_refs Hv Hl Hcls Hvs.
  destruct (change_area_refines gaussian_filter FindClosestPoint s voronoi_ref line_ref
              voronoi line method beta ratio percentage region_of_interest region_points
              centerline_refs diverging_centerline voronoi_refs diverging_voronoi _
              Hv Hl Hcls Hvs Hout) as (s' & Hrun & Hheld & Hsame).
  exists (length s), s'. split; [exact Hrun |]. split; [exact Hheld |].
  split; [| exact Hsame]. apply lookup_ge_None. lia.
Qed.

Lemma output_cloud_structure_witness :
  exists out new s',
    change_area Scipy.gaussian_filter closest_point small_voronoi (straight_line 20 1)
      "area" 0.5 None 50 "manual" None (Some [branch_line; far_branch_line])
      (Some <$> [branch_voronoi; far_branch_voronoi]) = Ok out
    /\ GetNumberOfPoints out = 5%nat
    /\ Verts out = [[0]; [1]; [2]; [3]; [4]]%nat
    /\ cloud out = [((0, 1, 0), 1); ((1, 0, 3), 3); ((1, 3.5, 0), 1 / 2);
                    ((1, 4, 0.5), 1 / 2); ((2, 5, 1.5), 1 / 4)]
    /\ Store.change_area Scipy.gaussian_filter closest_point 3 6 "area" 0.5 None 50
         "manual" None (Some [8; 14]%nat) [Some 12; Some 18]%nat example_store
       = Ok (new, s')
    /\ holds s' new out
    /\ example_store !! new = None
    /\ untouched example_store s'.
Proof.
  destruct area_factor_20 as (factor & Hf & Hvalues).
  pose proof (area_factor_20_first factor Hf) as Hfirst.
  assert (Hok : Forall branch_ok [(branch_line, branch_voronoi);
                                    (far_branch_line, far_branch_voronoi)])
    by exact two_branches_ok.
  assert (Hgiven : ([(branch_line, branch_voronoi); (far_branch_line, far_branch_voronoi)]
                    = [] /\ Some [branch_line; far_branch_line] = None
                    /\ Some <$> [branch_voronoi; far_branch_voronoi] = [None])
                   \/ ([(branch_line, branch_voronoi);
                        (far_branch_line, far_branch_voronoi)] <> []
                       /\ Points small_voronoi <> []
                       /\ Some [branch_line; far_branch_line]
                          = Some [(branch_line, branch_voronoi);
                                  (far_branch_line, far_branch_voronoi)].*1
                       /\ Some <$> [branch_voronoi; far_branch_voronoi]
                          = Some <$> [(branch_line, branch_voronoi);
                                      (far_branch_line, far_branch_voronoi)].*2)).
  { right. repeat split; discriminate. }
  destruct (output_cloud_structure Scipy.gaussian_filter closest_point small_voronoi
              (straight_line 20 1) "area" 0.5 None 50 "manual" None
              [(branch_line, branch_voronoi); (far_branch_line, far_branch_voronoi)]
              (Some [branch_line; far_branch_line])
              (Some <$> [branch_voronoi; far_branch_voronoi]) factor
              scipy_gaussian_filter_length closest_point_lt Hf
              (straight_line_nonempty 20 1 ltac:(lia)) small_voronoi_radius Hok Hgiven)
    as (out & Hout & Hn & _ & Hverts & Hcloud & Hstore).
  destruct (Hstore example_store 3%nat 6%nat (Some [8; 14]%nat) [Some 12; Some 18]%nat
              example_store_voronoi example_store_line)
    as (new & s' & Hrun & Hheld & Hnew & Hsame).
  { constructor. constructor; [apply example_store_branch_line |].
    constructor; [apply example_store_far_branch_line | constructor]. }
  { constructor; [constructor; apply example_store_branch_voronoi |].
    constructor; [constructor; apply example_store_far_branch_voronoi | constructor]. }
  exists out, new, s'. split; [exact Hout |]. split; [exact Hn |].
  split; [rewrite Hverts, Hn; reflexivity |].
  split; [| repeat split; assumption].
  rewrite Hcloud. cbn [fmap list_fmap concat fst snd attachment Points branch_line
                         far_branch_line hd].
  change (cloud small_voronoi) with [((0, 1, 0), 1); ((1, 0, 2), 2)].
  change (cloud branch_voronoi) with [((1, 3, 0), 1 / 2)].
  change (cloud far_branch_voronoi) with [((1, 3, 0), 1 / 2); ((2, 4, 1), 1 / 4)].
  assert (Hc0 : Points (straight_line 20 1) !! 0%nat = Some (0, 0, 0))
    by now rewrite straight_line_20_points.
  assert (Hc1 : Points (straight_line 20 1) !! 1%nat = Some (1, 0, 0))
    by now rewrite straight_line_20_points.
  assert (Hc3 : Points (straight_line 20 1) !! 3%nat = Some (3, 0, 0))
    by now rewrite straight_line_20_points.
  rewrite (translate_value _ _ _ 1 1 0 1%nat 1 0 0 1.5 _ closest_sample_branch Hc1
             (Hvalues 1%nat ltac:(lia))).
  rewrite (translate_value _ _ _ 3 2 1 3%nat 3 0 0 1.5 _ closest_sample_far_branch Hc3
             (Hvalues 3%nat ltac:(lia))).
  cbn [fmap list_fmap app].
  rewrite (deform_value _ _ _ 0 1 0 1 0%nat 0 0 0 1 closest_sample_main_0 Hc0 Hfirst).
  rewrite (deform_value _ _ _ 1 0 2 2 1%nat 1 0 0 1.5 closest_sample_main_1 Hc1
             (Hvalues 1%nat ltac:(lia))).
  cbn [vadd fst snd app].
  repeat match goal with
         | |- _ :: _ = _ :: _ => f_equal
         | |- (_, _) = (_, _) => f_equal
         | |- @eq R _ _ => lra
         end.
Defined.

(** C7.  Method "area" with [percentage = 0] leaves the main cloud as it
    is: the output starts with the points and radii of the input, in the
    same order. *)
Theorem area_zero_percent_identity (gaussian_filter : list R -> Z -> list R)
    (FindClosestPoint : list point -> point -> nat)
    (voronoi line : vtkPolyData) (beta : R) (ratio : option R)
    (region_of_interest : string) (region_points : option (list R))
    (diverging_centerline : option (list vtkPolyData))
    (diverging_voronoi : list (option vtkPolyData))
    (branches : list (vtkPolyData * vtkPolyData)) :
  (forall input sigma, length (gaussian_filter input sigma) = length input) ->
  (forall ps q, ps <> [] -> (FindClosestPoint ps q < length ps)%nat) ->
  has_area line -> Points line <> [] -> has_radius voronoi ->
  diverging_ok voronoi diverging_centerline diverging_voronoi branches ->
  exists factor out,
    get_factor gaussian_filter line "area" beta ratio 0 region_of_interest region_points
    = Ok factor
    /\ Forall (fun f => f = 1) factor
    /\ change_area gaussian_filter FindClosestPoint voronoi line "area" beta ratio 0
         region_of_interest region_points diverging_centerline diverging_voronoi = Ok out
    /\ take (GetNumberOfPoints voronoi) (cloud out) = cloud voronoi.
Proof.
  intros Hgf Hfcp Harea Hline Hrad Hdiv.
  destruct (get_factor_area gaussian_filter line beta ratio 0 region_of_interest
              region_points Hgf Harea) as (trans & Htrans & Hfactor).
  set (factor := (fun t : R => 1 * (1 + 0 * 0.01) * (1 - t) + t) <$> trans) in *.
  assert (Hones : Forall (fun f => f = 1) factor).
  { unfold factor. apply Forall_fmap, Forall_true. intros t. simpl. lra. }
  exists factor. eexists. split; [exact Hfactor |]. split; [exact Hones |].
  split; [eapply change_area_Ok; eassumption |].
  rewrite cloud_polydata. unfold output_cloud.
  rewrite factor_one_deform.
  - rewrite <- (cloud_length _ Hrad). apply take_app_length.
  - intros p. pose proof (Hfcp (Points line) p Hline) as Hid.
    pose proof (get_factor_length _ Hgf _ _ _ _ _ _ _ _ Hfactor) as Hlen.
    unfold GetNumberOfPoints in Hlen.
    destruct (nth_lookup_or_length factor (FindClosestPoint (Points line) p) 0)
      as [Hf | ?]; [| lia].
    rewrite Forall_forall in Hones. apply Hones.
    eapply list_elem_of_lookup_2. exact Hf.
Qed.

Lemma area_zero_percent_identity_witness :
  exists factor out,
    get_factor Scipy.gaussian_filter (straight_line 20 1) "area" 0.5 None 0 "manual" None
    = Ok factor
    /\ Forall (fun f => f = 1) factor
    /\ change_area Scipy.gaussian_filter closest_point small_voronoi (straight_line 20 1)
         "area" 0.5 None 0 "manual" None (Some [branch_line]) (Some <$> [branch_voronoi])
       = Ok out
    /\ take (GetNumberOfPoints small_voronoi) (cloud out) = cloud small_voronoi.
Proof.
  exact (area_zero_percent_identity Scipy.gaussian_filter closest_point small_voronoi
           (straight_line 20 1) 0.5 None "manual" None (Some [branch_line])
           (Some <$> [branch_voronoi]) _
           scipy_gaussian_filter_length closest_point_lt (straight_line_has_area 20 1)
           (straight_line_nonempty 20 1 ltac:(lia)) small_voronoi_radius
           example_diverging_ok).
Defined.

(** C3.  Method "variation".  The area array is smoothed twice by the
    Gaussian filter; the mean is the sum of the smoothed areas over their
    number.  The raw factor of sample [i] is [(area_i / mean) ^ exponent],
    blended with the transition.  The exponent is [beta], or, when a ratio is
    given, [0.5 * (ln ratio / ln (area_max / area_min) - 1)] for the largest
    and the smallest smoothed area, computed once. *)
Theorem variation_factor (gaussian_filter : list R -> Z -> list R)
    (line : vtkPolyData) (area : list R) (beta : R) (ratio : option R) (percentage : R)
    (region_of_interest : string) (region_points : option (list R)) :
  (forall input sigma, length (gaussian_filter input sigma) = length input) ->
  PointData line !! "CenterlineSectionArea" = Some area ->
  length area = GetNumberOfPoints line ->
  let smooth := gaussian_filter (gaussian_filter area 5%Z) 5%Z in
  let mean_area := fold_right Rplus 0 smooth / INR (length smooth) in
  Forall (fun a => 0 < a) smooth ->
  (forall r, ratio = Some r ->
             0 < r /\ exists area_max area_min,
                 area_max ∈ smooth /\ Forall (fun a => a <= area_max) smooth
                 /\ area_min ∈ smooth /\ Forall (fun a => area_min <= a) smooth
                 /\ area_max <> area_min) ->
  exists trans factor exponent,
    transition region_of_interest "variation" (GetNumberOfPoints line) = Ok trans
    /\ get_factor gaussian_filter line "variation" beta ratio percentage
         region_of_interest region_points = Ok factor
    /\ (ratio = None -> exponent = beta)
    /\ (forall r area_max area_min,
          ratio = Some r ->
          area_max ∈ smooth -> Forall (fun a => a <= area_max) smooth ->
          area_min ∈ smooth -> Forall (fun a => area_min <= a) smooth ->
          exponent = 0.5 * (ln r / ln (area_max / area_min) - 1))
    /\ forall i a t,
         smooth !! i = Some a -> trans !! i = Some t ->
         factor !! i = Some (Rpower (a / mean_area) exponent * (1 - t) + t).
Proof.
  intros Hgf Harea Hlen smooth mean_area Hpos Hratio.
  destruct (transition_Ok region_of_interest "variation" (GetNumberOfPoints line))
    as (trans & Htrans & Htl).
  set (exponent := match ratio with
                   | None => beta
                   | Some r =>
                       match Np.max smooth, Np.min smooth with
                       | Ok area_max, Ok area_min => solved_beta r (area_max / area_min)
                       | _, _ => beta
                       end
                   end).
  assert (Hraw : raw_factor line smooth (GetNumberOfPoints line) "variation" beta ratio
                   percentage region_points
                 = Ok ((fun a => Rpower (a / Np.mean smooth) exponent) <$> smooth)).
  { unfold exponent. destruct ratio as [r |].
    - destruct (Hratio r eq_refl)
        as (Hr & area_max & area_min & Hmax & Hmaxle & Hmin & Hminle & Hne).
      assert (Emax : Np.max smooth = Ok area_max) by now apply max_spec.
      assert (Emin : Np.min smooth = Ok area_min) by now apply min_spec.
      rewrite Emax, Emin. now apply raw_factor_variation_ratio.
    - now apply raw_factor_variation_beta. }
  exists trans. eexists. exists exponent.
  split; [exact Htrans |]. split.
  { exact (get_factor_blend gaussian_filter Hgf line area Harea Hlen _ _ _ _ _ _ _ _
             Htrans Hraw). }
  split; [intros ->; reflexivity |]. split.
  - intros r area_max area_min -> Hmax Hmaxle Hmin Hminle. unfold exponent.
    assert (Emax : Np.max smooth = Ok area_max) by now apply max_spec.
    assert (Emin : Np.min smooth = Ok area_min) by now apply min_spec.
    now rewrite Emax, Emin.
  - intros i a t Ha Ht. rewrite lookup_zip_with, list_lookup_fmap, Ha, Ht. reflexivity.
Qed.

Lemma variation_factor_witness :
  let smooth := Scipy.gaussian_filter (Scipy.gaussian_filter (4 :: replicate 41 1) 5) 5 in
  let mean_area := fold_right Rplus 0 smooth / 42 in
  (exists factor,
     get_factor Scipy.gaussian_filter stepped_line "variation" 0.5 None 50 "manual" None
     = Ok factor
     /\ forall i a, (4 <= i < 38)%nat -> smooth !! i = Some a ->
                    factor !! i = Some (Rpower (a / mean_area) 0.5 * (1 - 0) + 0))
  /\ (exists factor area_max,
        get_factor Scipy.gaussian_filter stepped_line "variation" 0.5 (Some 2) 50 "manual"
          None = Ok factor
        /\ area_max ∈ smooth /\ Forall (fun a => a <= area_max) smooth /\ 1 < area_max
        /\ forall i a, (4 <= i < 38)%nat -> smooth !! i = Some a ->
             factor !! i
             = Some (Rpower (a / mean_area) (0.5 * (ln 2 / ln (area_max / 1) - 1))
                     * (1 - 0) + 0)).
Proof.
  intros smooth mean_area.
  destruct stepped_smooth as (Hlen & Hpos & Hge & (first & Hfirst & Hgt) & Hlast).
  fold smooth in Hlen, Hpos, Hge, Hfirst, Hlast.
  assert (Hmean : fold_right Rplus 0 smooth / INR (length smooth) = mean_area).
  { unfold mean_area. rewrite Hlen. f_equal. rewrite INR_IZR_INZ. reflexivity. }
  assert (Hmid : forall trans i,
             transition "manual" "variation" (GetNumberOfPoints stepped_line) = Ok trans ->
             (4 <= i < 38)%nat -> trans !! i = Some 0).
  { intros trans i Htrans Hi. rewrite stepped_line_size in Htrans.
    destruct (transition_both_ends "manual" "variation" 42 trans ltac:(constructor)
                ltac:(apply list_elem_of_further; constructor) Htrans) as [H _].
    apply H. change (round_tenth 42) with 4%nat. lia. }
  split.
  - destruct (variation_factor Scipy.gaussian_filter stepped_line (4 :: replicate 41 1)
                0.5 None 50 "manual" None scipy_gaussian_filter_length
                (lookup_singleton_eq _ _) eq_refl Hpos ltac:(discriminate))
      as (trans & factor & exponent & Htrans & Hf & He & _ & Hvalue).
    exists factor. split; [exact Hf |]. intros i a Hi Ha.
    rewrite (Hvalue i a 0 Ha (Hmid trans i Htrans Hi)).
    fold smooth. rewrite Hmean, (He eq_refl). reflexivity.
  - destruct (proj1 (max_spec smooth (foldr Rmax first (tail smooth))))
      as [Hmax Hmaxle].
    { destruct smooth as [| s0 smooth']; [discriminate |].
      injection Hfirst as ->. reflexivity. }
    set (area_max := foldr Rmax first (tail smooth)) in *.
    assert (Hbig : 1 < area_max).
    { rewrite Forall_forall in Hmaxle.
      pose proof (Hmaxle first (list_elem_of_lookup_2 _ _ _ Hfirst)). lra. }
    assert (Hmin : (1 : R) ∈ smooth) by exact (list_elem_of_lookup_2 _ _ _ Hlast).
    destruct (variation_factor Scipy.gaussian_filter stepped_line (4 :: replicate 41 1)
                0.5 (Some 2) 50 "manual" None scipy_gaussian_filter_length
                (lookup_singleton_eq _ _) eq_refl Hpos)
      as (trans & factor & exponent & Htrans & Hf & _ & He & Hvalue).
    { intros r [= <-]. split; [lra |]. exists area_max, 1.
      repeat split; try assumption. lra. }
    exists factor, area_max. split; [exact Hf |]. split; [exact Hmax |].
    split; [exact Hmaxle |]. split; [exact Hbig |]. intros i a Hi Ha.
    rewrite (Hvalue i a 0 Ha (Hmid trans i Htrans Hi)).
    fold smooth. rewrite Hmean, (He 2 area_max 1 eq_refl Hmax Hmaxle Hmin Hge).
    reflexivity.
Defined.

(** C2, as stated, fails for method "stenosis": under "manual" its factor
    is the raw factor, while the transition of the specification has weight
    1/2 at the second of 26 samples. *)
Lemma stenosis_has_no_transition :
  exists factor raw x,
    get_factor Scipy.gaussian_filter (straight_line 26 1) "stenosis" 0.5 None 50 "manual"
      (Some [0; 0; 0]) = Ok factor
    /\ raw_factor (straight_line 26 1)
         (Scipy.gaussian_filter (Scipy.gaussian_filter (replicate 26 1) 5) 5) 26
         "stenosis" 0.5 None 50 (Some [0; 0; 0]) = Ok raw
    /\ raw !! 1%nat = Some x
    /\ spec_transition "manual" 26 !! 1%nat = Some (1 / 2)
    /\ factor !! 1%nat = Some x
    /\ x <> x * (1 - 1 / 2) + 1 * (1 / 2).
Proof.
  pose proof (raw_factor_stenosis_one (straight_line 26 1)
                (Scipy.gaussian_filter (Scipy.gaussian_filter (replicate 26 1) 5) 5) 26
                0.5 None 50 [0; 0; 0] eq_refl) as Hraw.
  pose proof (raw_factor_stenosis_one (straight_line 26 1)
                (Scipy.gaussian_filter (Scipy.gaussian_filter (replicate 26 1) 5) 5)
                (GetNumberOfPoints (straight_line 26 1))
                0.5 None 50 [0; 0; 0] eq_refl) as Hraw'.
  assert (Htrans : transition "manual" "stenosis" (GetNumberOfPoints (straight_line 26 1))
                   = Ok (replicate 26 0)).
  { rewrite straight_line_size. apply transition_none; [discriminate |].
    intros [_ H]. now apply stenosis_not_ramped. }
  pose proof (get_factor_blend Scipy.gaussian_filter scipy_gaussian_filter_length
                (straight_line 26 1) (replicate 26 1) (lookup_singleton_eq _ _)
                ltac:(now rewrite straight_line_size, length_replicate)
                "stenosis" 0.5 None 50 "manual" (Some [0; 0; 0]) _ _ Htrans Hraw') as Hf.
  rewrite straight_line_size in Hraw, Hf.
  set (x := 1 - sin (0 + INR 1 * ((PI - 0) / INR (26 - 1))) * 50 * 0.01).
  assert (Hx : Np.linspace 0 PI 26 !! 1%nat = Some (0 + INR 1 * ((PI - 0) / INR (26 - 1))))
    by (apply linspace_lookup; lia).
  eexists _, _, x. split; [exact Hf |]. split; [exact Hraw |].
  split; [| split; [| split]].
  - rewrite list_lookup_fmap, Hx. reflexivity.
  - unfold spec_transition. rewrite decide_False by discriminate.
    change (round_tenth 26) with 3%nat.
    rewrite lookup_app_l by (rewrite linspace_length; lia).
    rewrite ramp_down_lookup by lia. f_equal. simpl. lra.
  - rewrite lookup_zip_with, list_lookup_fmap, Hx.
    rewrite lookup_replicate_2 by lia. cbn [fmap option_fmap option_map mbind option_bind].
    f_equal. fold x. lra.
  - assert (Hsin : 0 < sin (0 + INR 1 * ((PI - 0) / INR (26 - 1)))).
    { pose proof PI_RGT_0 as Hpi.
      replace (0 + INR 1 * ((PI - 0) / INR (26 - 1))) with (PI / 25) by (simpl; lra).
      apply sin_gt_0; lra. }
    unfold x. lra.
Qed.

(** C2, amended.  A factor field [get_factor] returns is, sample by sample,
    [raw * (1 - weight) + 1 * weight] for the raw factor of the method and
    the transition weights.  With [k = round(0.10 * N)]: under "first_line"
    the last [k] samples ramp, for every method; under "manual" and
    "commandline" the first and the last [k] samples ramp for the methods
    "area" and "variation"; the ramp, for [k >= 2], has weight 1 at the end
    of the segment and decreases linearly to 0; every other sample, and
    every sample of any other combination, has weight 0. *)
Theorem transition_blend (gaussian_filter : list R -> Z -> list R)
    (line : vtkPolyData) (area : list R) (method : string) (beta : R) (ratio : option R)
    (percentage : R) (region_of_interest : string) (region_points : option (list R))
    (factor : list R) :
  (forall input sigma, length (gaussian_filter input sigma) = length input) ->
  PointData line !! "CenterlineSectionArea" = Some area ->
  length area = GetNumberOfPoints line ->
  get_factor gaussian_filter line method beta ratio percentage region_of_interest
    region_points = Ok factor ->
  let n := GetNumberOfPoints line in
  let k := round_tenth n in
  exists trans raw,
    transition region_of_interest method n = Ok trans
    /\ raw_factor line (gaussian_filter (gaussian_filter area 5%Z) 5%Z) n method beta
         ratio percentage region_points = Ok raw
    /\ length trans = n /\ length raw = n
    /\ (forall i x t, raw !! i = Some x -> trans !! i = Some t ->
                      factor !! i = Some (x * (1 - t) + 1 * t))
    /\ (region_of_interest = "first_line" ->
        (forall i, (i < n - k)%nat -> trans !! i = Some 0)
        /\ ((2 <= k)%nat -> forall i, (i < k)%nat ->
            trans !! (n - 1 - i)%nat = Some (1 - INR i / INR (k - 1))))
    /\ (region_of_interest ∈ ["manual"; "commandline"] ->
        method ∈ ["area"; "variation"] ->
        (forall i, (k <= i < n - k)%nat -> trans !! i = Some 0)
        /\ ((2 <= k)%nat -> forall i, (i < k)%nat ->
            trans !! i = Some (1 - INR i / INR (k - 1))
            /\ trans !! (n - 1 - i)%nat = Some (1 - INR i / INR (k - 1))))
    /\ (region_of_interest <> "first_line" ->
        ~ (region_of_interest ∈ ["manual"; "commandline"]
           /\ method ∈ ["area"; "variation"]) ->
        forall i, (i < n)%nat -> trans !! i = Some 0).
Proof.
  intros Hgf Harea Hlen Hfactor n k.
  destruct (get_factor_inv gaussian_filter Hgf line area Harea Hlen _ _ _ _ _ _ _ Hfactor)
    as (trans & raw & Htrans & Hraw & Htl & Hrl & ->).
  exists trans, raw. repeat split; try assumption.
  - intros i x t Hx Ht. rewrite lookup_zip_with, Hx, Ht. simpl. f_equal. ring.
  - subst region_of_interest. now apply (transition_first_line method n trans).
  - subst region_of_interest. now apply (transition_first_line method n trans).
  - now apply (transition_both_ends region_of_interest method n trans).
  - now apply (transition_both_ends region_of_interest method n trans).
  - now apply (transition_both_ends region_of_interest method n trans).
  - intros Hfirst Hnot i Hi. fold n in Htrans.
    rewrite (transition_none _ _ n Hfirst Hnot) in Htrans. injection Htrans as <-.
    now apply lookup_replicate_2.
Qed.

Lemma transition_blend_witness :
  exists factor trans,
    get_factor Scipy.gaussian_filter (straight_line 20 1) "area" 0.5 None 50 "manual" None
    = Ok factor
    /\ transition "manual" "area" 20 = Ok trans
    /\ trans !! 0%nat = Some (1 - INR 0 / INR (2 - 1))
    /\ trans !! 19%nat = Some (1 - INR 0 / INR (2 - 1))
    /\ trans !! 7%nat = Some 0.
Proof.
  destruct (get_factor_area Scipy.gaussian_filter (straight_line 20 1) 0.5 None 50 "manual"
              None scipy_gaussian_filter_length (straight_line_has_area 20 1))
    as (trans0 & _ & Hf).
  destruct (transition_blend Scipy.gaussian_filter (straight_line 20 1) (replicate 20 1)
              "area" 0.5 None 50 "manual" None _ scipy_gaussian_filter_length
              (lookup_singleton_eq _ _)
              ltac:(now rewrite straight_line_size, length_replicate) Hf)
    as (trans & raw & Htrans & _ & _ & _ & _ & _ & Hboth & _).
  rewrite straight_line_size in Htrans, Hboth.
  destruct (Hboth ltac:(constructor) ltac:(constructor)) as [Hzero Hramp].
  change (round_tenth 20) with 2%nat in Hzero, Hramp.
  eexists _, trans. split; [exact Hf |]. split; [exact Htrans |].
  split; [exact (proj1 (Hramp ltac:(lia) 0%nat ltac:(lia))) |].
  split; [exact (proj2 (Hramp ltac:(lia) 0%nat ltac:(lia))) |].
  apply Hzero. lia.
Defined.

(** C4, as stated, fails: method "area" with [percentage = -100] returns a
    factor field that holds 0, and nothing is raised. *)
Lemma area_factor_not_positive :
  exists factor,
    get_factor Scipy.gaussian_filter (straight_line 20 1) "area" 0.5 None (-100) "manual"
      None = Ok factor
    /\ factor !! 7%nat = Some 0
    /\ ~ Forall (fun x => 0 < x) factor.
Proof.
  destruct (get_factor_area Scipy.gaussian_filter (straight_line 20 1) 0.5 None (-100)
              "manual" None scipy_gaussian_filter_length (straight_line_has_area 20 1))
    as (trans & Htrans & Hf).
  rewrite straight_line_size in Htrans.
  destruct (transition_both_ends "manual" "area" 20 trans ltac:(constructor)
              ltac:(constructor) Htrans) as [Hzero _].
  change (round_tenth 20) with 2%nat in Hzero.
  assert (H7 : ((fun t : R => 1 * (1 + -100 * 0.01) * (1 - t) + t) <$> trans) !! 7%nat
               = Some 0).
  { rewrite list_lookup_fmap, Hzero by lia. simpl. f_equal. lra. }
  eexists. split; [exact Hf |]. split; [exact H7 |].
  intros Hall. rewrite Forall_forall in Hall.
  apply list_elem_of_lookup_2 in H7. specialize (Hall _ H7). simpl in Hall. lra.
Qed.

(** C4, amended.  [get_factor] checks neither sign nor finiteness.  A
    factor field it returns is positive whenever the raw factor of the
    method is, as for method "area" with [percentage > -100].  In the solve
    of [beta] from a ratio, a constant smoothed area ([R_old = 1]) raises
    ZeroDivisionError, and a ratio or an [R_old] that is not positive raises
    ValueError; no factor field is returned then. *)
Theorem factor_positivity (gaussian_filter : list R -> Z -> list R)
    (line : vtkPolyData) (area : list R) (beta : R) (percentage : R)
    (region_of_interest : string) (region_points : option (list R)) :
  (forall input sigma, length (gaussian_filter input sigma) = length input) ->
  PointData line !! "CenterlineSectionArea" = Some area ->
  length area = GetNumberOfPoints line ->
  let smooth := gaussian_filter (gaussian_filter area 5%Z) 5%Z in
  (forall method ratio factor raw,
     get_factor gaussian_filter line method beta ratio percentage region_of_interest
       region_points = Ok factor ->
     raw_factor line smooth (GetNumberOfPoints line) method beta ratio percentage
       region_points = Ok raw ->
     Forall (fun x => 0 < x) raw -> Forall (fun x => 0 < x) factor)
  /\ (forall ratio, -100 < percentage ->
      exists factor,
        get_factor gaussian_filter line "area" beta ratio percentage region_of_interest
          region_points = Ok factor
        /\ Forall (fun x => 0 < x) factor)
  /\ (forall ratio area_max area_min,
        Np.max smooth = Ok area_max -> Np.min smooth = Ok area_min -> area_min <> 0 ->
        (0 < ratio -> area_max = area_min ->
         get_factor gaussian_filter line "variation" beta (Some ratio) percentage
           region_of_interest region_points = Raise ZeroDivisionError)
        /\ (ratio <= 0 \/ area_max / area_min <= 0 ->
            get_factor gaussian_filter line "variation" beta (Some ratio) percentage
              region_of_interest region_points = Raise ValueError)).
Proof.
  intros Hgf Harea Hlen smooth.
  assert (Hblend : forall method ratio factor raw,
             get_factor gaussian_filter line method beta ratio percentage
               region_of_interest region_points = Ok factor ->
             raw_factor line smooth (GetNumberOfPoints line) method beta ratio percentage
               region_points = Ok raw ->
             Forall (fun x => 0 < x) raw -> Forall (fun x => 0 < x) factor).
  { intros method ratio factor raw Hfactor Hraw Hpos.
    destruct (get_factor_inv gaussian_filter Hgf line area Harea Hlen _ _ _ _ _ _ _
                Hfactor) as (trans & raw' & Htrans & Hraw' & _ & _ & ->).
    fold smooth in Hraw'. rewrite Hraw in Hraw'. injection Hraw' as <-.
    apply blend_positive; [exact Hpos |]. eapply transition_unit. exact Htrans. }
  split; [exact Hblend |]. split.
  - intros ratio Hp.
    destruct (get_factor_area gaussian_filter line beta ratio percentage
                region_of_interest region_points Hgf (ex_intro _ area (conj Harea Hlen)))
      as (trans & Htrans & Hf).
    eexists. split; [exact Hf |].
    apply (Hblend "area" ratio _ _ Hf (raw_factor_area _ _ _ _ _ _ _)).
    apply Forall_replicate. lra.
  - intros ratio area_max area_min Hmax Hmin Hne. split.
    + intros Hratio ->. eapply get_factor_raise; try eassumption.
      fold smooth. now apply (raw_factor_ratio_constant _ _ _ _ _ _ _ area_min).
    + intros Hbad. eapply get_factor_raise; try eassumption.
      fold smooth. now apply (raw_factor_ratio_nonpositive _ _ _ _ _ _ _ area_max area_min).
Qed.

Lemma factor_positivity_witness :
  (exists factor,
     get_factor Scipy.gaussian_filter (straight_line 20 1) "area" 0.5 None 50 "manual" None
     = Ok factor
     /\ Forall (fun x => 0 < x) factor)
  /\ get_factor Scipy.gaussian_filter (straight_line 20 1) "variation" 0.5 (Some 2) 50
       "manual" None = Raise ZeroDivisionError
  /\ get_factor Scipy.gaussian_filter (straight_line 20 1) "variation" 0.5 (Some (-1)) 50
       "manual" None = Raise ValueError.
Proof.
  destruct (factor_positivity Scipy.gaussian_filter (straight_line 20 1) (replicate 20 1)
              0.5 50 "manual" None scipy_gaussian_filter_length (lookup_singleton_eq _ _)
              ltac:(now rewrite straight_line_size, length_replicate))
    as (_ & Harea & Hratio).
  split; [apply Harea; lra |].
  assert (Hmax : Np.max (Scipy.gaussian_filter (Scipy.gaussian_filter (replicate 20 1) 5) 5)
                 = Ok (foldr Rmax 1 (replicate 19 1)))
    by (rewrite smooth_straight_line; reflexivity).
  assert (Hmin : Np.min (Scipy.gaussian_filter (Scipy.gaussian_filter (replicate 20 1) 5) 5)
                 = Ok (foldr Rmin 1 (replicate 19 1)))
    by (rewrite smooth_straight_line; reflexivity).
  assert (Emax : foldr Rmax 1 (replicate 19 1) = 1).
  { apply foldr_Rmax_replicate. }
  assert (Emin : foldr Rmin 1 (replicate 19 1) = 1).
  { apply foldr_Rmin_replicate. }
  rewrite Emax in Hmax. rewrite Emin in Hmin.
  split.
  - apply (proj1 (Hratio 2 1 1 Hmax Hmin ltac:(lra))); [lra | reflexivity].
  - apply (proj2 (Hratio (-1) 1 1 Hmax Hmin ltac:(lra))). left. lra.
Defined.

(** C9, as stated, fails for [get_factor]: a region mode outside "manual",
    "commandline" and "first_line" is accepted, and a factor field is
    returned. *)
Lemma unknown_region_mode_accepted :
  ("somewhere" ∉ ["manual"; "commandline"; "first_line"])
  /\ exists factor,
       get_factor Scipy.gaussian_filter (straight_line 20 1) "area" 0.5 None 50
         "somewhere" None = Ok factor.
Proof.
  split.
  - intros H. repeat (apply elem_of_cons in H as [H | H]; [discriminate |]). inversion H.
  - destruct (get_factor_area Scipy.gaussian_filter (straight_line 20 1) 0.5 None 50
                "somewhere" None scipy_gaussian_filter_length
                (straight_line_has_area 20 1)) as (trans & _ & Hf).
    eexists. exact Hf.
Qed.

(** C9, amended.  The command line is where names are checked: a method
    outside "variation", "stenosis", "area" or a region mode outside
    "manual", "commandline", "first_line" makes [read_command_line] exit,
    and [main_area] never enters [manipulate_area].  [get_factor] has no
    check of its own: on a well-formed centerline an unknown method raises
    UnboundLocalError, and an unknown region mode means no transition. *)
Theorem unknown_names (A : Type) (manipulate_area : arguments -> outcome A)
    (argv : arguments) (gaussian_filter : list R -> Z -> list R) (line : vtkPolyData)
    (area : list R) (method : string) (beta : R) (ratio : option R) (percentage : R)
    (region_of_interest : string) (region_points : option (list R)) :
  (forall input sigma, length (gaussian_filter input sigma) = length input) ->
  PointData line !! "CenterlineSectionArea" = Some area ->
  length area = GetNumberOfPoints line ->
  (arg_method argv ∉ ["variation"; "stenosis"; "area"]
   \/ arg_region_of_interest argv ∉ ["manual"; "commandline"; "first_line"] ->
   read_command_line argv = Raise SystemExit
   /\ main_area manipulate_area argv = Raise SystemExit)
  /\ (method ∉ ["variation"; "stenosis"; "area"] ->
      get_factor gaussian_filter line method beta ratio percentage region_of_interest
        region_points = Raise UnboundLocalError)
  /\ (region_of_interest ∉ ["manual"; "commandline"; "first_line"] ->
      transition region_of_interest method (GetNumberOfPoints line)
      = Ok (replicate (GetNumberOfPoints line) 0)).
Proof.
  intros Hgf Harea Hlen. split; [| split].
  - intros Hbad.
    assert (Hread : read_command_line argv = Raise SystemExit).
    { unfold read_command_line, argparse_choices.
      destruct (bool_decide (arg_method argv ∈ ["variation"; "stenosis"; "area"])) eqn:E1;
        [| reflexivity].
      cbn [Py.bind].
      destruct (bool_decide (arg_region_of_interest argv
                               ∈ ["manual"; "commandline"; "first_line"])) eqn:E2;
        [| reflexivity].
      apply bool_decide_eq_true_1 in E1, E2. now destruct Hbad. }
    split; [exact Hread |]. unfold main_area. now rewrite Hread.
  - intros Hbad. eapply get_factor_raise; try eassumption.
    now apply raw_factor_unknown_method.
  - intros Hbad. apply transition_none.
    + intros ->. apply Hbad. repeat constructor.
    + intros [Hroi _]. apply Hbad.
      repeat (apply elem_of_cons in Hroi as [-> | Hroi]; [repeat constructor |]).
      inversion Hroi.
Qed.

Lemma unknown_names_witness :
  read_command_line (mkArguments "inflate" "manual" None 0.5 None 2 50 None)
  = Raise SystemExit
  /\ main_area (fun _ => Ok tt) (mkArguments "inflate" "manual" None 0.5 None 2 50 None)
     = Raise SystemExit
  /\ get_factor Scipy.gaussian_filter (straight_line 20 1) "inflate" 0.5 None 50 "manual"
       None = Raise UnboundLocalError.
Proof.
  assert (Hbad : "inflate" ∉ ["variation"; "stenosis"; "area"]).
  { intros H. repeat (apply elem_of_cons in H as [H | H]; [discriminate |]). inversion H. }
  destruct (unknown_names unit (fun _ => Ok tt)
              (mkArguments "inflate" "manual" None 0.5 None 2 50 None)
              Scipy.gaussian_filter (straight_line 20 1) (replicate 20 1) "inflate" 0.5
              None 50 "manual" None scipy_gaussian_filter_length (lookup_singleton_eq _ _)
              ltac:(now rewrite straight_line_size, length_replicate))
    as (Hcli & Hmethod & _).
  destruct (Hcli (or_introl Hbad)) as [Hread Hmain].
  split; [exact Hread |]. split; [exact Hmain |]. exact (Hmethod Hbad).
Defined.

(** * Further properties *)

(** ** The command line *)

Lemma read_command_line_cases (argv : arguments) :
  read_command_line argv =
  if decide (names_ok argv) then
    if decide (options_ok argv) then Ok argv else Raise ValueError
  else Raise SystemExit.
Proof.
  unfold read_command_line, argparse_choices.
  destruct (decide (names_ok argv)) as [[E1 E2] | Hn].
  2:{ destruct (bool_decide (arg_method argv ∈ _)) eqn:E1; [| reflexivity].
      cbn [Py.bind]. destruct (bool_decide (arg_region_of_interest argv ∈ _)) eqn:E2;
        [| reflexivity].
      apply bool_decide_eq_true_1 in E1, E2. exfalso. apply Hn. now split. }
  rewrite !bool_decide_eq_true_2 by assumption. cbn [Py.bind].
  destruct (decide (options_ok argv)) as [Hok | Hbad].
  - destruct Hok as (Hs & Hrp & Hnp). rewrite decide_False by exact Hs.
    unfold region_points_ok, no_smooth_point_ok in Hrp, Hnp.
    destruct argv as [m roi rp b ra sl pc np].
    cbn [arg_method arg_region_of_interest arg_region_points arg_beta arg_ratio
           arg_stenosis_length arg_percentage arg_no_smooth_point] in *.
    destruct rp as [rp |]; [rewrite decide_False by lia |]; cbn [Py.bind];
      (destruct np as [np |]; [rewrite decide_False by (intros [? ?]; tauto) |]);
      reflexivity.
  - destruct (decide (arg_method argv = "stenosis"
                      /\ arg_region_of_interest argv = "first_line")) as [Hs | Hs];
      [reflexivity |].
    unfold options_ok, region_points_ok, no_smooth_point_ok in Hbad.
    destruct argv as [m roi rp b ra sl pc np].
    cbn [arg_method arg_region_of_interest arg_region_points arg_beta arg_ratio
           arg_stenosis_length arg_percentage arg_no_smooth_point] in *.
    destruct rp as [rp |].
    + destruct (decide ((length rp mod 3)%nat <> 0%nat \/ (6 < length rp)%nat));
        [reflexivity |].
      cbn [Py.bind]. destruct np as [np |].
      * destruct (decide (np <> [] /\ (length np mod 3)%nat <> 0%nat)); [reflexivity |].
        exfalso. apply Hbad. repeat split; try assumption; try lia.
        destruct (decide (np = [])); [now left | right].
        destruct (decide ((length np mod 3)%nat = 0%nat)); [assumption | exfalso; tauto].
      * exfalso. apply Hbad. repeat split; try assumption; lia.
    + cbn [Py.bind]. destruct np as [np |].
      * destruct (decide (np <> [] /\ (length np mod 3)%nat <> 0%nat)); [reflexivity |].
        exfalso. apply Hbad. repeat split; try assumption.
        destruct (decide (np = [])); [now left | right].
        destruct (decide ((length np mod 3)%nat = 0%nat)); [assumption | exfalso; tauto].
      * exfalso. apply Hbad. repeat split; assumption.
Qed.

(** [read_command_line] returns exactly when the two names are among the
    choices, the method is not "stenosis" on "first_line", and the point
    lists have a length that is a multiple of 3 (at most 6 for the region
    points); it then returns the options as they were given. *)
Theorem read_command_line_returns (argv kwargs : arguments) :
  read_command_line argv = Ok kwargs
  <-> kwargs = argv /\ names_ok argv /\ options_ok argv.
Proof.
  rewrite read_command_line_cases.
  destruct (decide (names_ok argv)); [destruct (decide (options_ok argv)) |]; split;
    try discriminate; try tauto.
  - intros [= <-]. tauto.
  - intros (-> & _). reflexivity.
Qed.

(** The parser's exit comes first: [read_command_line] exits exactly on a
    name outside the choices, raises ValueError exactly when the names are
    fine and an option is not, and never fails in another way. *)
Theorem read_command_line_failures (argv : arguments) :
  (read_command_line argv = Raise SystemExit <-> ~ names_ok argv)
  /\ (read_command_line argv = Raise ValueError <-> names_ok argv /\ ~ options_ok argv)
  /\ (forall e, read_command_line argv = Raise e -> e = SystemExit \/ e = ValueError)
  /\ (forall w, read_command_line argv <> OutOfModel w).
Proof.
  rewrite read_command_line_cases.
  destruct (decide (names_ok argv)) as [Hn | Hn];
    [destruct (decide (options_ok argv)) as [Ho | Ho] |];
    repeat split; try discriminate; try tauto; try (intros e [= <-]; tauto);
    apply Hn.
Qed.

(** ** The factor field *)

(** The transition never fails, whatever the names and the number of
    samples: [round(0.10 * N)] samples fit twice into [N], so no array of
    negative size is asked for; it has one weight per sample, each between 0
    and 1. *)
Theorem transition_total (region_of_interest method : string) (n : nat) :
  exists trans,
    transition region_of_interest method n = Ok trans
    /\ length trans = n
    /\ Forall (fun t => 0 <= t <= 1) trans.
Proof.
  destruct (transition_Ok region_of_interest method n) as (trans & Htrans & Hlen).
  exists trans. split; [exact Htrans |]. split; [exact Hlen |].
  eapply transition_unit. exact Htrans.
Qed.

(** Blending never overshoots: every factor lies between the raw factor of
    its sample and 1. *)
Theorem factor_between_raw_and_one (gaussian_filter : list R -> Z -> list R)
    (line : vtkPolyData) (area : list R) (method : string) (beta : R) (ratio : option R)
    (percentage : R) (region_of_interest : string) (region_points : option (list R))
    (factor raw : list R) (i : nat) (x f : R) :
  (forall input sigma, length (gaussian_filter input sigma) = length input) ->
  PointData line !! "CenterlineSectionArea" = Some area ->
  length area = GetNumberOfPoints line ->
  get_factor gaussian_filter line method beta ratio percentage region_of_interest
    region_points = Ok factor ->
  raw_factor line (gaussian_filter (gaussian_filter area 5%Z) 5%Z) (GetNumberOfPoints line)
    method beta ratio percentage region_points = Ok raw ->
  raw !! i = Some x -> factor !! i = Some f ->
  Rmin x 1 <= f <= Rmax x 1.
Proof.
  intros Hgf Harea Hlen Hfactor Hraw Hx Hf.
  destruct (get_factor_inv gaussian_filter Hgf line area Harea Hlen _ _ _ _ _ _ _ Hfactor)
    as (trans & raw' & Htrans & Hraw' & _ & _ & ->).
  rewrite Hraw in Hraw'. injection Hraw' as <-.
  apply lookup_zip_with_Some in Hf as (x' & t & -> & Hx' & Ht).
  rewrite Hx in Hx'. injection Hx' as <-.
  pose proof (transition_unit _ _ _ _ Htrans) as Hunit.
  rewrite Forall_forall in Hunit. specialize (Hunit t (list_elem_of_lookup_2 _ _ _ Ht)).
  unfold Rmin, Rmax. destruct (Rle_dec x 1); nra.
Qed.

Lemma factor_between_raw_and_one_witness :
  exists factor f,
    get_factor Scipy.gaussian_filter (straight_line 20 1) "area" 0.5 None 50 "manual" None
    = Ok factor
    /\ factor !! 1%nat = Some f
    /\ Rmin (1 * (1 + 50 * 0.01)) 1 <= f <= Rmax (1 * (1 + 50 * 0.01)) 1.
Proof.
  destruct (get_factor_area Scipy.gaussian_filter (straight_line 20 1) 0.5 None 50 "manual"
              None scipy_gaussian_filter_length (straight_line_has_area 20 1))
    as (trans & Htrans & Hf).
  assert (Hlen : length trans = 20%nat).
  { rewrite <- (straight_line_size 20 1). eapply transition_length. exact Htrans. }
  destruct (lookup_lt_is_Some_2 trans 1 ltac:(lia)) as [t Ht].
  assert (H1 : ((fun t : R => 1 * (1 + 50 * 0.01) * (1 - t) + t) <$> trans) !! 1%nat
               = Some (1 * (1 + 50 * 0.01) * (1 - t) + t))
    by now rewrite list_lookup_fmap, Ht.
  eexists _, _. split; [exact Hf |]. split; [exact H1 |].
  apply (factor_between_raw_and_one Scipy.gaussian_filter (straight_line 20 1)
           (replicate 20 1) "area" 0.5 None 50 "manual" None _
           (replicate 20 (1 * (1 + 50 * 0.01))) 1 _ _
           scipy_gaussian_filter_length (lookup_singleton_eq _ _)
           ltac:(now rewrite straight_line_size, length_replicate) Hf).
  - rewrite straight_line_size. apply raw_factor_area.
  - apply lookup_replicate_2. lia.
  - exact H1.
Defined.

(** Method "area" under "manual" or "commandline": away from the ends the
    factor is [1 + percentage / 100]; at distance [i] from either end of the
    segment, within the ramp, it is [1 + percentage / 100 * i / (k - 1)], so
    it is 1 at the two end samples and grows linearly inwards. *)
Theorem area_factor_profile (gaussian_filter : list R -> Z -> list R)
    (line : vtkPolyData) (beta : R) (ratio : option R) (percentage : R)
    (region_of_interest : string) (region_points : option (list R)) :
  (forall input sigma, length (gaussian_filter input sigma) = length input) ->
  has_area line ->
  region_of_interest ∈ ["manual"; "commandline"] ->
  let n := GetNumberOfPoints line in
  let k := round_tenth n in
  exists factor,
    get_factor gaussian_filter line "area" beta ratio percentage region_of_interest
      region_points = Ok factor
    /\ (forall i, (k <= i < n - k)%nat -> factor !! i = Some (1 + percentage * 0.01))
    /\ ((2 <= k)%nat -> forall i, (i < k)%nat ->
        factor !! i = Some (1 + percentage * 0.01 * (INR i / INR (k - 1)))
        /\ factor !! (n - 1 - i)%nat
           = Some (1 + percentage * 0.01 * (INR i / INR (k - 1)))).
Proof.
  intros Hgf Harea Hroi n k.
  destruct (get_factor_area gaussian_filter line beta ratio percentage region_of_interest
              region_points Hgf Harea) as (trans & Htrans & Hf).
  destruct (transition_both_ends region_of_interest "area" n trans Hroi
              ltac:(constructor) Htrans) as [Hzero Hramp].
  eexists. split; [exact Hf |]. split.
  - intros i Hi. rewrite list_lookup_fmap, (Hzero i Hi). simpl. f_equal. lra.
  - intros Hk i Hi. destruct (Hramp Hk i Hi) as [Hl Hr].
    assert (Hd : INR (k - 1) <> 0) by (apply not_0_INR; lia).
    split.
    + rewrite list_lookup_fmap, Hl. cbn [fmap option_fmap option_map].
      apply (f_equal Some). unfold k in *. now field.
    + rewrite list_lookup_fmap, Hr. cbn [fmap option_fmap option_map].
      apply (f_equal Some). unfold k in *. now field.
Qed.

Lemma area_factor_profile_witness :
  exists factor,
    get_factor Scipy.gaussian_filter (straight_line 20 1) "area" 0.5 None 50 "manual" None
    = Ok factor
    /\ factor !! 7%nat = Some (1 + 50 * 0.01)
    /\ factor !! 0%nat = Some (1 + 50 * 0.01 * (INR 0 / INR (2 - 1)))
    /\ factor !! 19%nat = Some (1 + 50 * 0.01 * (INR 0 / INR (2 - 1))).
Proof.
  destruct (area_factor_profile Scipy.gaussian_filter (straight_line 20 1) 0.5 None 50
              "manual" None scipy_gaussian_filter_length (straight_line_has_area 20 1)
              ltac:(constructor)) as (factor & Hf & Hin & Hramp).
  rewrite straight_line_size in Hin, Hramp. change (round_tenth 20) with 2%nat in Hin, Hramp.
  exists factor. split; [exact Hf |]. split; [apply Hin; lia |].
  exact (Hramp ltac:(lia) 0%nat ltac:(lia)).
Defined.

(** Method "variation" leaves the vessel as it is when the exponent is 0:
    with [beta = 0] and no ratio, and with a ratio equal to the ratio the
    smoothed areas already have, every factor is 1. *)
Theorem variation_neutral (gaussian_filter : list R -> Z -> list R)
    (line : vtkPolyData) (area : list R) (beta : R) (ratio : option R) (percentage : R)
    (region_of_interest : string) (region_points : option (list R)) :
  (forall input sigma, length (gaussian_filter input sigma) = length input) ->
  PointData line !! "CenterlineSectionArea" = Some area ->
  length area = GetNumberOfPoints line ->
  let smooth := gaussian_filter (gaussian_filter area 5%Z) 5%Z in
  Forall (fun a => 0 < a) smooth ->
  (ratio = None /\ beta = 0)
  \/ (exists area_max area_min,
        Np.max smooth = Ok area_max /\ Np.min smooth = Ok area_min
        /\ area_max <> area_min /\ ratio = Some (area_max / area_min)) ->
  exists factor,
    get_factor gaussian_filter line "variation" beta ratio percentage region_of_interest
      region_points = Ok factor
    /\ Forall (fun f => f = 1) factor.
Proof.
  intros Hgf Harea Hlen smooth Hpos Hcase.
  destruct (transition_Ok region_of_interest "variation" (GetNumberOfPoints line))
    as (trans & Htrans & Htl).
  assert (Hraw : exists raw,
             raw_factor line smooth (GetNumberOfPoints line) "variation" beta ratio
               percentage region_points = Ok raw
             /\ Forall (fun x => x = 1) raw).
  { assert (Hrel : forall a, a ∈ smooth -> 0 < a / Np.mean smooth).
    { intros a Ha. rewrite Forall_forall in Hpos. apply Rdiv_lt_0_compat; [now apply Hpos |].
      apply mean_positive; [| now apply Forall_forall]. intros ->. inversion Ha. }
    destruct Hcase as [[-> ->] | (area_max & area_min & Hmax & Hmin & Hne & ->)].
    - eexists. split; [now apply raw_factor_variation_beta |].
      apply Forall_fmap, Forall_forall. intros a Ha. simpl.
      apply Rpower_O. now apply Hrel.
    - assert (Hold : 0 < area_max / area_min).
      { destruct smooth as [| a0 rest]; [discriminate |].
        apply Forall_cons in Hpos as [H0 Hrest].
        injection Hmax as <-. injection Hmin as <-.
        apply Rdiv_lt_0_compat;
          [now apply foldr_Rmax_positive | now apply foldr_Rmin_positive]. }
      eexists. split.
      { apply (raw_factor_variation_ratio line smooth _ beta _ percentage region_points
                 area_max area_min); assumption. }
      assert (Hzero : solved_beta (area_max / area_min) (area_max / area_min) = 0).
      { unfold solved_beta.
        assert (Hln : ln (area_max / area_min) <> 0).
        { intros Hln. rewrite <- ln_1 in Hln. apply ln_inv in Hln; [| exact Hold | lra].
          assert (area_min <> 0).
          { intros ->. unfold Rdiv in Hold. rewrite Rinv_0, Rmult_0_r in Hold. lra. }
          apply Hne. apply (f_equal (fun x => x * area_min)) in Hln.
          field_simplify in Hln; lra. }
        field. exact Hln. }
      rewrite Hzero. apply Forall_fmap, Forall_forall. intros a Ha. simpl.
      apply Rpower_O. now apply Hrel. }
  destruct Hraw as (raw & Hraw & Hones).
  eexists. split.
  - exact (get_factor_blend gaussian_filter Hgf line area Harea Hlen _ _ _ _ _ _ _ _
             Htrans Hraw).
  - now apply blend_ones.
Qed.

Lemma variation_neutral_witness :
  (exists factor,
     get_factor Scipy.gaussian_filter (straight_line 20 1) "variation" 0 None 50 "manual"
       None = Ok factor
     /\ Forall (fun f => f = 1) factor)
  /\ (exists factor,
        get_factor unfiltered widening_line "variation" 0.5 (Some (Rmax 4 1 / Rmin 4 1)) 50
          "manual" None = Ok factor
        /\ Forall (fun f => f = 1) factor).
Proof.
  split.
  - apply (variation_neutral Scipy.gaussian_filter (straight_line 20 1) (replicate 20 1)
             0 None 50 "manual" None scipy_gaussian_filter_length
             (lookup_singleton_eq _ _)).
    + now rewrite straight_line_size, length_replicate.
    + rewrite smooth_straight_line. apply Forall_replicate. lra.
    + left. split; reflexivity.
  - apply (variation_neutral unfiltered widening_line [1; 4] 0.5
             (Some (Rmax 4 1 / Rmin 4 1)) 50 "manual" None
             (fun _ _ => eq_refl) (lookup_singleton_eq _ _) eq_refl).
    + unfold unfiltered. repeat constructor; lra.
    + right. exists (Rmax 4 1), (Rmin 4 1).
      split; [reflexivity |]. split; [reflexivity |]. split; [| reflexivity].
      unfold Rmax, Rmin. destruct (Rle_dec 4 1); lra.
Defined.

(** Method "stenosis" with one point, away from "first_line": the factor
    of sample [i] is [1 - sin(pi * i / (N - 1)) * percentage / 100].  It is 1
    at both ends of the segment, the same at equal distances from the two
    ends, and for a percentage between 0 and 100 it stays between
    [1 - percentage / 100] and 1. *)
Theorem stenosis_profile (gaussian_filter : list R -> Z -> list R)
    (line : vtkPolyData) (beta : R) (ratio : option R) (percentage : R)
    (region_of_interest : string) (region_points : list R) :
  (forall input sigma, length (gaussian_filter input sigma) = length input) ->
  has_area line -> region_of_interest <> "first_line" ->
  length region_points = 3%nat ->
  let n := GetNumberOfPoints line in
  (2 <= n)%nat ->
  exists factor,
    get_factor gaussian_filter line "stenosis" beta ratio percentage region_of_interest
      (Some region_points) = Ok factor
    /\ (forall i, (i < n)%nat ->
        factor !! i = Some (1 - sin (PI * INR i / INR (n - 1)) * percentage * 0.01))
    /\ factor !! 0%nat = Some 1
    /\ factor !! (n - 1)%nat = Some 1
    /\ (forall i, (i < n)%nat -> factor !! (n - 1 - i)%nat = factor !! i)
    /\ (0 <= percentage ->
        Forall (fun f => 1 - percentage * 0.01 <= f <= 1) factor).
Proof.
  intros Hgf (area & Harea & Hlen) Hroi Hrp n Hn.
  assert (Htrans : transition region_of_interest "stenosis" n = Ok (replicate n 0)).
  { apply transition_none; [exact Hroi |]. intros [_ H]. now apply stenosis_not_ramped. }
  pose proof (get_factor_blend gaussian_filter Hgf line area Harea Hlen "stenosis" beta
                ratio percentage region_of_interest (Some region_points) _ _ Htrans
                (raw_factor_stenosis_one _ _ _ _ _ _ _ Hrp)) as Hf.
  fold n in Hf.
  set (factor := zip_with _ _ _) in Hf.
  assert (Hd : INR (n - 1) <> 0) by (apply not_0_INR; lia).
  assert (Hi : forall i, (i < n)%nat ->
                factor !! i = Some (1 - sin (PI * INR i / INR (n - 1)) * percentage * 0.01)).
  { intros i Hi. unfold factor.
    rewrite lookup_zip_with, list_lookup_fmap, linspace_lookup by lia.
    rewrite lookup_replicate_2 by lia.
    cbn [fmap option_fmap option_map mbind option_bind]. apply (f_equal Some).
    replace (0 + INR i * ((PI - 0) / INR (n - 1))) with (PI * INR i / INR (n - 1))
      by now field.
    ring. }
  exists factor. split; [exact Hf |]. split; [exact Hi |].
  split; [| split; [| split]].
  - rewrite Hi by lia. apply (f_equal Some).
    replace (PI * INR 0 / INR (n - 1)) with 0 by (simpl; now field).
    rewrite sin_0. ring.
  - rewrite Hi by lia. apply (f_equal Some).
    replace (PI * INR (n - 1) / INR (n - 1)) with PI by now field.
    rewrite sin_PI. ring.
  - intros i Hlt. rewrite !Hi by lia. apply (f_equal Some).
    replace (PI * INR (n - 1 - i) / INR (n - 1))
      with (PI - PI * INR i / INR (n - 1)).
    + now rewrite sin_PI_x.
    + rewrite (minus_INR (n - 1) i) by lia. now field.
  - intros Hp. apply Forall_forall. intros f Hf'.
    apply list_elem_of_lookup in Hf' as (i & Hf').
    assert (Hlt : (i < n)%nat).
    { apply lookup_lt_Some in Hf'. unfold factor in Hf'.
      rewrite length_zip_with, length_fmap, linspace_length, length_replicate in Hf'. lia. }
    rewrite Hi in Hf' by exact Hlt. injection Hf' as <-.
    set (x := PI * INR i / INR (n - 1)).
    assert (Hx : 0 <= x <= PI).
    { pose proof PI_RGT_0 as Hpi. pose proof (pos_INR i) as H0.
      assert (Hle : INR i <= INR (n - 1)) by (apply le_INR; lia).
      assert (Hpos : 0 < INR (n - 1)) by (apply lt_0_INR; lia).
      unfold x. split.
      - apply Rmult_le_pos; [apply Rmult_le_pos; lra |].
        left. now apply Rinv_0_lt_compat.
      - apply Rmult_le_reg_r with (INR (n - 1)); [exact Hpos |].
        unfold Rdiv. rewrite Rmult_assoc, Rinv_l by lra. nra. }
    pose proof (sin_ge_0 x (proj1 Hx) (proj2 Hx)) as Hs0.
    pose proof (SIN_bound x) as [_ Hs1].
    nra.
Qed.

Lemma stenosis_profile_witness :
  exists factor,
    get_factor Scipy.gaussian_filter (straight_line 26 1) "stenosis" 0.5 None 50 "manual"
      (Some [0; 0; 0]) = Ok factor
    /\ factor !! 0%nat = Some 1
    /\ factor !! 25%nat = Some 1.
Proof.
  destruct (stenosis_profile Scipy.gaussian_filter (straight_line 26 1) 0.5 None 50
              "manual" [0; 0; 0] scipy_gaussian_filter_length (straight_line_has_area 26 1)
              ltac:(discriminate) eq_refl)
    as (factor & Hf & _ & H0 & Hlast & _).
  - rewrite straight_line_size. lia.
  - rewrite straight_line_size in Hlast. exists factor. repeat split; assumption.
Defined.

(** Method "stenosis" needs one or two region points: on a well-formed
    centerline, no region points at all ([None]) raise TypeError, and a list
    of any length but 3 and 6 leaves the factor unassigned, which raises
    UnboundLocalError. *)
Theorem stenosis_region_points (gaussian_filter : list R -> Z -> list R)
    (line : vtkPolyData) (beta : R) (ratio : option R) (percentage : R)
    (region_of_interest : string) :
  (forall input sigma, length (gaussian_filter input sigma) = length input) ->
  has_area line ->
  get_factor gaussian_filter line "stenosis" beta ratio percentage region_of_interest None
  = Raise TypeError
  /\ forall region_points,
       length region_points <> 3%nat -> length region_points <> 6%nat ->
       get_factor gaussian_filter line "stenosis" beta ratio percentage region_of_interest
         (Some region_points) = Raise UnboundLocalError.
Proof.
  intros Hgf (area & Harea & Hlen). split.
  - eapply get_factor_raise; try eassumption. unfold raw_factor.
    rewrite decide_False by discriminate. rewrite decide_True by reflexivity. reflexivity.
  - intros region_points H3 H6. eapply get_factor_raise; try eassumption.
    unfold raw_factor. rewrite decide_False by discriminate.
    rewrite decide_True by reflexivity. cbn [len Py.bind].
    rewrite decide_False by exact H3. rewrite decide_False by exact H6. reflexivity.
Qed.

Lemma stenosis_region_points_witness :
  get_factor Scipy.gaussian_filter (straight_line 20 1) "stenosis" 0.5 None 50 "manual" None
  = Raise TypeError
  /\ get_factor Scipy.gaussian_filter (straight_line 20 1) "stenosis" 0.5 None 50 "manual"
       (Some [0; 0]) = Raise UnboundLocalError.
Proof.
  destruct (stenosis_region_points Scipy.gaussian_filter (straight_line 20 1) 0.5 None 50
              "manual" scipy_gaussian_filter_length (straight_line_has_area 20 1))
    as [Hnone Hlist].
  split; [exact Hnone |]. apply Hlist; simpl; lia.
Defined.

(** A centerline that lacks the array "CenterlineSectionArea" makes
    [get_factor] raise AttributeError, for every method and before anything
    is computed, and [change_area] raises it as well. *)
Theorem missing_section_area (gaussian_filter : list R -> Z -> list R)
    (FindClosestPoint : list point -> point -> nat) (voronoi line : vtkPolyData)
    (method : string) (beta : R) (ratio : option R) (percentage : R)
    (region_of_interest : string) (region_points : option (list R))
    (diverging_centerline : option (list vtkPolyData))
    (diverging_voronoi : list (option vtkPolyData)) :
  PointData line !! "CenterlineSectionArea" = None ->
  get_factor gaussian_filter line method beta ratio percentage region_of_interest
    region_points = Raise AttributeError
  /\ change_area gaussian_filter FindClosestPoint voronoi line method beta ratio percentage
       region_of_interest region_points diverging_centerline diverging_voronoi
     = Raise AttributeError.
Proof.
  intros Hnone.
  assert (Hf : get_factor gaussian_filter line method beta ratio percentage
                 region_of_interest region_points = Raise AttributeError).
  { unfold get_factor, get_point_data_array, GetArray_GetTuple1. now rewrite Hnone. }
  split; [exact Hf |]. unfold change_area. now rewrite Hf.
Qed.

Lemma missing_section_area_witness :
  get_factor Scipy.gaussian_filter bare_line "area" 0.5 None 50 "manual" None
  = Raise AttributeError
  /\ change_area Scipy.gaussian_filter closest_point small_voronoi bare_line "area" 0.5 None
       50 "manual" None None [None] = Raise AttributeError.
Proof.
  exact (missing_section_area Scipy.gaussian_filter closest_point small_voronoi bare_line
           "area" 0.5 None 50 "manual" None None [None] (lookup_empty _)).
Defined.

(** ** The deformed Voronoi diagram *)

(** A factor field of ones changes nothing at all.  In every run that
    returns, the output starts with the main cloud as it came; and when the
    diverging diagrams come with their centerlines, the output is the main
    cloud followed by the clouds of the diverging diagrams, with the
    positions and radii they came with. *)
Theorem unit_factor_identity (gaussian_filter : list R -> Z -> list R)
    (FindClosestPoint : list point -> point -> nat)
    (voronoi line : vtkPolyData) (method : string) (beta : R) (ratio : option R)
    (percentage : R) (region_of_interest : string) (region_points : option (list R))
    (factor : list R) :
  (forall input sigma, length (gaussian_filter input sigma) = length input) ->
  (forall ps q, ps <> [] -> (FindClosestPoint ps q < length ps)%nat) ->
  get_factor gaussian_filter line method beta ratio percentage region_of_interest
    region_points = Ok factor ->
  Forall (fun f => f = 1) factor ->
  Points line <> [] -> has_radius voronoi ->
  (forall diverging_centerline diverging_voronoi out,
     change_area gaussian_filter FindClosestPoint voronoi line method beta ratio percentage
       region_of_interest region_points diverging_centerline diverging_voronoi = Ok out ->
     take (GetNumberOfPoints voronoi) (cloud out) = cloud voronoi)
  /\ (forall diverging_centerline voros,
        Points voronoi <> [] -> voros <> [] ->
        (length voros <= length diverging_centerline)%nat ->
        Forall branch_ok (zip diverging_centerline voros) ->
        exists out,
          change_area gaussian_filter FindClosestPoint voronoi line method beta ratio
            percentage region_of_interest region_points (Some diverging_centerline)
            (Some <$> voros) = Ok out
          /\ cloud out = cloud voronoi ++ concat (cloud <$> voros)).
Proof.
  intros Hgf Hfcp Hfactor Hones Hline Hrad.
  pose proof (get_factor_length _ Hgf _ _ _ _ _ _ _ _ Hfactor) as Hlen.
  unfold GetNumberOfPoints in Hlen.
  assert (Hone : forall p, nth (FindClosestPoint (Points line) p) factor 0 = 1).
  { intros p. apply nth_all_ones; [exact Hones |]. rewrite Hlen. now apply Hfcp. }
  assert (Hsame : forall q, deform (FindClosestPoint (Points line)) (Points line) factor q
                            = q).
  { intros q.
    pose proof (factor_one_deform (FindClosestPoint (Points line)) (Points line) factor [q]
                  Hone) as H.
    now injection H. }
  split.
  - intros dc dv out Hout. apply list_eq. intros i.
    pose proof (cloud_length voronoi Hrad) as Hcl.
    destruct (cloud voronoi !! i) as [[p r] |] eqn:Hi.
    + pose proof (lookup_lt_Some _ _ _ Hi) as Hlt.
      rewrite lookup_take_lt by lia.
      rewrite (change_area_main_point gaussian_filter FindClosestPoint Hgf Hfcp _ _ _ _ _
                 _ _ _ _ _ _ _ _ _ _ Hfactor Hline Hrad Hout Hi).
      now rewrite Hsame.
    + apply lookup_ge_None in Hi. apply lookup_ge_None.
      rewrite length_take. lia.
  - intros cls voros Hmain Hvoros Hle Hok.
    eexists. split; [eapply change_area_branches; eassumption |].
    rewrite cloud_polydata. unfold output_cloud.
    rewrite factor_one_deform by exact Hone. f_equal.
    transitivity (concat (cloud <$> (zip cls voros).*2)).
    + rewrite <- list_fmap_compose. f_equal. apply list_fmap_ext. intros _ [cl bv] _.
      unfold moved_branch. cbn [compose fst snd]. apply factor_one_translate, Hone.
    + now rewrite zip_snd_le.
Qed.

Lemma unit_factor_identity_witness :
  exists out,
    change_area Scipy.gaussian_filter closest_point small_voronoi (straight_line 20 1)
      "area" 0.5 None 0 "manual" None (Some [branch_line]) (Some <$> [branch_voronoi])
    = Ok out
    /\ cloud out = [((0, 1, 0), 1); ((1, 0, 2), 2); ((1, 3, 0), 1 / 2)]
    /\ take 2 (cloud out) = cloud small_voronoi.
Proof.
  destruct (get_factor_area Scipy.gaussian_filter (straight_line 20 1) 0.5 None 0 "manual"
              None scipy_gaussian_filter_length (straight_line_has_area 20 1))
    as (trans & _ & Hf).
  destruct (unit_factor_identity Scipy.gaussian_filter closest_point small_voronoi
              (straight_line 20 1) "area" 0.5 None 0 "manual" None _
              scipy_gaussian_filter_length closest_point_lt Hf) as [Htake Hall].
  - apply Forall_fmap, Forall_true. intros t. simpl. lra.
  - apply straight_line_nonempty. lia.
  - apply small_voronoi_radius.
  - destruct (Hall [branch_line] [branch_voronoi] ltac:(discriminate) ltac:(discriminate)
                ltac:(reflexivity) one_branch_ok) as (out & Hout & Hcloud).
    exists out. split; [exact Hout |]. split; [exact Hcloud |].
    exact (Htake _ _ _ Hout).
Defined.

(** The deformation is radial about the nearest centerline sample
    [(cx, cy, cz)]: in every run that returns, each coordinate of the offset
    of the new position from the sample is [f = factor[id]] times that of
    the old offset, so the squared distance to the sample is multiplied by
    [f * f], like the squared radius; a point that sits on its sample stays
    there. *)
Theorem radial_scaling (gaussian_filter : list R -> Z -> list R)
    (FindClosestPoint : list point -> point -> nat)
    (voronoi line : vtkPolyData) (method : string) (beta : R) (ratio : option R)
    (percentage : R) (region_of_interest : string) (region_points : option (list R))
    (diverging_centerline : option (list vtkPolyData))
    (diverging_voronoi : list (option vtkPolyData)) (factor : list R) (out : vtkPolyData)
    (i : nat) (x y z r : R) :
  (forall input sigma, length (gaussian_filter input sigma) = length input) ->
  (forall ps q, ps <> [] -> (FindClosestPoint ps q < length ps)%nat) ->
  get_factor gaussian_filter line method beta ratio percentage region_of_interest
    region_points = Ok factor ->
  Points line <> [] -> has_radius voronoi ->
  change_area gaussian_filter FindClosestPoint voronoi line method beta ratio percentage
    region_of_interest region_points diverging_centerline diverging_voronoi = Ok out ->
  cloud voronoi !! i = Some ((x, y, z), r) ->
  let id := FindClosestPoint (vtk_point_locator line) (x, y, z) in
  exists cx cy cz f x' y' z' r',
    Points line !! id = Some (cx, cy, cz) /\ factor !! id = Some f
    /\ cloud out !! i = Some ((x', y', z'), r')
    /\ x' - cx = f * (x - cx) /\ y' - cy = f * (y - cy) /\ z' - cz = f * (z - cz)
    /\ (x' - cx) * (x' - cx) + (y' - cy) * (y' - cy) + (z' - cz) * (z' - cz)
       = f * f * ((x - cx) * (x - cx) + (y - cy) * (y - cy) + (z - cz) * (z - cz))
    /\ r' * r' = f * f * (r * r)
    /\ ((x, y, z) = (cx, cy, cz) -> (x', y', z') = (x, y, z)).
Proof.
  intros Hgf Hfcp Hfactor Hline Hrad Hout Hi id.
  pose proof (Hfcp (Points line) (x, y, z) Hline) as Hid.
  change (FindClosestPoint (Points line) (x, y, z)) with id in Hid.
  pose proof (get_factor_length _ Hgf _ _ _ _ _ _ _ _ Hfactor) as Hlen.
  unfold GetNumberOfPoints in Hlen.
  destruct (nth_lookup_or_length (Points line) id origin) as [Hc | ?]; [| lia].
  destruct (nth_lookup_or_length factor id 0) as [Hf | ?]; [| lia].
  pose proof (change_area_main_point gaussian_filter FindClosestPoint Hgf Hfcp _ _ _ _ _ _
                _ _ _ _ _ _ _ _ _ Hfactor Hline Hrad Hout Hi) as Hnew.
  unfold deform, displacement in Hnew. cbn [fst snd] in Hnew.
  change (FindClosestPoint (Points line) (x, y, z)) with id in Hnew.
  destruct (nth id (Points line) origin) as [[cx cy] cz].
  set (f := nth id factor 0) in *.
  exists cx, cy, cz, f. eexists _, _, _, _.
  split; [exact Hc |]. split; [exact Hf |]. split; [exact Hnew |].
  repeat split; try ring.
  intros [= -> -> ->]. f_equal; [f_equal |]; ring.
Qed.

Lemma radial_scaling_witness :
  exists out x' y' z' r',
    change_area Scipy.gaussian_filter closest_point small_voronoi (straight_line 20 1)
      "area" 0.5 None 50 "manual" None None [None] = Ok out
    /\ cloud out !! 1%nat = Some ((x', y', z'), r')
    /\ x' - 1 = 1.5 * (1 - 1) /\ y' - 0 = 1.5 * (0 - 0) /\ z' - 0 = 1.5 * (2 - 0)
    /\ (x' - 1) * (x' - 1) + (y' - 0) * (y' - 0) + (z' - 0) * (z' - 0) = 9
    /\ r' * r' = 9.
Proof.
  destruct area_factor_20 as (factor & Hf & Hvalues).
  pose proof (change_area_main Scipy.gaussian_filter closest_point
                scipy_gaussian_filter_length closest_point_lt small_voronoi
                (straight_line 20 1) "area" 0.5 None 50 "manual" None factor Hf
                (straight_line_nonempty 20 1 ltac:(lia)) small_voronoi_radius []) as Hout.
  destruct (radial_scaling Scipy.gaussian_filter closest_point small_voronoi
              (straight_line 20 1) "area" 0.5 None 50 "manual" None None [None] factor _
              1 1 0 2 2 scipy_gaussian_filter_length closest_point_lt Hf
              (straight_line_nonempty 20 1 ltac:(lia)) small_voronoi_radius Hout eq_refl)
    as (cx & cy & cz & f & x' & y' & z' & r' & Hc & Hfid & Hnew & Hx & Hy & Hz & Hd & Hr
        & _).
  rewrite closest_sample_main_1 in Hc, Hfid.
  rewrite straight_line_20_points in Hc. injection Hc as <- <- <-.
  rewrite (Hvalues 1%nat ltac:(lia)) in Hfid. injection Hfid as <-.
  eexists _, x', y', z', r'. split; [exact Hout |]. split; [exact Hnew |].
  split; [exact Hx |]. split; [exact Hy |]. split; [exact Hz |].
  split; [rewrite Hd | rewrite Hr]; lra.
Defined.

(** How [change_area] fails once the factor field is there.  An empty list
    of diverging Voronoi diagrams raises IndexError; a main diagram without
    radius array raises AttributeError; an empty main diagram together with
    diverging centerlines raises UnboundLocalError (the counter starts from
    the loop variable of a loop that never ran); diverging diagrams without
    any centerline raise IndexError. *)
Theorem change_area_failures (gaussian_filter : list R -> Z -> list R)
    (FindClosestPoint : list point -> point -> nat)
    (voronoi line : vtkPolyData) (method : string) (beta : R) (ratio : option R)
    (percentage : R) (region_of_interest : string) (region_points : option (list R))
    (factor : list R) :
  (forall input sigma, length (gaussian_filter input sigma) = length input) ->
  (forall ps q, ps <> [] -> (FindClosestPoint ps q < length ps)%nat) ->
  get_factor gaussian_filter line method beta ratio percentage region_of_interest
    region_points = Ok factor ->
  Points line <> [] ->
  (forall diverging_centerline,
     change_area gaussian_filter FindClosestPoint voronoi line method beta ratio percentage
       region_of_interest region_points diverging_centerline [] = Raise IndexError)
  /\ (forall diverging_centerline first rest,
        PointData voronoi !! radiusArrayName = None ->
        change_area gaussian_filter FindClosestPoint voronoi line method beta ratio
          percentage region_of_interest region_points diverging_centerline (first :: rest)
        = Raise AttributeError)
  /\ (forall diverging_centerline voros,
        has_radius voronoi -> Points voronoi = [] -> voros <> [] ->
        change_area gaussian_filter FindClosestPoint voronoi line method beta ratio
          percentage region_of_interest region_points (Some diverging_centerline)
          (Some <$> voros) = Raise UnboundLocalError)
  /\ (forall voros,
        has_radius voronoi -> Points voronoi <> [] -> voros <> [] ->
        change_area gaussian_filter FindClosestPoint voronoi line method beta ratio
          percentage region_of_interest region_points (Some []) (Some <$> voros)
        = Raise IndexError).
Proof.
  intros Hgf Hfcp Hfactor Hline. split; [| split; [| split]].
  - intros dc. unfold change_area. rewrite Hfactor. reflexivity.
  - intros dc first rest Hnone. unfold change_area. rewrite Hfactor.
    cbn [Py.bind getitem lookup list_lookup].
    unfold GetArray_GetTuple1. rewrite Hnone.
    destruct (truthy first); [| reflexivity].
    destruct (sizes_outcome (first :: rest)) as [[sizes ->] | ->]; reflexivity.
  - intros dc voros Hrad Hempty Hv. destruct voros as [| v voros']; [done |].
    unfold change_area. rewrite Hfactor.
    change (Some <$> v :: voros') with (Some v :: (Some <$> voros')).
    cbn [Py.bind getitem lookup list_lookup truthy].
    change (Some v :: (Some <$> voros')) with (Some <$> v :: voros').
    rewrite sizes_Ok. cbn [Py.bind].
    destruct Hrad as (radii & Hr & Hlen). unfold GetArray_GetTuple1. rewrite Hr.
    cbn [Py.bind].
    assert (Hn : GetNumberOfPoints voronoi = 0%nat)
      by (unfold GetNumberOfPoints; now rewrite Hempty).
    rewrite !Hn. reflexivity.
  - intros voros Hrad Hn Hv. destruct voros as [| v voros']; [done |].
    unfold change_area. rewrite Hfactor.
    change (Some <$> v :: voros') with (Some v :: (Some <$> voros')).
    cbn [Py.bind getitem lookup list_lookup truthy].
    change (Some v :: (Some <$> voros')) with (Some <$> v :: voros').
    rewrite sizes_Ok. cbn [Py.bind].
    destruct Hrad as (radii & Hr & Hlen).
    pose proof (main_loop_Ok gaussian_filter FindClosestPoint Hgf Hfcp voronoi line method
                  beta ratio percentage region_of_interest region_points factor Hfactor
                  Hline (ex_intro _ radii (conj Hr Hlen)) radii
                  (replicate (sum_list (GetNumberOfPoints <$> v :: voros')) 0) Hr) as Hloop.
    rewrite length_replicate in Hloop.
    unfold GetArray_GetTuple1. rewrite Hr. cbn [Py.bind]. rewrite Hloop. cbn [Py.bind].
    unfold GetNumberOfPoints at 1. destruct (Points voronoi) as [| p ps]; [done |].
    reflexivity.
Qed.

Lemma change_area_failures_witness :
  change_area Scipy.gaussian_filter closest_point small_voronoi (straight_line 20 1)
    "area" 0.5 None 50 "manual" None None [] = Raise IndexError
  /\ change_area Scipy.gaussian_filter closest_point branch_line (straight_line 20 1)
       "area" 0.5 None 50 "manual" None None [None] = Raise AttributeError
  /\ change_area Scipy.gaussian_filter closest_point empty_voronoi (straight_line 20 1)
       "area" 0.5 None 50 "manual" None (Some [branch_line]) (Some <$> [branch_voronoi])
     = Raise UnboundLocalError
  /\ change_area Scipy.gaussian_filter closest_point small_voronoi (straight_line 20 1)
       "area" 0.5 None 50 "manual" None (Some []) (Some <$> [branch_voronoi])
     = Raise IndexError.
Proof.
  destruct (get_factor_area Scipy.gaussian_filter (straight_line 20 1) 0.5 None 50 "manual"
              None scipy_gaussian_filter_length (straight_line_has_area 20 1))
    as (trans & _ & Hf).
  split; [| split; [| split]].
  - exact (proj1 (change_area_failures Scipy.gaussian_filter closest_point small_voronoi
                    (straight_line 20 1) "area" 0.5 None 50 "manual" None _
                    scipy_gaussian_filter_length closest_point_lt Hf
                    (straight_line_nonempty 20 1 ltac:(lia))) None).
  - exact (proj1 (proj2 (change_area_failures Scipy.gaussian_filter closest_point
                           branch_line (straight_line 20 1) "area" 0.5 None 50 "manual"
                           None _ scipy_gaussian_filter_length closest_point_lt Hf
                           (straight_line_nonempty 20 1 ltac:(lia))))
             None None [] (lookup_empty _)).
  - apply (proj1 (proj2 (proj2 (change_area_failures Scipy.gaussian_filter closest_point
                                  empty_voronoi (straight_line 20 1) "area" 0.5 None 50
                                  "manual" None _ scipy_gaussian_filter_length
                                  closest_point_lt Hf
                                  (straight_line_nonempty 20 1 ltac:(lia)))))
             [branch_line] [branch_voronoi]).
    + exists []. split; [apply lookup_singleton_eq | reflexivity].
    + reflexivity.
    + discriminate.
  - apply (proj2 (proj2 (proj2 (change_area_failures Scipy.gaussian_filter closest_point
                                  small_voronoi (straight_line 20 1) "area" 0.5 None 50
                                  "manual" None _ scipy_gaussian_filter_length
                                  closest_point_lt Hf
                                  (straight_line_nonempty 20 1 ltac:(lia)))))
             [branch_voronoi]).
    + apply small_voronoi_radius.
    + discriminate.
    + discriminate.
Defined.

(** A call without diverging centerlines but with diverging Voronoi
    diagrams sizes the radius array for points it never adds: the output has
    the points of the main cloud only, and its radius array goes on with one
    0.0 for every point of the diverging diagrams. *)
Theorem radius_array_oversized (gaussian_filter : list R -> Z -> list R)
    (FindClosestPoint : list point -> point -> nat)
    (voronoi line : vtkPolyData) (method : string) (beta : R) (ratio : option R)
    (percentage : R) (region_of_interest : string) (region_points : option (list R))
    (voros : list vtkPolyData) (factor : list R) :
  (forall input sigma, length (gaussian_filter input sigma) = length input) ->
  (forall ps q, ps <> [] -> (FindClosestPoint ps q < length ps)%nat) ->
  get_factor gaussian_filter line method beta ratio percentage region_of_interest
    region_points = Ok factor ->
  Points line <> [] -> has_radius voronoi -> voros <> [] ->
  let main := deform (FindClosestPoint (Points line)) (Points line) factor
                <$> cloud voronoi in
  exists out,
    change_area gaussian_filter FindClosestPoint voronoi line method beta ratio percentage
      region_of_interest region_points None (Some <$> voros) = Ok out
    /\ Points out = main.*1
    /\ PointData out !! radiusArrayName
       = Some (main.*2 ++ replicate (sum_list (GetNumberOfPoints <$> voros)) 0).
Proof.
  intros Hgf Hfcp Hfactor Hline Hrad Hv main. destruct voros as [| v voros']; [done |].
  unfold change_area. rewrite Hfactor.
  change (Some <$> v :: voros') with (Some v :: (Some <$> voros')).
  cbn [Py.bind getitem lookup list_lookup truthy].
  change (Some v :: (Some <$> voros')) with (Some <$> v :: voros').
  rewrite sizes_Ok. cbn [Py.bind].
  destruct Hrad as (radii & Hr & Hlen).
  pose proof (main_loop_Ok gaussian_filter FindClosestPoint Hgf Hfcp voronoi line method
                beta ratio percentage region_of_interest region_points factor Hfactor
                Hline (ex_intro _ radii (conj Hr Hlen)) radii
                (replicate (sum_list (GetNumberOfPoints <$> v :: voros')) 0) Hr) as Hloop.
  rewrite length_replicate in Hloop.
  unfold GetArray_GetTuple1. rewrite Hr. cbn [Py.bind]. rewrite Hloop. cbn [Py.bind].
  eexists. split; [reflexivity |]. cbn [Points PointData voronoi_points radius_array].
  split; [reflexivity | apply lookup_insert_eq].
Qed.

Lemma radius_array_oversized_witness :
  exists out radii,
    change_area Scipy.gaussian_filter closest_point small_voronoi (straight_line 20 1)
      "area" 0.5 None 50 "manual" None None (Some <$> [branch_voronoi]) = Ok out
    /\ PointData out !! radiusArrayName = Some radii
    /\ length (Points out) = 2%nat /\ length radii = 3%nat.
Proof.
  destruct (get_factor_area Scipy.gaussian_filter (straight_line 20 1) 0.5 None 50 "manual"
              None scipy_gaussian_filter_length (straight_line_has_area 20 1))
    as (trans & _ & Hf).
  destruct (radius_array_oversized Scipy.gaussian_filter closest_point small_voronoi
              (straight_line 20 1) "area" 0.5 None 50 "manual" None [branch_voronoi] _
              scipy_gaussian_filter_length closest_point_lt Hf
              (straight_line_nonempty 20 1 ltac:(lia)) small_voronoi_radius
              ltac:(discriminate))
    as (out & Hout & Hpts & Hradii).
  eexists out, _. split; [exact Hout |]. split; [exact Hradii |].
  rewrite Hpts, length_app, !length_fmap. split; reflexivity.
Defined.

(** ** Arrays and centerlines in [vtk_wrapper.py] *)

(** What [create_vtk_array] writes, [get_point_data_array] reads back: the
    array made from [values] holds exactly [values]; added to a data set with
    as many points, it is read back as [values], and the other arrays of the
    data set read as before. *)
Theorem array_round_trip (values : list R) (name : string) (line : vtkPolyData) :
  length values = GetNumberOfPoints line ->
  create_vtk_array values = Ok values
  /\ get_point_data_array name (AddArray name values line) = Ok values
  /\ forall other, other <> name ->
       get_point_data_array other (AddArray name values line)
       = get_point_data_array other line.
Proof.
  intros Hlen. split; [| split].
  - unfold create_vtk_array, get_vtk_array.
    exact (create_vtk_array_loop values values [] eq_refl).
  - apply get_point_data_array_Ok; [apply lookup_insert_eq | exact Hlen].
  - intros other Hne. unfold get_point_data_array, GetArray_GetTuple1, AddArray.
    cbn [PointData]. rewrite lookup_insert_ne by congruence. reflexivity.
Qed.

Lemma array_round_trip_witness :
  create_vtk_array [3; 1 / 2] = Ok [3; 1 / 2]
  /\ get_point_data_array radiusArrayName (AddArray radiusArrayName [3; 1 / 2] branch_line)
     = Ok [3; 1 / 2].
Proof.
  destruct (array_round_trip [3; 1 / 2] radiusArrayName branch_line eq_refl)
    as (Hcreate & Hread & _).
  split; assumption.
Defined.

(** [get_point_data_array] reads one tuple per point: from an array with
    more tuples than the line has points it returns the first ones. *)
Theorem point_data_prefix (name : string) (line : vtkPolyData) (a : list R) :
  PointData line !! name = Some a -> (GetNumberOfPoints line <= length a)%nat ->
  get_point_data_array name line = Ok (take (GetNumberOfPoints line) a).
Proof.
  intros Ha Hle. unfold get_point_data_array, GetArray_GetTuple1. rewrite Ha.
  cbn [Py.bind]. rewrite <- (take_drop (GetNumberOfPoints line) a) at 1.
  pose proof (GetTuple1_prefix [] (take (GetNumberOfPoints line) a)
                (drop (GetNumberOfPoints line) a)) as H.
  rewrite length_take, Nat.min_l in H by exact Hle. exact H.
Qed.

Lemma point_data_prefix_witness :
  get_point_data_array radiusArrayName
    (mkPolyData [(0, 0, 0)] [] {[ radiusArrayName := [1; 2; 3] ]})
  = Ok [1].
Proof.
  apply (point_data_prefix radiusArrayName
           (mkPolyData [(0, 0, 0)] [] {[ radiusArrayName := [1; 2; 3] ]}) [1; 2; 3]
           (lookup_singleton_eq _ _)).
  unfold GetNumberOfPoints. cbn [Points length]. lia.
Defined.

(** ** [move_past_sphere] *)

(** When [move_past_sphere] returns [(point, r, i)], [i] is an index of
    [range(start, stop, step)] and [r] is the radius stored at [i].  Either
    [point] is the sample at [i], the first sample of the walk that is not
    strictly inside the sphere of radius [r * scale_factor] about [center];
    or every sample of the walk is strictly inside, [i] is the last index
    of the walk, and [point] is the origin [(0, 0, 0)], not a sample. *)
Theorem move_past_sphere_result (centerline : vtkPolyData) (center : point) (r : R)
    (start step stop : Z) (scale_factor : R) (p : point) (r' : R) (i : Z) :
  move_past_sphere centerline center r start step stop scale_factor = Ok (p, r', i) ->
  exists indices radii,
    py_range start stop step = Ok indices
    /\ i ∈ indices
    /\ PointData centerline !! radiusArrayName = Some radii
    /\ GetTuple1_int radii i = Ok r'
    /\ ((exists before after,
           indices = before ++ i :: after
           /\ GetPoint_int centerline i = Ok p
           /\ (r * scale_factor) * (r * scale_factor) <= distance2 p center
           /\ Forall (inside_sphere centerline center (r * scale_factor)) before)
        \/ (p = (0, 0, 0) /\ last indices = Some i
            /\ Forall (inside_sphere centerline center (r * scale_factor)) indices)).
Proof.
  unfold move_past_sphere. intros H.
  apply bind_Ok in H as (indices & Hrange & H).
  apply bind_Ok in H as ([tmp oi] & Hloop & H).
  apply bind_Ok in H as (radii & Hradii & H).
  apply bind_Ok in H as (j & Hj & H).
  apply bind_Ok in H as (x & Hx & [= <- <- <-]).
  destruct oi as [j' |]; [| discriminate]. injection Hj as ->.
  unfold GetArray_GetTuple1 in Hradii.
  destruct (PointData centerline !! radiusArrayName) as [a |] eqn:Ha; [| discriminate].
  injection Hradii as ->.
  exists indices, radii. split; [exact Hrange |].
  apply move_past_sphere_loop_spec in Hloop
    as [(before & j' & after & -> & [= <-] & Hp & Hd & Hall) | (-> & Hlast & Hall)].
  - split; [apply elem_of_app; right; constructor |].
    split; [reflexivity |]. split; [exact Hx |].
    left. exists before, after. repeat split; assumption.
  - destruct (last indices) as [j' |] eqn:El; [| discriminate]. injection Hlast as ->.
    split; [now apply last_Some_elem_of |].
    split; [reflexivity |]. split; [exact Hx |].
    right. repeat split; assumption.
Qed.

Lemma move_past_sphere_result_witness :
  move_past_sphere radius_line (3, 0, 0) 1 3 (-1) 0 0.8 = Ok ((2, 0, 0), 1, 2%Z)
  /\ exists indices radii,
       py_range 3 0 (-1) = Ok indices
       /\ 2%Z ∈ indices
       /\ PointData radius_line !! radiusArrayName = Some radii
       /\ GetTuple1_int radii 2 = Ok 1.
Proof.
  assert (Hrun : move_past_sphere radius_line (3, 0, 0) 1 3 (-1) 0 0.8
                 = Ok ((2, 0, 0), 1, 2%Z)).
  { unfold move_past_sphere.
    change (py_range 3 0 (-1)) with (@Ok (list Z) [3; 2; 1]%Z).
    cbn [Py.bind move_past_sphere_loop].
    change (GetPoint_int radius_line 3) with (@Ok point (3, 0, 0)).
    change (GetPoint_int radius_line 2) with (@Ok point (2, 0, 0)).
    cbn [Py.bind]. unfold EvaluateFunction, distance2, vsub.
    rewrite decide_False by lra. rewrite decide_True by lra. reflexivity. }
  split; [exact Hrun |].
  destruct (move_past_sphere_result radius_line (3, 0, 0) 1 3 (-1) 0 0.8 _ _ _ Hrun)
    as (indices & radii & Hrange & Hin & Hradii & Hr & _).
  exists indices, radii. repeat split; assumption.
Defined.

(** A walk without any index leaves the loop variable unbound:
    [move_past_sphere] then raises UnboundLocalError, or AttributeError
    when the centerline has no radius array; a step of 0 raises
    ValueError. *)
Theorem move_past_sphere_empty_walk (centerline : vtkPolyData) (center : point) (r : R)
    (start step stop : Z) (scale_factor : R) :
  (step = 0%Z ->
   move_past_sphere centerline center r start step stop scale_factor = Raise ValueError)
  /\ ((0 < step /\ stop <= start)%Z \/ (step < 0 /\ start <= stop)%Z ->
      move_past_sphere centerline center r start step stop scale_factor
      = match PointData centerline !! radiusArrayName with
        | Some _ => Raise UnboundLocalError
        | None => Raise AttributeError
        end).
Proof.
  split.
  - intros ->. unfold move_past_sphere, py_range. now rewrite decide_True by reflexivity.
  - intros H. unfold move_past_sphere. rewrite (py_range_empty _ _ _ H).
    cbn [Py.bind move_past_sphere_loop]. unfold GetArray_GetTuple1.
    destruct (PointData centerline !! radiusArrayName); reflexivity.
Qed.

Lemma move_past_sphere_empty_walk_witness :
  move_past_sphere radius_line (3, 0, 0) 1 0 (-1) 0 0.8 = Raise UnboundLocalError
  /\ move_past_sphere radius_line (3, 0, 0) 1 3 0 0 0.8 = Raise ValueError.
Proof.
  destruct (move_past_sphere_empty_walk radius_line (3, 0, 0) 1 0 (-1) 0 0.8)
    as [_ Hempty].
  destruct (move_past_sphere_empty_walk radius_line (3, 0, 0) 1 3 0 0 0.8)
    as [Hzero _].
  split; [| exact (Hzero eq_refl)].
  exact (Hempty (or_intror (conj eq_refl (Z.le_refl 0)))).
Defined.

(** ** Short centerlines *)

(** A ramp of one sample is no ramp at the trailing end.  When
    [round(0.10 * N)] is 1 (for N from 6 to 14), [np.linspace(1, 0, 1)] is
    [[1]] and [np.linspace(0, 1, 1)] is [[0]]: under "manual" and
    "commandline", for the methods "area" and "variation", only the first
    sample has weight 1 and every other sample, the last one too, has weight
    0; under "first_line" every sample has weight 0. *)
Theorem one_sample_ramp (region_of_interest method : string) (n : nat) :
  round_tenth n = 1%nat ->
  (region_of_interest ∈ ["manual"; "commandline"] -> method ∈ ["area"; "variation"] ->
   transition region_of_interest method n = Ok (1 :: replicate (n - 1) 0))
  /\ transition "first_line" method n = Ok (replicate n 0).
Proof.
  intros Hk. pose proof (round_tenth_half n) as Hn. rewrite Hk in Hn.
  split.
  - intros Hroi Hmethod. rewrite transition_eq. cbv zeta. rewrite Hk.
    rewrite decide_False.
    2:{ intros ->. repeat (apply elem_of_cons in Hroi as [Hroi | Hroi]; [discriminate |]).
        inversion Hroi. }
    rewrite !bool_decide_eq_true_2 by assumption. cbn [andb Np.linspace app].
    f_equal. f_equal.
    replace (n - 1)%nat with ((n - 2 * 1) + 1)%nat by lia.
    now rewrite replicate_add.
  - rewrite transition_eq. cbv zeta. rewrite Hk, decide_True by reflexivity.
    cbn [Np.linspace]. replace n with ((n - 1) + 1)%nat at 2 by lia.
    now rewrite replicate_add.
Qed.

Lemma one_sample_ramp_witness :
  transition "manual" "area" 10 = Ok [1; 0; 0; 0; 0; 0; 0; 0; 0; 0]
  /\ transition "first_line" "area" 10 = Ok [0; 0; 0; 0; 0; 0; 0; 0; 0; 0].
Proof.
  destruct (one_sample_ramp "manual" "area" 10 eq_refl) as [Hmanual Hfirst].
  split; [| exact Hfirst].
  apply Hmanual; [constructor | constructor].
Defined.
